(** * CoBEVFlow: the multi-sweep intermediate-fusion dataset

    A shallow embedding of
    [opencood/data_utils/datasets/intermediate_fusion_dataset_opv2v_delay_multisweep.py]
    (class [IntermediateFusionDatasetMultisweep]): index construction,
    temporal sampling, per-agent processing, sample assembly and batch
    collation, followed by the properties proved about them.

    Python integers are [Z]; exceptions are the [Raise] results of a small
    error monad; [OrderedDict]s are association lists in insertion order;
    the numeric back end (numpy, torch, the pre- and post-processor, the
    file loaders) is an interface the development is parametric in. *)

From Stdlib Require Import ZArith List String Bool Lia.
Import ListNotations.

Local Open Scope string_scope.
Local Open Scope list_scope.
Local Open Scope Z_scope.

Set Warnings "-register-all".

(* ================================================================= *)
(** ** Exceptions and results *)

Inductive exn : Type :=
| KeyError
| IndexError
| TypeError
| NameError
| AssertionError
| ValueError
| RuntimeError
| LoaderError.

Inductive res (A : Type) : Type :=
| Ok (a : A)
| Raise (e : exn).

Arguments Ok {A} a.
Arguments Raise {A} e.

Definition bind {A B : Type} (c : res A) (f : A -> res B) : res B :=
  match c with
  | Ok a => f a
  | Raise e => Raise e
  end.

Notation "x <- c ;; f" := (bind c (fun x => f))
  (at level 61, c at next level, right associativity).
Notation "' pat <- c ;; f" := (bind c (fun x => match x with pat => f end))
  (at level 61, pat pattern, c at next level, right associativity).

Definition assert (b : bool) : res unit :=
  if b then Ok tt else Raise AssertionError.

Fixpoint mapM {A B : Type} (f : A -> res B) (l : list A) : res (list B) :=
  match l with
  | [] => Ok []
  | a :: l' => b <- f a ;; bs <- mapM f l' ;; Ok (b :: bs)
  end.

(* ================================================================= *)
(** ** Python sequences *)

(** [l[z]] for a Python list: a negative subscript counts from the end. *)
Definition py_index {A : Type} (l : list A) (z : Z) : res A :=
  let n := Z.of_nat (List.length l) in
  let z' := if z <? 0 then z + n else z in
  if (0 <=? z') && (z' <? n)
  then match nth_error l (Z.to_nat z') with
       | Some a => Ok a
       | None => Raise IndexError
       end
  else Raise IndexError.

(** [range(n)] *)
Definition py_range (n : Z) : list Z :=
  map Z.of_nat (seq 0 (Z.to_nat n)).

(** [l.index(x)]: the position of the first occurrence. *)
Fixpoint list_index (x : Z) (l : list Z) : res Z :=
  match l with
  | [] => Raise ValueError
  | y :: l' => if x =? y then Ok 0 else n <- list_index x l' ;; Ok (n + 1)
  end.

(* ================================================================= *)
(** ** Ordered dictionaries *)

Section OrderedDict.
Context {K V : Type} (eqb : K -> K -> bool).

Definition odict : Type := list (K * V).

Fixpoint od_get (k : K) (d : odict) : option V :=
  match d with
  | [] => None
  | (k', v) :: d' => if eqb k k' then Some v else od_get k d'
  end.

(** [d[k] = v]: an existing key keeps its position. *)
Fixpoint od_set (k : K) (v : V) (d : odict) : odict :=
  match d with
  | [] => [(k, v)]
  | (k', v') :: d' =>
      if eqb k k' then (k, v) :: d' else (k', v') :: od_set k v d'
  end.

(** [d.pop(k)] *)
Fixpoint od_pop (k : K) (d : odict) : res odict :=
  match d with
  | [] => Raise KeyError
  | (k', v') :: d' =>
      if eqb k k' then Ok d'
      else d'' <- od_pop k d' ;; Ok ((k', v') :: d'')
  end.

Definition od_keys (d : odict) : list K := map fst d.
End OrderedDict.

(* ================================================================= *)
(** ** The numeric back end *)

(** numpy / torch values the dataset only moves around. *)
Class Arrays : Type := {
  F : Type;                          (* a Python float *)
  F_of_Z : Z -> F;
  fsub : F -> F -> F;
  fadd : F -> F -> F;
  fpow2 : F -> F;                    (* x ** 2 *)
  fsqrt : F -> F;                    (* math.sqrt *)
  fgtb : F -> F -> bool;             (* x > y *)
  fnonzero : F -> bool;              (* bool(x) *)
  cloud : Type;                      (* an (N, 4) lidar array *)
  points : Type;                     (* an (N, 3) array *)
  matrix : Type;                     (* a (4, 4) array *)
  eye4 : matrix;                     (* np.eye(4) *)
  solve : matrix -> matrix -> matrix;  (* np.linalg.solve *)
  box : Type;                        (* one row x, y, z, l, w, h, yaw *)
  zero_box : box;                    (* a row of np.zeros((n, 7)) *)
  feature : Type;                    (* one array of a feature mapping *)
  tensor : Type;                     (* a collated feature tensor *)
  batch_column : tensor -> list Z;   (* t[:, 0], as integers *)
  anchors : Type;
  labels : Type;
}.

(** Dictionary keys the code subscripts with. *)
Inductive pykey : Type :=
| KStr (s : string)
| KInt (z : Z).

Definition pykey_eqb (a b : pykey) : bool :=
  match a, b with
  | KStr s, KStr t => String.eqb s t
  | KInt x, KInt y => x =? y
  | _, _ => false
  end.

Section Values.
Context `{Arrays}.

(** The values stored in the per-sample dictionaries. *)
Inductive pyval : Type :=
| VNone
| VBool (b : bool)
| VInt (z : Z)
| VFloat (x : F)
| VStr (s : string)
| VList (l : list pyval)
| VDict (d : list (pykey * pyval))
| VCloud (c : cloud).

(** [v[k]] *)
Definition subscript (v : pyval) (k : pykey) : res pyval :=
  match v with
  | VDict d =>
      match od_get pykey_eqb k d with
      | Some x => Ok x
      | None => Raise KeyError
      end
  | VList l =>
      match k with
      | KInt z => py_index l z
      | KStr _ => Raise TypeError
      end
  | _ => Raise TypeError
  end.

(** [bool(v)] *)
Definition truthy (v : pyval) : res bool :=
  match v with
  | VNone => Ok false
  | VBool b => Ok b
  | VInt z => Ok (negb (z =? 0))
  | VFloat x => Ok (fnonzero x)
  | VStr s => Ok (negb (String.eqb s ""))
  | VList l => Ok (negb (Nat.eqb (List.length l) 0))
  | VDict d => Ok (negb (Nat.eqb (List.length d) 0))
  | VCloud _ => Raise ValueError
  end.

(** [len(v)] *)
Definition py_len (v : pyval) : res Z :=
  match v with
  | VStr s => Ok (Z.of_nat (String.length s))
  | VList l => Ok (Z.of_nat (List.length l))
  | VDict d => Ok (Z.of_nat (List.length d))
  | _ => Raise TypeError
  end.

(** A number used in float arithmetic. *)
Definition as_float (v : pyval) : res F :=
  match v with
  | VFloat x => Ok x
  | VInt z => Ok (F_of_Z z)
  | VBool b => Ok (F_of_Z (if b then 1 else 0))
  | _ => Raise TypeError
  end.
End Values.


(** A value of a feature mapping: an array, or a list of arrays. *)
Inductive fval `{Arrays} : Type :=
| FArr (a : feature)
| FList (l : list feature).

(* ================================================================= *)
(** ** External collaborators *)

(** The loaders, the geometry helpers of [opencood.utils], the
    pre-processor and the post-processor: consumed, never inspected. *)
Class Collaborators `{Arrays} : Type := {
  load_yaml : string -> res pyval;
  pcd_to_np : string -> res cloud;
  x_to_world : pyval -> matrix;
  x1_to_x2 : pyval -> pyval -> matrix;
  shuffle_points : cloud -> cloud;
  mask_ego_points : cloud -> cloud;
  xyz : cloud -> points;                                (* a[:, :3] *)
  project_points_by_matrix_torch : points -> matrix -> points;
  mask_points_by_range : cloud -> list F -> cloud;
  vstack_points : list points -> res points;            (* np.vstack *)
  downsample_lidar_minimum : list points -> list points;
  preprocess : cloud -> list (string * fval);
  pre_collate_batch :
    list (string * list feature) -> res (list (string * tensor));
  pre_collate_batch_list :
    list (list (string * list feature)) -> res (list (string * tensor));
  generate_object_center :
    list pyval -> pyval -> res (list box * list Z * list Z);
  generate_anchor_box : option anchors;
  generate_label : list box -> option anchors -> list Z -> labels;
  post_collate_batch : list labels -> labels;
  set_iter : list Z -> list Z;                          (* list(set(l)) *)
}.

(* ================================================================= *)
(** ** Configuration and the dataset object *)

Record params `{Arrays} : Type := {
  num_sweep_frames : option Z;       (* 'num_sweep_frames' in params *)
  time_delay : option Z;             (* 'time_delay' in params *)
  fusion_proj_first : option bool;   (* params['fusion']['args'] *)
  train_max_cav : option Z;          (* params['train_params']['max_cav'] *)
  comm_range : F;
  cav_lidar_range : list F;          (* params['preprocess'] *)
  core_method : string;              (* params['preprocess'] *)
  max_num : Z;                       (* params['postprocess'] *)
}.

(** What one agent's [OrderedDict] of the scenario database holds. *)
Inductive entry : Type :=
| EgoFlag (b : bool)
| Frame (yaml lidar : string).

(** [bool(e)]: a frame is a non-empty dictionary. *)
Definition entry_truth (e : entry) : bool :=
  match e with
  | EgoFlag b => b
  | Frame _ _ => true
  end.

Definition cav_content : Type := list (string * entry).
Definition scenario : Type := list (string * cav_content).

Record dataset `{Arrays} : Type := {
  self_params : params;
  visualize : bool;
  kd_flag : bool;                    (* read by the methods, set elsewhere *)
  k : Z;
  tau : Z;
  proj_first : bool;
  max_cav : Z;
  scenario_database : list scenario; (* keyed by 0, 1, ... *)
  len_record : list Z;
}.

(** The directory listing [__init__] walks: per scenario folder the sorted
    agent folders, per agent the timestamps of its yaml files. *)
Record cav_dir : Type := {
  cav_name : string;
  cav_timestamps : list string;
}.

Record scenario_dir : Type := {
  scenario_path : string;
  cav_list : list cav_dir;
}.

Definition path_join (a b : string) : string :=
  (a ++ "/" ++ b)%string.

(* ================================================================= *)
(** ** Index construction: [__init__] *)

Section Init.
Context `{Arrays}.
Variables (k_ tau_ max_cav_ : Z).

(** [for timestamp in timestamps: ...] *)
Definition add_frames (cav_path : string) (timestamps : list string)
    (content : cav_content) : cav_content :=
  fold_left
    (fun d timestamp =>
       od_set String.eqb timestamp
         (Frame (path_join cav_path (timestamp ++ ".yaml")%string)
                (path_join cav_path (timestamp ++ ".pcd")%string)) d)
    timestamps content.

(** [self.len_record.append(...)] for the first agent of a scenario. *)
Definition push_len_record (num_ego_timestamps : Z) (lr : list Z) : list Z :=
  match lr with
  | [] => [num_ego_timestamps]
  | _ => lr ++ [last lr 0 + num_ego_timestamps]
  end.

(** [for (j, cav_id) in enumerate(cav_list): ...]; the state is the
    scenario's dictionary, [len_record] and the printed lines. *)
Fixpoint load_cavs (folder : string) (j : Z) (cavs : list cav_dir)
    (sc : scenario) (lr : list Z) (out : list string)
  : scenario * list Z * list string :=
  match cavs with
  | [] => (sc, lr, out)
  | c :: rest =>
      if j >? max_cav_ - 1 then (sc, lr, out ++ ["too many cavs"])
      else
        let cav_path := path_join folder (cav_name c) in
        let timestamps := cav_timestamps c in
        let flag : cav_content := [("ego", EgoFlag (j =? 0))] in
        let lr' :=
          if j =? 0
          then push_len_record
                 (Z.of_nat (List.length timestamps) - (tau_ + k_ - 1)) lr
          else lr in
        let content := add_frames cav_path timestamps flag in
        load_cavs folder (j + 1) rest
          (od_set String.eqb (cav_name c) content sc) lr' out
  end.

(** [for (i, scenario_folder) in enumerate(scenario_folders): ...] *)
Fixpoint load_scenarios (folders : list scenario_dir)
    (db : list scenario) (lr : list Z) (out : list string)
  : res (list scenario * list Z * list string) :=
  match folders with
  | [] => Ok (db, lr, out)
  | f :: rest =>
      _ <- assert (0 <? Z.of_nat (List.length (cav_list f))) ;;
      let '(sc, lr', out') :=
        load_cavs (scenario_path f) 0 (cav_list f) [] lr out in
      load_scenarios rest (db ++ [sc]) lr' out'
  end.
End Init.

(** [__init__(params, visualize, train)], on the listing of the directory
    that [train] selects.  [kd_flag_] is the attribute [self.kd_flag], which
    the methods read and this class never assigns. *)
Definition init `{Arrays} (p : params) (visualize_ kd_flag_ : bool)
    (folders : list scenario_dir) : res (dataset * list string) :=
  let k_ := match num_sweep_frames p with Some n => n | None => 0 end in
  let tau_ := match time_delay p with Some n => n | None => 0 end in
  _ <- assert (match fusion_proj_first p with Some _ => true | None => false end) ;;
  let proj_first_ :=
    match fusion_proj_first p with Some b => b | None => false end in
  let max_cav_ := match train_max_cav p with Some n => n | None => 5 end in
  '(db, lr, out) <- load_scenarios k_ tau_ max_cav_ folders [] [] [] ;;
  (* the closing print reads self.len_record[-1] *)
  _ <- py_index lr (-1) ;;
  Ok ({| self_params := p; visualize := visualize_; kd_flag := kd_flag_;
         k := k_; tau := tau_; proj_first := proj_first_;
         max_cav := max_cav_; scenario_database := db; len_record := lr |},
      out).

(* ================================================================= *)
(** ** Temporal sampling: [retrieve_base_data] *)

(** A Python local that may not be bound yet. *)
Definition read_local {A : Type} (v : option A) : res A :=
  match v with
  | Some a => Ok a
  | None => Raise NameError
  end.

(** [for i, ele in enumerate(self.len_record): if idx < ele: ...; break].
    Returns [scenario_index] and what the loop leaves in [i]. *)
Fixpoint scan_len_record (idx : Z) (j : Z) (lr : list Z) (i : option Z)
  : Z * option Z :=
  match lr with
  | [] => (0, i)
  | ele :: lr' =>
      if idx <? ele then (j, Some j)
      else scan_len_record idx (j + 1) lr' (Some j)
  end.

Section Retrieve.
Context `{Arrays}.
Variable self : dataset.

(** [idx + i if scenario_index == 0 else
     idx + i - self.len_record[scenario_index - 1]] *)
Definition timestamp_base (idx i scenario_index : Z) : res Z :=
  if scenario_index =? 0 then Ok (idx + i)
  else prev <- py_index (len_record self) (scenario_index - 1) ;;
       Ok (idx + i - prev).

(** The current-frame position. *)
Definition curr_timestamp_index (idx i scenario_index : Z) : res Z :=
  timestamp_index <- timestamp_base idx i scenario_index ;;
  Ok (timestamp_index + tau self + k self - 1).

(** The position of past frame [i]. *)
Definition past_timestamp_index (idx i scenario_index temp : Z) : res Z :=
  timestamp_index <- timestamp_base idx i scenario_index ;;
  Ok (timestamp_index + k self - 1 - i + temp).

(** The loop is written once, over what is done with a position and the
    agent's dictionary: the dataset loads the frame found there. *)
Section Frames.
Context {A : Type} (at_position : cav_content -> Z -> res A).

Record cav_frames : Type := {
  cf_ego : entry;
  cf_past_k : list (Z * A);
  cf_curr : A;
}.

(** [for i in range(self.k): ...] *)
Fixpoint past_frames (content : cav_content) (idx scenario_index temp : Z)
    (range : list Z) : res (list (Z * A)) :=
  match range with
  | [] => Ok []
  | i :: range' =>
      timestamp_index <- past_timestamp_index idx i scenario_index temp ;;
      frame <- at_position content timestamp_index ;;
      rest <- past_frames content idx scenario_index temp range' ;;
      Ok ((i, frame) :: rest)
  end.

(** The body of [for cav_id, cav_content in scenario_database.items()];
    [i] is whatever the enclosing function last bound it to. *)
Definition cav_body (content : cav_content) (idx scenario_index : Z)
    (i : option Z) : res (cav_frames * option Z) :=
  ego <- match od_get String.eqb "ego" content with
         | Some e => Ok e
         | None => Raise KeyError
         end ;;
  i0 <- read_local i ;;
  timestamp_index <- curr_timestamp_index idx i0 scenario_index ;;
  curr <- at_position content timestamp_index ;;
  let temp := if entry_truth ego then tau self else 0 in
  let range := py_range (k self) in
  past <- past_frames content idx scenario_index temp range ;;
  Ok ({| cf_ego := ego; cf_past_k := past; cf_curr := curr |},
      match range with
      | [] => i
      | _ => Some (last range 0)
      end).

Fixpoint cav_loop (sc : scenario) (idx scenario_index : Z) (i : option Z)
    (data : list (string * cav_frames)) : res (list (string * cav_frames)) :=
  match sc with
  | [] => Ok data
  | (cav_id, content) :: sc' =>
      '(frames, i') <- cav_body content idx scenario_index i ;;
      cav_loop sc' idx scenario_index i'
        (od_set String.eqb cav_id frames data)
  end.

Definition retrieve_frames (idx : Z) : res (list (string * cav_frames)) :=
  let '(scenario_index, i) := scan_len_record idx 0 (len_record self) None in
  sc <- match nth_error (scenario_database self) (Z.to_nat scenario_index) with
        | Some sc => Ok sc
        | None => Raise KeyError
        end ;;
  cav_loop sc idx scenario_index i [].
End Frames.

(** [list(cav_content.items())[timestamp_index][0]] *)
Definition timestamp_key_at (content : cav_content) (timestamp_index : Z)
  : res string :=
  item <- py_index content timestamp_index ;;
  Ok (fst item).

(** [cav_content[timestamp_key][field]] *)
Definition frame_field (content : cav_content) (timestamp_key field : string)
  : res string :=
  match od_get String.eqb timestamp_key content with
  | None => Raise KeyError
  | Some (EgoFlag _) => Raise TypeError    (* a bool has no subscript *)
  | Some (Frame yaml lidar) =>
      if String.eqb field "yaml" then Ok yaml
      else if String.eqb field "lidar" then Ok lidar
      else Raise KeyError
  end.

Context `{!Collaborators}.

(** The three entries stored for a frame. *)
Definition load_frame (content : cav_content) (timestamp_index : Z)
  : res pyval :=
  timestamp_key <- timestamp_key_at content timestamp_index ;;
  yaml <- frame_field content timestamp_key "yaml" ;;
  params_ <- load_yaml yaml ;;
  lidar <- frame_field content timestamp_key "lidar" ;;
  lidar_np <- pcd_to_np lidar ;;
  Ok (VDict [(KStr "params", params_);
             (KStr "lidar_np", VCloud lidar_np);
             (KStr "timestamp", VStr timestamp_key)]).

Definition entry_value (e : entry) : pyval :=
  match e with
  | EgoFlag b => VBool b
  | Frame yaml lidar =>
      VDict [(KStr "yaml", VStr yaml); (KStr "lidar", VStr lidar)]
  end.

(** [data[cav_id]]: the keys in the order the code creates them. *)
Definition cav_data (f : cav_frames (A := pyval)) : pyval :=
  VDict [(KStr "ego", entry_value (cf_ego f));
         (KStr "past_k",
          VDict (map (fun p => (KInt (fst p), snd p)) (cf_past_k f)));
         (KStr "curr", cf_curr f)].

Definition retrieve_base_data (idx : Z) : res (list (string * pyval)) :=
  data <- retrieve_frames load_frame idx ;;
  Ok (map (fun p => (fst p, cav_data (snd p))) data).
End Retrieve.

(* ================================================================= *)
(** ** Loops and array updates *)

Fixpoint foldM {A S : Type} (f : S -> A -> res S) (l : list A) (s : S) : res S :=
  match l with
  | [] => Ok s
  | a :: l' => s' <- f s a ;; foldM f l' s'
  end.

(** [a[n] = x] on an array axis of fixed length. *)
Fixpoint set_nth {A : Type} (l : list A) (n : nat) (x : A) : res (list A) :=
  match l, n with
  | [], _ => Raise IndexError
  | _ :: l', O => Ok (x :: l')
  | y :: l', S n' => l'' <- set_nth l' n' x ;; Ok (y :: l'')
  end.

(** [a[i, j] = x] *)
Definition set_entry {A : Type} (a : list (list A)) (i j : nat) (x : A)
  : res (list (list A)) :=
  match nth_error a i with
  | None => Raise IndexError
  | Some row => row' <- set_nth row j x ;; set_nth a i row'
  end.

(* ================================================================= *)
(** ** Pairwise transformations: [get_pairwise_transformation] *)

Section Pairwise.
Context `{Collaborators}.
Variable self : dataset.

(** [np.tile(np.eye(4), (max_cav, max_cav, 1, 1))] *)
Definition tile_eye (max_cav_ : Z) : res (list (list matrix)) :=
  if max_cav_ <? 0 then Raise ValueError
  else Ok (repeat (repeat eye4 (Z.to_nat max_cav_)) (Z.to_nat max_cav_)).

(** [for cav_id, cav_content in base_data_dict.items(): t_list.append(...)] *)
Definition world_matrices (base_data_dict : list (string * pyval))
  : res (list matrix) :=
  mapM (fun item =>
          params_ <- subscript (snd item) (KStr "params") ;;
          lidar_pose <- subscript params_ (KStr "lidar_pose") ;;
          Ok (x_to_world lidar_pose))
       base_data_dict.

(** The body of the inner loop over [j]. *)
Definition pairwise_step (t_list : list matrix) (i : nat)
    (t : list (list matrix)) (j : nat) : res (list (list matrix)) :=
  if Nat.eqb i j then Ok t
  else
    match nth_error t_list j, nth_error t_list i with
    | Some tj, Some ti => set_entry t i j (solve tj ti)
    | _, _ => Raise IndexError
    end.

Definition pairwise_fill (t_list : list matrix) (t : list (list matrix))
  : res (list (list matrix)) :=
  let range := seq 0 (List.length t_list) in
  foldM (fun t i => foldM (pairwise_step t_list i) range t) range t.

Definition get_pairwise_transformation
    (base_data_dict : list (string * pyval)) (max_cav_ : Z)
  : res (list (list matrix)) :=
  pairwise_t_matrix <- tile_eye max_cav_ ;;
  if proj_first self then Ok pairwise_t_matrix
  else
    t_list <- world_matrices base_data_dict ;;
    pairwise_fill t_list pairwise_t_matrix.
End Pairwise.

(* ================================================================= *)
(** ** One agent: [get_item_single_car] *)

Record cav_processed `{Arrays} : Type := {
  object_bbx_center : list box;
  object_ids : list Z;
  projected_lidar : points;
  processed_features : list (string * fval);
  transformation_matrix : matrix;
}.

(** [a[mask == 1]]: a boolean index has to match the indexed axis. *)
Fixpoint mask_select {A : Type} (a : list A) (mask : list Z) : res (list A) :=
  match a, mask with
  | [], [] => Ok []
  | x :: a', m :: mask' =>
      rest <- mask_select a' mask' ;;
      Ok (if m =? 1 then x :: rest else rest)
  | _, _ => Raise IndexError
  end.

Section SingleCar.
Context `{Collaborators}.
Variable self : dataset.

Definition as_cloud (v : pyval) : res cloud :=
  match v with
  | VCloud c => Ok c
  | _ => Raise TypeError
  end.

(** The body of [for i in range(self.k)]; the state is the pair of
    locals [projected_lidar], [processed_lidar]. *)
Definition sweep_body (selected_cav_base ego_pose : pyval)
    (locals : option points * option (list (string * fval))) (i : Z)
  : res (option points * option (list (string * fval))) :=
  past_k <- subscript selected_cav_base (KStr "past_k") ;;
  params_ <- subscript past_k (KStr "params") ;;
  lidar_pose <- subscript params_ (KStr "lidar_pose") ;;
  let transformation_matrix_ := x1_to_x2 lidar_pose ego_pose in
  lidar <- subscript selected_cav_base (KStr "lidar_np") ;;
  lidar_np <- as_cloud lidar ;;
  let lidar_np := shuffle_points lidar_np in
  let lidar_np := mask_ego_points lidar_np in
  let projected_lidar_ :=
    project_points_by_matrix_torch (xyz lidar_np) transformation_matrix_ in
  let lidar_np :=
    mask_points_by_range lidar_np (cav_lidar_range (self_params self)) in
  let processed_lidar := preprocess lidar_np in
  Ok (Some projected_lidar_, Some processed_lidar).

Definition get_item_single_car (selected_cav_base ego_pose idx : pyval)
  : res cav_processed :=
  '(projected_lidar_, processed_lidar) <-
    foldM (sweep_body selected_cav_base ego_pose)
          (py_range (k self)) (None, None) ;;
  curr <- subscript selected_cav_base (KStr "curr") ;;
  params_ <- subscript curr (KStr "params") ;;
  lidar_pose <- subscript params_ (KStr "lidar_pose") ;;
  let transformation_matrix_ := x1_to_x2 lidar_pose ego_pose in
  '(object_bbx_center_, object_bbx_mask, object_ids_) <-
    generate_object_center [curr] ego_pose ;;
  boxes <- mask_select object_bbx_center_ object_bbx_mask ;;
  projected_lidar_ <- read_local projected_lidar_ ;;
  processed_lidar <- read_local processed_lidar ;;
  Ok {| object_bbx_center := boxes;
        object_ids := object_ids_;
        projected_lidar := projected_lidar_;
        processed_features := processed_lidar;
        transformation_matrix := transformation_matrix_ |}.

(** A call of the method: it has three parameters besides [self]. *)
Definition call_get_item_single_car (args : list pyval) : res cav_processed :=
  match args with
  | [selected_cav_base; ego_pose; idx] =>
      get_item_single_car selected_cav_base ego_pose idx
  | _ => Raise TypeError
  end.
End SingleCar.

(* ================================================================= *)
(** ** Sample assembly: [__getitem__] *)

(** [processed_data_dict['ego']] *)
Record sample `{Arrays} : Type := {
  s_object_bbx_center : list box;
  s_object_bbx_mask : list Z;
  s_object_ids : list Z;
  s_anchor_box : option anchors;
  s_processed_lidar : list (string * list feature);
  s_label_dict : labels;
  s_cav_num : Z;
  s_pairwise_t_matrix : list (list matrix);
  s_lidar_poses_clean : list (list F);
  s_lidar_poses : list (list F);
  s_teacher_processed_lidar : option (list (string * list feature));
  s_origin_lidar : option points;
  s_sample_idx : Z;
  s_cav_id_list : list string;
}.

(** [merge_features_to_dict] *)
Definition merge_feature `{Arrays} (merged : list (string * list feature))
    (item : string * fval) : list (string * list feature) :=
  let present :=
    match od_get String.eqb (fst item) merged with
    | Some l => l
    | None => []
    end in
  od_set String.eqb (fst item)
    (present ++ match snd item with
                | FList l => l
                | FArr a => [a]
                end)
    merged.

Definition merge_features_to_dict `{Arrays}
    (processed_feature_list : list (list (string * fval)))
  : list (string * list feature) :=
  fold_left (fun merged d => fold_left merge_feature d merged)
            processed_feature_list [].

Section GetItem.
Context `{Collaborators}.
Variable self : dataset.

(** Lines 316-323: the search for the ego agent.  Returns [ego_id]
    ([None] stands for the initial -1), [ego_lidar_pose] and the last
    value of the loop variable [cav_id]. *)
Fixpoint find_ego (items : list (string * pyval)) (cav_id : option string)
  : res (option string * pyval * option string) :=
  match items with
  | [] => Ok (None, VList [], cav_id)
  | (id, cav_content_) :: items' =>
      ego <- subscript cav_content_ (KStr "ego") ;;
      flag <- truthy ego ;;
      if (flag : bool) then
        params_ <- subscript cav_content_ (KStr "params") ;;
        ego_lidar_pose <- subscript params_ (KStr "lidar_pose") ;;
        Ok (Some id, ego_lidar_pose, Some id)
      else find_ego items' (Some id)
  end.

(** Lines 340-343. *)
Definition planar_distance (selected_cav_base ego_lidar_pose : pyval)
  : res F :=
  past_k <- subscript selected_cav_base (KStr "past_k") ;;
  latest <- subscript past_k (KInt 0) ;;
  params_ <- subscript latest (KStr "params") ;;
  lidar_pose <- subscript params_ (KStr "lidar_pose") ;;
  x <- subscript lidar_pose (KInt 0) ;;
  x0 <- subscript ego_lidar_pose (KInt 0) ;;
  x <- as_float x ;;
  x0 <- as_float x0 ;;
  let dx2 := fpow2 (fsub x x0) in
  past_k <- subscript selected_cav_base (KStr "past_k") ;;
  latest <- subscript past_k (KInt 0) ;;
  params_ <- subscript latest (KStr "params") ;;
  lidar_pose <- subscript params_ (KStr "lidar_pose") ;;
  y <- subscript lidar_pose (KInt 1) ;;
  y0 <- subscript ego_lidar_pose (KInt 1) ;;
  y <- as_float y ;;
  y0 <- as_float y0 ;;
  Ok (fsqrt (fadd dx2 (fpow2 (fsub y y0)))).

(** Lines 337-351: the communication-range loop; the state is
    [(too_far, lidar_pose_list, cav_id_list)]. *)
Definition comm_range_body (ego_lidar_pose : pyval)
    (st : list string * list pyval * list string) (item : string * pyval)
  : res (list string * list pyval * list string) :=
  let '(too_far, lidar_pose_list, cav_id_list) := st in
  let '(cav_id, selected_cav_base) := item in
  distance <- planar_distance selected_cav_base ego_lidar_pose ;;
  if fgtb distance (comm_range (self_params self))
  then Ok (too_far ++ [cav_id], lidar_pose_list, cav_id_list)
  else
    params_ <- subscript selected_cav_base (KStr "params") ;;
    lidar_pose <- subscript params_ (KStr "lidar_pose") ;;
    Ok (too_far, lidar_pose_list ++ [lidar_pose], cav_id_list ++ [cav_id]).

Definition comm_range_filter (base_data_dict : list (string * pyval))
    (ego_lidar_pose : pyval)
  : res (list string * list pyval * list string) :=
  foldM (comm_range_body ego_lidar_pose) base_data_dict ([], [], []).

(** Lines 358-375: the per-agent loop; the state is [(object_stack,
    object_id_stack, processed_features, projected_lidar_stack)]. *)
Definition process_body (base_data_dict : list (string * pyval))
    (ego_lidar_pose : pyval) (ego_id : option string) (idx : Z)
    (st : list (list box) * list Z * list (list (string * fval)) * list points)
    (cav_id : string)
  : res (list (list box) * list Z * list (list (string * fval)) * list points) :=
  let '(object_stack, object_id_stack, processed_features_, lidar_stack) := st in
  selected_cav_base <-
    match od_get String.eqb cav_id base_data_dict with
    | Some v => Ok v
    | None => Raise KeyError
    end ;;
  let is_ego :=
    match ego_id with
    | Some e => String.eqb cav_id e
    | None => false
    end in
  selected_cav_processed <-
    call_get_item_single_car self
      [selected_cav_base; ego_lidar_pose; VBool is_ego; VInt idx] ;;
  Ok (object_stack ++ [object_bbx_center selected_cav_processed],
      object_id_stack ++ object_ids selected_cav_processed,
      processed_features_ ++ [processed_features selected_cav_processed],
      if visualize self
      then lidar_stack ++ [projected_lidar selected_cav_processed]
      else lidar_stack).

(** [np.array(lidar_pose_list).reshape(-1, 6)] *)
Fixpoint chunk6 (fuel : nat) (l : list F) : list (list F) :=
  match fuel, l with
  | S fuel', _ :: _ => firstn 6 l :: chunk6 fuel' (skipn 6 l)
  | _, _ => []
  end.

Definition pose_row (v : pyval) : res (list F) :=
  match v with
  | VList l => mapM as_float l
  | _ => Raise ValueError
  end.

Definition reshape_poses (lidar_pose_list : list pyval) : res (list (list F)) :=
  rows <- mapM pose_row lidar_pose_list ;;
  let width := match rows with r :: _ => List.length r | [] => O end in
  if negb (forallb (fun r => Nat.eqb (List.length r) width) rows)
  then Raise ValueError
  else
    let flat := List.concat rows in
    if negb (Nat.eqb (Nat.modulo (List.length flat) 6) 0)
    then Raise ValueError
    else Ok (chunk6 (List.length flat) flat).

(** Lines 406-417: one box per object id, padded to [max_num] rows. *)
Definition merge_objects (object_stack : list (list box))
    (object_id_stack : list Z) : res (list box * list Z * list Z) :=
  unique_indices <-
    mapM (fun x => list_index x object_id_stack) (set_iter object_id_stack) ;;
  _ <- match object_stack with            (* np.vstack of no array *)
       | [] => Raise ValueError
       | _ => Ok tt
       end ;;
  let stacked := List.concat object_stack in
  object_stack' <- mapM (py_index stacked) unique_indices ;;
  let max_num_ := max_num (self_params self) in
  _ <- (if max_num_ <? 0 then Raise ValueError else Ok tt) ;;
  let n := List.length object_stack' in
  let room := Z.to_nat max_num_ in
  ids <- mapM (py_index object_id_stack) unique_indices ;;
  if Nat.leb n room
  then Ok (object_stack' ++ repeat zero_box (room - n),
           repeat 1 n ++ repeat 0 (room - n),
           ids)
  else if Nat.eqb n 1       (* one row broadcasts onto an empty slice *)
  then Ok (repeat zero_box room, repeat 0 room, ids)
  else Raise ValueError.    (* shapes (n, 7) and (max_num, 7) differ *)

Definition getitem (idx : Z) : res sample :=
  base_data_dict <- retrieve_base_data self idx ;;
  '(ego_id, ego_lidar_pose, cav_id) <- find_ego base_data_dict None ;;
  cav_id <- read_local cav_id ;;
  first <- py_index (od_keys base_data_dict) 0 ;;
  _ <- assert (String.eqb cav_id first) ;;
  _ <- assert (match ego_id with Some _ => true | None => false end) ;;
  n <- py_len ego_lidar_pose ;;
  _ <- assert (0 <? n) ;;
  '(too_far, lidar_pose_list, cav_id_list) <-
    comm_range_filter base_data_dict ego_lidar_pose ;;
  '(object_stack, object_id_stack, processed_features_, lidar_stack) <-
    foldM (process_body base_data_dict ego_lidar_pose ego_id idx)
          cav_id_list ([], [], [], []) ;;
  base_data_dict <-
    foldM (fun d id => od_pop String.eqb id d) too_far base_data_dict ;;
  pairwise_t_matrix <-
    get_pairwise_transformation self base_data_dict (max_cav self) ;;
  lidar_poses <- reshape_poses lidar_pose_list ;;
  '(object_bbx_center_, mask, object_ids_) <-
    merge_objects object_stack object_id_stack ;;
  let cav_num := Z.of_nat (List.length processed_features_) in
  let merged_feature_dict := merge_features_to_dict processed_features_ in
  let anchor_box := generate_anchor_box in
  let label_dict := generate_label object_bbx_center_ anchor_box mask in
  (* line 443 reads a name the function never binds *)
  lidar_poses_clean <- read_local (None : option (list (list F))) ;;
  teacher <-
    (if kd_flag self
     then t <- read_local (None : option (list (string * list feature))) ;;
          Ok (Some t)
     else Ok None) ;;
  origin <-
    (if visualize self
     then o <- vstack_points lidar_stack ;; Ok (Some o)
     else Ok None) ;;
  Ok {| s_object_bbx_center := object_bbx_center_;
        s_object_bbx_mask := mask;
        s_object_ids := object_ids_;
        s_anchor_box := anchor_box;
        s_processed_lidar := merged_feature_dict;
        s_label_dict := label_dict;
        s_cav_num := cav_num;
        s_pairwise_t_matrix := pairwise_t_matrix;
        s_lidar_poses_clean := lidar_poses_clean;
        s_lidar_poses := lidar_poses;
        s_teacher_processed_lidar := teacher;
        s_origin_lidar := origin;
        s_sample_idx := idx;
        s_cav_id_list := cav_id_list |}.
End GetItem.

(* ================================================================= *)
(** ** Batch collation: [collate_batch_train], [collate_batch_test] *)

(** [output_dict['ego']]; the last five entries are the ones
    [collate_batch_test] adds. *)
Record batch `{Arrays} : Type := {
  b_object_bbx_center : list (list box);
  b_object_bbx_mask : list (list Z);
  b_processed_lidar : list (string * tensor);
  b_record_len : list Z;
  b_label_dict : labels * list (list (list matrix)) * list Z;
  b_object_ids : list Z;
  b_pairwise_t_matrix : list (list (list matrix));
  b_lidar_pose_clean : list (list F);
  b_lidar_pose : list (list F);
  b_origin_lidar : option (list points);
  b_teacher_processed_lidar : option (list (string * tensor));
  b_anchor_box : option anchors;
  b_transformation_matrix : option matrix;
  b_transformation_matrix_clean : option matrix;
  b_sample_idx : option Z;
  b_cav_id_list : option (list string);
}.

Definition sum_Z (l : list Z) : Z := fold_right Z.add 0 l.

(** [t.max()] of a tensor column. *)
Definition column_max (l : list Z) : res Z :=
  match l with
  | [] => Raise RuntimeError
  | x :: l' => Ok (fold_left Z.max l' x)
  end.

(** [np.concatenate(arrays, axis=0)] *)
Definition np_concatenate {A : Type} (arrays : list (list A)) : res (list A) :=
  match arrays with
  | [] => Raise ValueError
  | _ => Ok (List.concat arrays)
  end.

Section Collate.
Context `{Collaborators}.
Variable self : dataset.

Definition as_fvals (d : list (string * list feature)) : list (string * fval) :=
  map (fun p => (fst p, FList (snd p))) d.

(** Everything [collate_batch_train] does before its closing check:
    the assembled [output_dict['ego']]. *)
Definition collate_output (batch_ : list sample) : res batch :=
  let object_bbx_center_ := map s_object_bbx_center batch_ in
  let object_bbx_mask := map s_object_bbx_mask batch_ in
  let object_ids_ := map s_object_ids batch_ in
  let lidar_pose_list := map s_lidar_poses batch_ in
  let lidar_pose_clean_list := map s_lidar_poses_clean batch_ in
  let processed_lidar_list := map s_processed_lidar batch_ in
  let record_len := map s_cav_num batch_ in
  let label_dict_list := map s_label_dict batch_ in
  let pairwise_t_matrix_list := map s_pairwise_t_matrix batch_ in
  teacher_processed_lidar_list <-
    (if kd_flag self
     then mapM (fun s => match s_teacher_processed_lidar s with
                         | Some t => Ok t
                         | None => Raise KeyError
                         end) batch_
     else Ok []) ;;
  origin_lidar <-
    (if visualize self
     then mapM (fun s => match s_origin_lidar s with
                         | Some o => Ok o
                         | None => Raise KeyError
                         end) batch_
     else Ok []) ;;
  let merged_feature_dict :=
    merge_features_to_dict (map as_fvals processed_lidar_list) in
  processed_lidar_torch_dict <- pre_collate_batch merged_feature_dict ;;
  lidar_pose <- np_concatenate lidar_pose_list ;;
  lidar_pose_clean <- np_concatenate lidar_pose_clean_list ;;
  let label_torch_dict := post_collate_batch label_dict_list in
  first_object_ids <- py_index object_ids_ 0 ;;
  teacher <-
    (if kd_flag self
     then t <- pre_collate_batch_list teacher_processed_lidar_list ;;
          Ok (Some t)
     else Ok None) ;;
  Ok {| b_object_bbx_center := object_bbx_center_;
        b_object_bbx_mask := object_bbx_mask;
        b_processed_lidar := processed_lidar_torch_dict;
        b_record_len := record_len;
        b_label_dict := (label_torch_dict, pairwise_t_matrix_list, record_len);
        b_object_ids := first_object_ids;
        b_pairwise_t_matrix := pairwise_t_matrix_list;
        b_lidar_pose_clean := lidar_pose_clean;
        b_lidar_pose := lidar_pose;
        b_origin_lidar :=
          if visualize self
          then Some (downsample_lidar_minimum origin_lidar) else None;
        b_teacher_processed_lidar := teacher;
        b_anchor_box := None;
        b_transformation_matrix := None;
        b_transformation_matrix_clean := None;
        b_sample_idx := None;
        b_cav_id_list := None |}.

(** Lines 691-693: [None] is the signal for a batch to skip. *)
Definition record_len_check (output_dict : batch) : res (option batch) :=
  if String.eqb (core_method (self_params self)) "SpVoxelPreprocessor"
  then
    voxel_coords <-
      match od_get String.eqb "voxel_coords" (b_processed_lidar output_dict) with
      | Some t => Ok t
      | None => Raise KeyError
      end ;;
    top <- column_max (batch_column voxel_coords) ;;
    if negb (top + 1 =? sum_Z (b_record_len output_dict))
    then Ok None
    else Ok (Some output_dict)
  else Ok (Some output_dict).

Definition collate_batch_train (batch_ : list sample) : res (option batch) :=
  output_dict <- collate_output batch_ ;;
  record_len_check output_dict.

Definition collate_batch_test (batch_ : list sample) : res (option batch) :=
  _ <- assert (Z.of_nat (List.length batch_) <=? 1) ;;
  output_dict <- collate_batch_train batch_ ;;
  match output_dict with
  | None => Ok None
  | Some output_dict =>
      first <- py_index batch_ 0 ;;
      let anchor :=
        match s_anchor_box first with
        | Some a => Some a
        | None => b_anchor_box output_dict
        end in
      Ok (Some
        {| b_object_bbx_center := b_object_bbx_center output_dict;
           b_object_bbx_mask := b_object_bbx_mask output_dict;
           b_processed_lidar := b_processed_lidar output_dict;
           b_record_len := b_record_len output_dict;
           b_label_dict := b_label_dict output_dict;
           b_object_ids := b_object_ids output_dict;
           b_pairwise_t_matrix := b_pairwise_t_matrix output_dict;
           b_lidar_pose_clean := b_lidar_pose_clean output_dict;
           b_lidar_pose := b_lidar_pose output_dict;
           b_origin_lidar := b_origin_lidar output_dict;
           b_teacher_processed_lidar := b_teacher_processed_lidar output_dict;
           b_anchor_box := anchor;
           b_transformation_matrix := Some eye4;
           b_transformation_matrix_clean := Some eye4;
           b_sample_idx := Some (s_sample_idx first);
           b_cav_id_list := Some (s_cav_id_list first) |})
  end.
End Collate.

(* ================================================================= *)
(** ** A small back end to run the dataset on

    Integer coordinates, translations for rigid transforms, tables for the
    files on disk.  Used by the concrete scenarios below. *)

Module Grid.
Definition point4 : Type := (Z * Z * Z * Z)%type.     (* x, y, z, intensity *)
Definition point3 : Type := (Z * Z * Z)%type.

Definition translate (t : point3) (p : point3) : point3 :=
  let '(tx, ty, tz) := t in
  let '(x, y, z) := p in
  (x + tx, y + ty, z + tz).

(** The transform that [solve a b] stands for: apply [b], undo [a]. *)
Definition relative (a b : point3) : point3 :=
  let '(ax, ay, az) := a in
  let '(bx, by_, bz) := b in
  (bx - ax, by_ - ay, bz - az).

Definition in_range (range : list Z) (p : point4) : bool :=
  let '(x, y, z, _) := p in
  match range with
  | [x0; y0; z0; x1; y1; z1] =>
      (x0 <? x) && (x <? x1) && (y0 <? y) && (y <? y1)
      && (z0 <? z) && (z <? z1)
  | _ => false
  end.

Definition off_origin (p : point4) : bool :=
  let '(x, y, z, _) := p in
  negb ((x =? 0) && (y =? 0)).

#[local] Instance arrays : Arrays := {|
  F := Z;
  F_of_Z := fun z => z;
  fsub := Z.sub;
  fadd := Z.add;
  fpow2 := fun x => x * x;
  fsqrt := Z.sqrt;
  fgtb := Z.gtb;
  fnonzero := fun x => negb (x =? 0);
  cloud := list point4;
  points := list point3;
  matrix := point3;
  eye4 := (0, 0, 0);
  solve := relative;
  box := list Z;
  zero_box := repeat 0 7%nat;
  feature := list point4;
  tensor := list Z;
  batch_column := fun t => t;
  anchors := unit;
  labels := unit;
|}.

Definition int_of (v : pyval) : Z :=
  match v with
  | VInt z => z
  | VFloat x => x
  | _ => 0
  end.

(** The translation part of a pose [x, y, z, roll, yaw, pitch]. *)
Definition position_of (pose : pyval) : point3 :=
  match pose with
  | VList (x :: y :: z :: _) => (int_of x, int_of y, int_of z)
  | _ => (0, 0, 0)
  end.

Definition lookup_file {A : Type} (files : list (string * A)) (path : string)
  : res A :=
  match od_get String.eqb path files with
  | Some a => Ok a
  | None => Raise LoaderError
  end.

(** One tensor per feature: the row index of every collated array. *)
Definition index_tensors (d : list (string * list feature))
  : list (string * tensor) :=
  map (fun p => (fst p, map Z.of_nat (seq 0 (List.length (snd p))))) d.

Definition collaborators (yamls : list (string * pyval))
    (pcds : list (string * cloud)) : Collaborators := {|
  load_yaml := lookup_file yamls;
  pcd_to_np := lookup_file pcds;
  x_to_world := position_of;
  x1_to_x2 := fun a b => relative (position_of b) (position_of a);
  shuffle_points := @rev point4;
  mask_ego_points := filter off_origin;
  xyz := map (fun p : point4 => let '(x, y, z, _) := p in (x, y, z));
  project_points_by_matrix_torch := fun pts t => map (translate t) pts;
  mask_points_by_range := fun c range => filter (in_range range) c;
  vstack_points :=
    fun l => match l with
             | [] => Raise ValueError
             | _ => Ok (List.concat l)
             end;
  downsample_lidar_minimum := fun l => l;
  preprocess := fun c => [("voxel_coords", FArr c)];
  pre_collate_batch := fun d => Ok (index_tensors d);
  pre_collate_batch_list := fun l => Ok (index_tensors (List.concat l));
  generate_object_center := fun _ _ => Ok ([], [], []);
  generate_anchor_box := Some tt;
  generate_label := fun _ _ _ => tt;
  post_collate_batch := fun _ => tt;
  set_iter := nodup Z.eq_dec;
|}.

Definition pose (x y : Z) : pyval :=
  VList [VInt x; VInt y; VInt 0; VInt 0; VInt 0; VInt 0].

Definition yaml_of (x y : Z) : pyval :=
  VDict [(KStr "lidar_pose", pose x y)].

Definition lidar_range : list Z := [-40; -40; -3; 40; 40; 1].

Definition config (k_ tau_ : Z) (core : string) (comm max_num_ : Z) : params := {|
  num_sweep_frames := Some k_;
  time_delay := Some tau_;
  fusion_proj_first := Some false;
  train_max_cav := None;
  comm_range := comm;
  cav_lidar_range := lidar_range;
  core_method := core;
  max_num := max_num_;
|}.

Definition stamps (n : nat) : list string :=
  firstn n ["000068"; "000070"; "000072"; "000074"; "000076"; "000078"].

(** A recording with [agents] agent folders of [n] frames each. *)
Definition recording (path : string) (agents : list string) (n : nat)
  : scenario_dir :=
  {| scenario_path := path;
     cav_list := map (fun a => {| cav_name := a; cav_timestamps := stamps n |})
                     agents |}.

(** Every file of a listing, with a given extension. *)
Definition all_paths (ext : string) (folders : list scenario_dir) : list string :=
flat_map
  (fun f =>
     flat_map
       (fun c =>
          map (fun t =>
                 path_join (path_join (scenario_path f) (cav_name c))
                           (t ++ ext)%string)
              (cav_timestamps c))
       (cav_list f))
  folders.

(** A disk on which every listed file loads: all agents at the origin,
    empty point clouds. *)
Definition disk (folders : list scenario_dir) : Collaborators :=
collaborators
  (map (fun path => (path, yaml_of 0 0)) (all_paths ".yaml" folders))
  (map (fun path => (path, [])) (all_paths ".pcd" folders)).
End Grid.

(* ================================================================= *)
(** ** Concrete recordings *)

Module Scenes.
Import Grid.
#[local] Existing Instance Grid.arrays.

Definition blank (p : params) : dataset := {|
  self_params := p; visualize := false; kd_flag := false;
  k := 0; tau := 0; proj_first := false; max_cav := 0;
  scenario_database := []; len_record := [];
|}.

(** The object [__init__] builds without the visualisation and
    distillation flags ([blank] when it raises). *)
Definition built (p : params) (folders : list scenario_dir) : dataset :=
  match init p false false folders with
  | Ok (self, _) => self
  | Raise _ => blank p
  end.

(** Three agents on disk, room for two. *)
Definition crowded_config : params := {|
  num_sweep_frames := Some 1;
  time_delay := Some 0;
  fusion_proj_first := Some false;
  train_max_cav := Some 2;
  comm_range := 70;
  cav_lidar_range := lidar_range;
  core_method := "SpVoxelPreprocessor";
  max_num := 100;
|}.

Definition crowded_folders : list scenario_dir :=
  [recording "opv2v/train/s0" ["641"; "650"; "659"] 3].

Definition crowded : dataset := built crowded_config crowded_folders.
(** Two agents, four frames each, one sweep, one frame of delay. *)
Definition delayed : dataset :=
  built (config 1 1 "SpVoxelPreprocessor" 70 100)
        [recording "opv2v/train/s0" ["641"; "650"] 4].

(** Two agents, five frames each, three sweeps, no delay. *)
Definition sweeps_folders : list scenario_dir :=
[recording "opv2v/train/s0" ["641"; "650"] 5].

Definition sweeps : dataset :=
built (config 3 0 "SpVoxelPreprocessor" 70 100) sweeps_folders.

(** One agent, three frames, one sweep, no delay. *)
Definition single_folders : list scenario_dir :=
[recording "opv2v/train/s0" ["641"] 3].

Definition single : dataset :=
built (config 1 0 "SpVoxelPreprocessor" 70 100) single_folders.

(** A per-sample dictionary in the layout the assembly code reads: the
    agent's pose under ['params'] as well as under its frames. *)
Definition agent_at (ego : bool) (x y : Z) (lidar : cloud) : pyval :=
VDict [(KStr "ego", VBool ego);
       (KStr "params", yaml_of x y);
       (KStr "lidar_np", VCloud lidar);
       (KStr "past_k",
        VDict [(KInt 0, VDict [(KStr "params", yaml_of x y);
                               (KStr "lidar_np", VCloud lidar)]);
               (KStr "params", yaml_of x y)]);
       (KStr "curr", VDict [(KStr "params", yaml_of x y);
                            (KStr "lidar_np", VCloud lidar)])].

(** Agent 641 at the origin, agent 650 ten metres ahead. *)
Definition two_agents : list (string * pyval) :=
[("641", agent_at true 0 0 []); ("650", agent_at false 10 0 [])].

(** Communication range 5, room for one object. *)
Definition short_range : dataset :=
built (config 1 0 "SpVoxelPreprocessor" 5 1) single_folders.

(** A box four metres long at [x] on the ego's axis. *)
Definition box_at (x : Z) : box := [x; 0; 0; 4; 2; 2; 0].

(** Two agents report objects 7, 9 and 9, 11; they disagree on 9. *)
Definition reported_boxes : list (list box) :=
[[box_at 10; box_at 20]; [box_at 21; box_at 30]].

Definition reported_ids : list Z := [7; 9; 9; 11].

(** Room for four objects. *)
Definition roomy : dataset :=
built (config 1 0 "SpVoxelPreprocessor" 70 4) single_folders.

(** Agent 650, ten metres ahead of the ego, with three lidar returns: one
    near, one far ahead, one on its own roof. *)
Definition returns : cloud := [(1, 0, 0, 5); (35, 0, 0, 7); (0, 0, 0, 9)].

Definition agent_650 : pyval := agent_at false 10 0 returns.



(** What [get_item_single_car] returns for agent 650. *)
Definition agent_650_processed : cav_processed := {|
  object_bbx_center := [];
  object_ids := [];
  projected_lidar := [(45, 0, 0); (11, 0, 0)];
  processed_features := [("voxel_coords", FArr [(35, 0, 0, 7); (1, 0, 0, 5)])];
  transformation_matrix := (10, 0, 0);
|}.


(** A dataset whose pre-processor is the dense voxeliser. *)
Definition dense : dataset :=
built (config 1 0 "VoxelPreprocessor" 70 4) single_folders.

(** A sample that counts two agents and carries the features of one. *)
Definition short_sample : sample := {|
  s_object_bbx_center := [box_at 10];
  s_object_bbx_mask := [1];
  s_object_ids := [7];
  s_anchor_box := Some tt;
  s_processed_lidar := [("voxel_coords", [[(1, 0, 0, 5)]])];
  s_label_dict := tt;
  s_cav_num := 2;
  s_pairwise_t_matrix := [];
  s_lidar_poses_clean := [[0; 0; 0; 0; 0; 0]; [10; 0; 0; 0; 0; 0]];
  s_lidar_poses := [[0; 0; 0; 0; 0; 0]; [10; 0; 0; 0; 0; 0]];
  s_teacher_processed_lidar := None;
  s_origin_lidar := None;
  s_sample_idx := 0;
  s_cav_id_list := ["641"; "650"];
|}.

(** What collation assembles from it. *)
Definition short_output : batch := {|
  b_object_bbx_center := [[box_at 10]];
  b_object_bbx_mask := [[1]];
  b_processed_lidar := [("voxel_coords", [0])];
  b_record_len := [2];
  b_label_dict := (tt, [[]], [2]);
  b_object_ids := [7];
  b_pairwise_t_matrix := [[]];
  b_lidar_pose_clean := [[0; 0; 0; 0; 0; 0]; [10; 0; 0; 0; 0; 0]];
  b_lidar_pose := [[0; 0; 0; 0; 0; 0]; [10; 0; 0; 0; 0; 0]];
  b_origin_lidar := None;
  b_teacher_processed_lidar := None;
  b_anchor_box := None;
  b_transformation_matrix := None;
  b_transformation_matrix_clean := None;
  b_sample_idx := None;
  b_cav_id_list := None;
|}.
End Scenes.


(** The positions [retrieve_base_data] hands to the positional lookup:
    the same loop, with the lookup replaced by the position itself. *)
Definition resolve `{Arrays} (self : dataset) (idx : Z)
  : res (list (string * cav_frames)) :=
  retrieve_frames self (fun _ timestamp_index => Ok timestamp_index) idx.

(** ** The sampling arithmetic, as the specification words it *)

Section SpecifiedPositions.
Context `{Arrays}.
Variable self : dataset.

(** The scenario a flat index falls in. *)
Definition scenario_of (idx : Z) : Z :=
  fst (scan_len_record idx 0 (len_record self) None).

(** The offset of a flat index inside its scenario. *)
Definition intra_offset (idx : Z) : Z :=
  let s := scenario_of idx in
  if s =? 0 then idx
  else idx - nth (Z.to_nat (s - 1)) (len_record self) 0.

(** "For the ego agent, the current-frame position is
    offset + tau + k - 1"; a non-ego agent has "no added tau term". *)
Definition specified_curr (ego : bool) (offset : Z) : Z :=
  if ego then offset + tau self + k self - 1 else offset + k self - 1.

(** "Past-frame position i for the ego is offset + (k - 1 - i)";
    "non-ego past-frame position i is offset + (k - 1 - i) + tau". *)
Definition specified_past (ego : bool) (offset i : Z) : Z :=
  if ego then offset + (k self - 1 - i)
  else offset + (k self - 1 - i) + tau self.

Definition as_specified (offset : Z) (item : string * cav_frames) : bool :=
  let f := snd item in
  let ego := entry_truth (cf_ego f) in
  (cf_curr f =? specified_curr ego offset)
  && forallb (fun ip => snd ip =? specified_past ego offset (fst ip))
             (cf_past_k f).

(** The positions of flat index [idx] are the specified ones. *)
Definition positions_as_specified (idx : Z) : Prop :=
  exists data,
    resolve self idx = Ok data
    /\ forallb (as_specified (intra_offset idx)) data = true.

(** What the loop variable [i] holds after [for i in range(self.k)]. *)
Definition carried (i : Z) : Z :=
  if 0 <? k self then k self - 1 else i.

Definition ego_entry (content : cav_content) : entry :=
  match od_get String.eqb "ego" content with
  | Some e => e
  | None => EgoFlag false
  end.

(** The positions the loop over a scenario's agents computes when it is
    entered with [i] bound to the given value. *)
Fixpoint positions_from (offset : Z) (sc : scenario) (i : Z)
  : list (string * cav_frames) :=
  match sc with
  | [] => []
  | (cav_id, content) :: sc' =>
      let ego := ego_entry content in
      let temp := if entry_truth ego then tau self else 0 in
      (cav_id,
       {| cf_ego := ego;
          cf_past_k :=
            map (fun i' => (i', offset + (k self - 1) + temp))
                (py_range (k self));
          cf_curr := offset + i + tau self + k self - 1 |})
      :: positions_from offset sc' (carried i)
  end.
End SpecifiedPositions.


(** What [__init__] guarantees of a scenario's dictionary: distinct agent
    ids, and the 'ego' key in every agent's dictionary. *)
Definition scenario_ok (sc : scenario) : Prop :=
  NoDup (od_keys sc)
  /\ forall item, In item sc -> od_get String.eqb "ego" (snd item) <> None.


(** The first agent of a scenario is the one flagged as ego. *)
Definition ego_first `{Arrays} (self : dataset) (sc : scenario) : Prop :=
  exists cav_id content rest,
    sc = (cav_id, content) :: rest
    /\ entry_truth (ego_entry content) = true.


(** The positions of flat index [idx] as the code lays them out: the most
    recent past frame carries [tau] for the ego agent and not for the
    others; in the first scenario the ego's current frame is at
    [offset + tau + k - 1], and so is every other agent's when [k = 1]. *)
Definition positions_by_design `{Arrays} (self : dataset) (idx : Z) : Prop :=
  exists data,
    resolve self idx = Ok data
    /\ Forall (fun item : string * cav_frames =>
                 map fst (cf_past_k (snd item)) = py_range (k self)
                 /\ forall p,
                      In (0, p) (cf_past_k (snd item)) ->
                      p = intra_offset self idx + (k self - 1)
                          + (if entry_truth (cf_ego (snd item))
                             then tau self else 0))
              data
    /\ (scenario_of self idx = 0 ->
        exists ego rest,
          data = ego :: rest
          /\ entry_truth (cf_ego (snd ego)) = true
          /\ cf_curr (snd ego) = intra_offset self idx + tau self + k self - 1
          /\ (k self = 1 ->
              Forall (fun item : string * cav_frames =>
                        cf_curr (snd item)
                        = intra_offset self idx + tau self + k self - 1)
                     rest)).


(** The three keys [retrieve_base_data] stores for an agent. *)
Definition agent_keys `{Arrays} (v : pyval) : Prop :=
  exists e past_k curr,
    v = VDict [(KStr "ego", entry_value e);
               (KStr "past_k", past_k);
               (KStr "curr", curr)].

(** An agent whose computed distance to the ego exceeds [comm_range]. *)
Definition beyond_range `{Arrays} (self : dataset) (ego_lidar_pose : pyval)
    (item : string * pyval) : bool :=
  match planar_distance (snd item) ego_lidar_pose with
  | Ok distance => fgtb distance (comm_range (self_params self))
  | Raise _ => false
  end.

(** The position at which an id is first seen. *)
Fixpoint first_position (x : Z) (l : list Z) : nat :=
  match l with
  | [] => O
  | y :: l' => if x =? y then O else S (first_position x l')
  end.

(** The first box stacked under an id. *)
Definition first_seen `{Arrays} (object_stack : list (list box))
    (object_id_stack : list Z) (x : Z) : box :=
  nth (first_position x object_id_stack) (List.concat object_stack) zero_box.

(** "Excess objects beyond the maximum are silently dropped": the merge
    returns whatever the number of distinct ids. *)
Definition excess_dropped `{Collaborators} (self : dataset)
    (object_stack : list (list box)) (object_id_stack : list Z) : Prop :=
  exists boxes mask ids,
    merge_objects self object_stack object_id_stack = Ok (boxes, mask, ids)
    /\ List.length boxes = Z.to_nat (max_num (self_params self)).

(** [t[i, j]] *)
Definition tensor_at {A : Type} (t : list (list A)) (i j : nat) : option A :=
  match nth_error t i with
  | Some row => nth_error row j
  | None => None
  end.

(** An [L] by [L] array. *)
Definition square {A : Type} (L : nat) (t : list (list A)) : Prop :=
  List.length t = L /\ Forall (fun row => List.length row = L) t.


(** "On mismatch it returns an explicit invalid-batch signal": whenever
    the batch-index column of the collated features does not span
    [sum(record_len)] groups, the result is [None]. *)
Definition mismatch_rejected `{Collaborators} (self : dataset)
    (batch_ : list sample) : Prop :=
  forall output_dict voxel_coords top,
    collate_output self batch_ = Ok output_dict ->
    od_get String.eqb "voxel_coords" (b_processed_lidar output_dict)
    = Some voxel_coords ->
    column_max (batch_column voxel_coords) = Ok top ->
    top + 1 <> sum_Z (map s_cav_num batch_) ->
    collate_batch_train self batch_ = Ok None.

(** ** What the index holds, read off the listing *)

(** The number of samples of a scenario: the frames of its first agent
    less the look-back (line 137). *)
Definition num_ego_timestamps (k_ tau_ : Z) (f : scenario_dir) : Z :=
  match cav_list f with
  | c :: _ => Z.of_nat (List.length (cav_timestamps c)) - (tau_ + k_ - 1)
  | [] => 0
  end.

(** Running sums. *)
Fixpoint running_sums (acc : Z) (l : list Z) : list Z :=
  match l with
  | [] => []
  | x :: l' => (acc + x) :: running_sums (acc + x) l'
  end.

(** The dictionary of agent number [j] of a scenario folder. *)
Definition agent_content (folder : string) (j : Z) (c : cav_dir) : cav_content :=
  ("ego", EgoFlag (j =? 0))
  :: map (fun t =>
            (t, Frame (path_join (path_join folder (cav_name c))
                                 (t ++ ".yaml")%string)
                      (path_join (path_join folder (cav_name c))
                                 (t ++ ".pcd")%string)))
         (cav_timestamps c).

Fixpoint agents_from (folder : string) (j : Z) (cavs : list cav_dir) : scenario :=
  match cavs with
  | [] => []
  | c :: rest =>
      (cav_name c, agent_content folder j c) :: agents_from folder (j + 1) rest
  end.

(** The dictionary of a scenario folder when [max_cav_] agents fit. *)
Definition scenario_content (max_cav_ : Z) (f : scenario_dir) : scenario :=
  agents_from (scenario_path f) 0 (firstn (Z.to_nat max_cav_) (cav_list f)).

(** A listing as a file system gives it: distinct agent folders, distinct
    timestamps, none of them the word 'ego'. *)
Definition listing_ok (f : scenario_dir) : Prop :=
  NoDup (map cav_name (cav_list f))
  /\ Forall (fun c => NoDup (cav_timestamps c) /\ ~ In "ego" (cav_timestamps c))
            (cav_list f).


(** ** Further recordings *)

Module More.
Import Grid.
#[local] Existing Instance Grid.arrays.

(** Two recordings: two agents of four frames, then one agent of three. *)
Definition two_folders : list scenario_dir :=
[recording "opv2v/train/s0" ["641"; "650"] 4;
 recording "opv2v/train/s1" ["641"] 3].

(** One sweep, no delay. *)
Definition two_scenarios : dataset :=
Scenes.built (config 1 0 "SpVoxelPreprocessor" 70 100) two_folders.
End More.


(** ** What a merged feature dictionary holds *)

(** The arrays one feature value contributes. *)
Definition feature_arrays `{Arrays} (v : fval) : list feature :=
  match v with
  | FList l => l
  | FArr a => [a]
  end.

(** The arrays one agent's dictionary contributes under a feature name. *)
Definition contribution `{Arrays} (name : string) (d : list (string * fval))
  : list feature :=
  List.concat
    (map (fun item => if String.eqb name (fst item)
                      then feature_arrays (snd item) else [])
         d).

Definition has_feature `{Arrays} (name : string) (d : list (string * fval))
  : bool :=
  existsb (fun item => String.eqb name (fst item)) d.

(** A key is appended unless it is already there. *)
Definition add_key (keys : list string) (key : string) : list string :=
  if existsb (String.eqb key) keys then keys else keys ++ [key].


(** The arrays stored under a feature name, none if the name is absent. *)
Definition stored `{Arrays} (name : string) (m : list (string * list feature))
  : list feature :=
  match od_get String.eqb name m with
  | Some l => l
  | None => []
  end.

Definition present `{Arrays} (name : string) (m : list (string * list feature))
  : bool :=
  match od_get String.eqb name m with
  | Some _ => true
  | None => false
  end.

(** ** Readings of a per-sample dictionary *)

(** An agent's dictionary as [retrieve_base_data] builds it: the sweeps
    under integer keys. *)
Definition retrieved_agent `{Arrays} (v : pyval) : Prop :=
  exists e past curr,
    v = VDict [(KStr "ego", entry_value e);
               (KStr "past_k",
                VDict (map (fun p : Z * pyval => (KInt (fst p), snd p)) past));
               (KStr "curr", curr)].

(** [bool(cav_content['ego'])] *)
Definition ego_flagged `{Arrays} (cav_content_ : pyval) : res bool :=
  ego <- subscript cav_content_ (KStr "ego") ;;
  truthy ego.

(** [cav_content['params']['lidar_pose']] *)
Definition top_pose `{Arrays} (cav_content_ : pyval) : res pyval :=
  params_ <- subscript cav_content_ (KStr "params") ;;
  subscript params_ (KStr "lidar_pose").


(** ** Readings of an agent dictionary in [get_item_single_car] *)

(** [selected_cav_base['past_k']['params']['lidar_pose']] *)
Definition sweep_pose `{Arrays} (selected_cav_base : pyval) : res pyval :=
  past_k <- subscript selected_cav_base (KStr "past_k") ;;
  params_ <- subscript past_k (KStr "params") ;;
  subscript params_ (KStr "lidar_pose").

(** [selected_cav_base['curr']['params']['lidar_pose']] *)
Definition curr_pose `{Arrays} (selected_cav_base : pyval) : res pyval :=
  curr <- subscript selected_cav_base (KStr "curr") ;;
  params_ <- subscript curr (KStr "params") ;;
  subscript params_ (KStr "lidar_pose").

(** [selected_cav_base['lidar_np']], an array. *)
Definition top_cloud `{Arrays} (selected_cav_base : pyval) : res cloud :=
  lidar <- subscript selected_cav_base (KStr "lidar_np") ;;
  match lidar with
  | VCloud c => Ok c
  | _ => Raise TypeError
  end.

(** What a sweep makes of a cloud: shuffled, cleared of the agent's own
    returns, cropped to the lidar range, pre-processed. *)
Definition features_of `{Collaborators} (self : dataset) (lidar_np : cloud)
  : list (string * fval) :=
  preprocess
    (mask_points_by_range (mask_ego_points (shuffle_points lidar_np))
                          (cav_lidar_range (self_params self))).

(** The same cloud before the crop, moved by a transformation. *)
Definition projection_of `{Collaborators} (lidar_np : cloud) (t : matrix)
  : points :=
  project_points_by_matrix_torch
    (xyz (mask_ego_points (shuffle_points lidar_np))) t.

(** ** The outcome of the loops of [__getitem__] *)

(** The agents the communication-range loop retains. *)
Definition retained `{Arrays} (self : dataset) (ego_lidar_pose : pyval)
    (base_data_dict : list (string * pyval)) : list (string * pyval) :=
  filter (fun item => negb (beyond_range self ego_lidar_pose item))
         base_data_dict.

(** The loop variable [cav_id] after a loop that visited every item. *)
Definition last_visited `{Arrays} (items : list (string * pyval))
    (cav_id : option string) : option string :=
  last (map (fun item : string * pyval => Some (fst item)) items) cav_id.

(** ** Retrieved samples *)

Module Fixtures.
Import Grid.
#[local] Existing Instance Grid.arrays.

Definition delayed_folders : list scenario_dir :=
[recording "opv2v/train/s0" ["641"; "650"] 4].

(** What [retrieve_base_data(1)] returns for the delayed recording. *)
Definition delayed_sample : list (string * pyval) :=
Eval vm_compute in
  match retrieve_base_data (H0 := disk delayed_folders) Scenes.delayed 1 with
  | Ok data => data
  | Raise _ => []
  end.

(** A configuration without sweeps. *)
Definition no_sweep : dataset :=
Scenes.built (config 0 0 "SpVoxelPreprocessor" 70 100) Scenes.single_folders.

(** Three agents on a line: at the origin, ten and a hundred metres ahead. *)
Definition three_agents : list (string * pyval) :=
[("641", Scenes.agent_at true 0 0 []);
 ("650", Scenes.agent_at false 10 0 []);
 ("659", Scenes.agent_at false 100 0 [])].



(** The delayed recording under a configuration that projects first. *)
Definition projected : dataset :=
Scenes.built
  {| num_sweep_frames := Some 1;
     time_delay := Some 1;
     fusion_proj_first := Some true;
     train_max_cav := None;
     comm_range := 70;
     cav_lidar_range := lidar_range;
     core_method := "SpVoxelPreprocessor";
     max_num := 100 |}
  delayed_folders.


End Fixtures.

(* ================================================================= *)
(** * Properties *)

(** ** The error monad *)

Lemma bind_Ok {A B : Type} (c : res A) (f : A -> res B) (b : B) :
  bind c f = Ok b -> exists a, c = Ok a /\ f a = Ok b.
Proof.
  destruct c as [a|e]; simpl; intros Hb; [eauto | discriminate].
Qed.

Ltac inv_bind H :=
  let a := fresh "a" in
  let Ha := fresh "Ha" in
  apply bind_Ok in H; destruct H as (a & Ha & H).

Lemma assert_Ok (b : bool) (u : unit) : assert b = Ok u -> b = true.
Proof. destruct b; simpl; [reflexivity | discriminate]. Qed.

Lemma mapM_length {A B : Type} (f : A -> res B) (l : list A) :
  forall bs, mapM f l = Ok bs -> List.length bs = List.length l.
Proof.
  induction l as [|a l IH]; simpl; intros bs Hbs.
  - injection Hbs as <-; reflexivity.
  - inv_bind Hbs. inv_bind Hbs. injection Hbs as <-.
    simpl; f_equal; eauto.
Qed.

(** ** Ordered dictionaries *)

Lemma od_set_fresh {V : Type} (key : string) (v : V) (d : list (string * V)) :
  ~ In key (od_keys d) -> od_set String.eqb key v d = d ++ [(key, v)].
Proof.
  induction d as [|[k' v'] d IH]; simpl; intros Hnot; [reflexivity|].
  destruct (String.eqb_spec key k') as [->|Hne].
  - exfalso; apply Hnot; left; reflexivity.
  - f_equal; apply IH; intros Hin; apply Hnot; right; exact Hin.
Qed.

Lemma od_set_length {V : Type} (key : string) (v : V) (d : list (string * V)) :
  (List.length (od_set String.eqb key v d) <= S (List.length d))%nat.
Proof.
  induction d as [|[k' v'] d IH]; simpl; [lia|].
  destruct (String.eqb key k'); simpl; lia.
Qed.

Lemma od_get_od_set_other {V : Type} (key key' : string) (v : V)
    (d : list (string * V)) :
  key <> key' ->
  od_get String.eqb key (od_set String.eqb key' v d) = od_get String.eqb key d.
Proof.
  intros Hne; induction d as [|[k0 v0] d IH]; simpl.
  - destruct (String.eqb_spec key key'); [contradiction | reflexivity].
  - destruct (String.eqb_spec key' k0) as [->|Hne0]; simpl.
    + destruct (String.eqb_spec key k0); [contradiction | reflexivity].
    + destruct (String.eqb key k0); [reflexivity | exact IH].
Qed.

Lemma od_get_od_set_same {V : Type} (key : string) (v : V)
    (d : list (string * V)) :
  od_get String.eqb key (od_set String.eqb key v d) = Some v.
Proof.
  induction d as [|[k0 v0] d IH]; simpl.
  - rewrite String.eqb_refl; reflexivity.
  - destruct (String.eqb_spec key k0) as [->|Hne]; simpl.
    + rewrite String.eqb_refl; reflexivity.
    + destruct (String.eqb_spec key k0); [contradiction | exact IH].
Qed.

(** ** Index construction *)

Section InitFacts.
Variables (k_ tau_ max_cav_ : Z).

Lemma load_cavs_keys (folder : string) (cavs : list cav_dir) :
  forall j sc lr out sc' lr' out',
    0 <= j ->
    NoDup (od_keys sc ++ map cav_name cavs) ->
    load_cavs k_ tau_ max_cav_ folder j cavs sc lr out = (sc', lr', out') ->
    od_keys sc'
    = od_keys sc ++ map cav_name (firstn (Z.to_nat (max_cav_ - j)) cavs).
Proof.
  induction cavs as [|c cavs IH]; simpl; intros j sc lr out sc' lr' out' Hj Hnd Hload.
  - injection Hload as <- _ _. rewrite firstn_nil, app_nil_r; reflexivity.
  - destruct (j >? max_cav_ - 1) eqn:Hroom.
    + injection Hload as <- _ _.
      replace (Z.to_nat (max_cav_ - j)) with O by lia.
      rewrite app_nil_r; reflexivity.
    + replace (Z.to_nat (max_cav_ - j))
        with (S (Z.to_nat (max_cav_ - (j + 1)))) by lia.
      simpl.
      assert (Hfresh : ~ In (cav_name c) (od_keys sc)).
      { intros Hin. apply NoDup_remove_2 in Hnd. apply Hnd.
        apply in_or_app; left; exact Hin. }
      rewrite (od_set_fresh _ _ _ Hfresh) in Hload.
      apply IH in Hload; [| lia |].
      * rewrite Hload. unfold od_keys. rewrite map_app; simpl.
        rewrite <- app_assoc; reflexivity.
      * unfold od_keys. rewrite map_app; simpl.
        rewrite <- app_assoc; exact Hnd.
Qed.

Lemma load_cavs_no_room (folder : string) (cavs : list cav_dir) :
  forall j sc lr out sc' lr' out',
    max_cav_ <= 0 -> 0 <= j ->
    load_cavs k_ tau_ max_cav_ folder j cavs sc lr out = (sc', lr', out') ->
    lr' = lr.
Proof.
  destruct cavs as [|c cavs]; simpl; intros j sc lr out sc' lr' out' Hm Hj Hload.
  - injection Hload as _ <- _; reflexivity.
  - replace (j >? max_cav_ - 1) with true in Hload by lia.
    injection Hload as _ <- _; reflexivity.
Qed.

Lemma load_scenarios_no_room (folders : list scenario_dir) :
  forall db lr out db' lr' out',
    max_cav_ <= 0 ->
    load_scenarios k_ tau_ max_cav_ folders db lr out = Ok (db', lr', out') ->
    lr' = lr.
Proof.
  induction folders as [|f folders IH]; simpl; intros db lr out db' lr' out' Hm Hload.
  - injection Hload as _ <- _; reflexivity.
  - inv_bind Hload.
    destruct (load_cavs k_ tau_ max_cav_ (scenario_path f) 0 (cav_list f) [] lr out)
      as [[sc lr1] out1] eqn:Hcavs.
    apply load_cavs_no_room in Hcavs; [subst lr1 | exact Hm | lia].
    eapply IH; eauto.
Qed.

Lemma load_scenarios_keys (folders : list scenario_dir) :
  forall db lr out db' lr' out',
    Forall (fun f => NoDup (map cav_name (cav_list f))) folders ->
    load_scenarios k_ tau_ max_cav_ folders db lr out = Ok (db', lr', out') ->
    map (od_keys (V := cav_content)) db'
    = map (od_keys (V := cav_content)) db
      ++ map (fun f => map cav_name (firstn (Z.to_nat max_cav_) (cav_list f)))
             folders.
Proof.
  induction folders as [|f folders IH]; simpl; intros db lr out db' lr' out' Hnd Hload.
  - injection Hload as <- _ _. rewrite app_nil_r; reflexivity.
  - inv_bind Hload.
    destruct (load_cavs k_ tau_ max_cav_ (scenario_path f) 0 (cav_list f) [] lr out)
      as [[sc lr1] out1] eqn:Hcavs.
    inversion Hnd as [|? ? Hf Hrest]; subst.
    apply load_cavs_keys in Hcavs; [| lia | exact Hf].
    simpl in Hcavs. rewrite Z.sub_0_r in Hcavs.
    apply IH in Hload; [| exact Hrest].
    rewrite Hload, map_app; simpl. rewrite Hcavs, <- app_assoc; reflexivity.
Qed.
End InitFacts.

Lemma init_Ok `{Arrays} (p : params) (v kd : bool) (folders : list scenario_dir)
    (self : dataset) (out : list string) :
  init p v kd folders = Ok (self, out) ->
  exists lr_last,
    py_index (len_record self) (-1) = Ok lr_last /\
    load_scenarios (k self) (tau self) (max_cav self) folders [] [] []
    = Ok (scenario_database self, len_record self, out).
Proof.
  unfold init; intros Hinit.
  inv_bind Hinit. inv_bind Hinit. destruct a0 as [[db lr] out0].
  inv_bind Hinit. injection Hinit as <- <-; simpl.
  eauto.
Qed.

Lemma init_max_cav_positive `{Arrays} (p : params) (v kd : bool)
    (folders : list scenario_dir) (self : dataset) (out : list string) :
  init p v kd folders = Ok (self, out) -> 1 <= max_cav self.
Proof.
  intros Hinit. apply init_Ok in Hinit as (lr_last & Hlast & Hload).
  destruct (Z_le_gt_dec (max_cav self) 0) as [Hle|Hgt]; [|lia].
  apply load_scenarios_no_room in Hload; [| exact Hle].
  rewrite Hload in Hlast; discriminate.
Qed.

(** ** Temporal sampling *)

Section RetrieveFacts.
Context `{Arrays}.
Variable self : dataset.

Lemma cav_loop_length {A : Type} (at_position : cav_content -> Z -> res A)
    (sc : scenario) :
  forall idx scenario_index i data data',
    cav_loop self at_position sc idx scenario_index i data = Ok data' ->
    (List.length data' <= List.length data + List.length sc)%nat.
Proof.
  induction sc as [|[cav_id content] sc IH]; simpl;
    intros idx scenario_index i data data' Hloop.
  - injection Hloop as <-; lia.
  - inv_bind Hloop. destruct a as [frames i'].
    apply IH in Hloop.
    pose proof (od_set_length cav_id frames data). lia.
Qed.

Lemma retrieve_frames_length {A : Type}
    (at_position : cav_content -> Z -> res A) (idx : Z)
    (data : list (string * cav_frames)) :
  retrieve_frames self at_position idx = Ok data ->
  exists sc, In sc (scenario_database self)
             /\ (List.length data <= List.length sc)%nat.
Proof.
  unfold retrieve_frames.
  destruct (scan_len_record idx 0 (len_record self) None) as [scenario_index i].
  intros Hdata. inv_bind Hdata.
  destruct (nth_error (scenario_database self) (Z.to_nat scenario_index))
    as [sc|] eqn:Hsc; [|discriminate].
  injection Ha as <-.
  exists sc; split; [eapply nth_error_In; eauto|].
  apply cav_loop_length in Hdata; simpl in Hdata; lia.
Qed.
End RetrieveFacts.

(** C10.  After index construction every scenario of the database holds the
    first [max_cav] agent folders of its sorted listing and no other: the
    folders beyond them are skipped while construction still succeeds, so
    a scenario has at most [max_cav] agents and the per-sample loop of
    [retrieve_base_data] yields at most [max_cav] entries. *)
Theorem init_keeps_at_most_max_cav `{Collaborators} (p : params) (v kd : bool)
    (folders : list scenario_dir) (self : dataset) (out : list string) :
  Forall (fun f => NoDup (map cav_name (cav_list f))) folders ->
  init p v kd folders = Ok (self, out) ->
  map (od_keys (V := cav_content)) (scenario_database self)
  = map (fun f => map cav_name (firstn (Z.to_nat (max_cav self)) (cav_list f)))
        folders
  /\ Forall (fun sc : scenario => Z.of_nat (List.length sc) <= max_cav self)
            (scenario_database self)
  /\ forall idx data,
       retrieve_base_data self idx = Ok data ->
       Z.of_nat (List.length data) <= max_cav self.
Proof.
  intros Hnd Hinit.
  pose proof (init_max_cav_positive _ _ _ _ _ _ Hinit) as Hpos.
  destruct (init_Ok _ _ _ _ _ _ Hinit) as (lr_last & _ & Hload).
  apply load_scenarios_keys in Hload; [| exact Hnd]. simpl in Hload.
  assert (Hall : Forall (fun sc : scenario => Z.of_nat (List.length sc) <= max_cav self)
                        (scenario_database self)).
  { apply Forall_forall; intros sc Hin.
    apply (in_map (od_keys (V := cav_content))) in Hin.
    rewrite Hload in Hin. apply in_map_iff in Hin as (f & Hkeys & _).
    apply (f_equal (@List.length string)) in Hkeys.
    unfold od_keys in Hkeys. rewrite !length_map in Hkeys.
    pose proof (firstn_le_length (Z.to_nat (max_cav self)) (cav_list f)).
    rewrite length_firstn in Hkeys. lia. }
  split; [exact Hload | split; [exact Hall|]].
  intros idx data Hdata. unfold retrieve_base_data in Hdata.
  inv_bind Hdata. injection Hdata as <-.
  apply retrieve_frames_length in Ha as (sc & Hin & Hlen).
  rewrite Forall_forall in Hall. specialize (Hall sc Hin).
  rewrite length_map. lia.
Qed.

Lemma init_keeps_at_most_max_cav_witness :
  Forall (fun f => NoDup (map cav_name (cav_list f))) Scenes.crowded_folders
  /\ init Scenes.crowded_config false false Scenes.crowded_folders
     = Ok (Scenes.crowded, ["too many cavs"])
  /\ map (od_keys (V := cav_content)) (scenario_database Scenes.crowded)
     = [["641"; "650"]].
Proof.
  assert (Hnd : Forall (fun f => NoDup (map cav_name (cav_list f)))
                       Scenes.crowded_folders).
  { repeat constructor; simpl; intuition discriminate. }
  assert (Hinit : init Scenes.crowded_config false false Scenes.crowded_folders
                  = Ok (Scenes.crowded, ["too many cavs"])) by reflexivity.
  split; [exact Hnd | split; [exact Hinit|]].
  exact (proj1 (init_keeps_at_most_max_cav
                  (H0 := Grid.collaborators [] [])
                  _ _ _ _ _ _ Hnd Hinit)).
Defined.

(** ** Invariants of the index *)

Lemma od_set_In {V : Type} (key : string) (v : V) (d : list (string * V))
    (item : string * V) :
  In item (od_set String.eqb key v d) -> item = (key, v) \/ In item d.
Proof.
  induction d as [|[k0 v0] d IH]; simpl.
  - intros [<-|[]]; left; reflexivity.
  - destruct (String.eqb key k0); simpl.
    + intros [<-|Hin]; [left; reflexivity | right; right; exact Hin].
    + intros [<-|Hin]; [right; left; reflexivity|].
      destruct (IH Hin) as [->|Hd]; [left; reflexivity | right; right; exact Hd].
Qed.

Lemma od_set_keys_In {V : Type} (key : string) (v : V) (d : list (string * V))
    (x : string) :
  In x (od_keys (od_set String.eqb key v d)) -> x = key \/ In x (od_keys d).
Proof.
  unfold od_keys; intros Hin. apply in_map_iff in Hin as (item & <- & Hitem).
  apply od_set_In in Hitem as [->|Hd]; [left; reflexivity|].
  right; apply in_map; exact Hd.
Qed.

Lemma od_set_NoDup {V : Type} (key : string) (v : V) (d : list (string * V)) :
  NoDup (od_keys d) -> NoDup (od_keys (od_set String.eqb key v d)).
Proof.
  induction d as [|[k0 v0] d IH]; simpl; intros Hnd.
  - constructor; [intros [] | constructor].
  - inversion Hnd as [|? ? Hnot Hrest]; subst.
    destruct (String.eqb_spec key k0) as [->|Hne]; simpl.
    + constructor; assumption.
    + constructor; [|apply IH; exact Hrest].
      intros Hin. apply od_set_keys_In in Hin as [Heq|Hin];
        [apply Hne; symmetry; exact Heq | apply Hnot; exact Hin].
Qed.

Lemma add_frames_keeps_ego (cav_path : string) (timestamps : list string) :
  forall content,
    od_get String.eqb "ego" content <> None ->
    od_get String.eqb "ego" (add_frames cav_path timestamps content) <> None.
Proof.
  unfold add_frames.
  induction timestamps as [|t timestamps IH]; simpl; intros content Hego;
    [exact Hego|].
  apply IH.
  destruct (String.eqb_spec "ego" t) as [<-|Hne].
  - rewrite od_get_od_set_same; discriminate.
  - rewrite od_get_od_set_other; assumption.
Qed.

Section IndexInvariants.
Variables (k_ tau_ max_cav_ : Z).

Lemma load_cavs_ok (folder : string) (cavs : list cav_dir) :
  forall j sc lr out sc' lr' out',
    scenario_ok sc ->
    load_cavs k_ tau_ max_cav_ folder j cavs sc lr out = (sc', lr', out') ->
    scenario_ok sc'.
Proof.
  induction cavs as [|c cavs IH]; simpl;
    intros j sc lr out sc' lr' out' Hok Hload.
  - injection Hload as <- _ _; exact Hok.
  - destruct (j >? max_cav_ - 1).
    + injection Hload as <- _ _; exact Hok.
    + eapply IH; [|exact Hload].
      destruct Hok as [Hnd Hego]. split; [apply od_set_NoDup; exact Hnd|].
      intros item Hin. apply od_set_In in Hin as [->|Hin]; [|auto].
      simpl. apply add_frames_keeps_ego. simpl. discriminate.
Qed.

Lemma load_cavs_len_record (folder : string) (cavs : list cav_dir) :
  forall j sc lr out sc' lr' out',
    0 < j ->
    load_cavs k_ tau_ max_cav_ folder j cavs sc lr out = (sc', lr', out') ->
    lr' = lr.
Proof.
  induction cavs as [|c cavs IH]; simpl;
    intros j sc lr out sc' lr' out' Hj Hload.
  - injection Hload as _ <- _; reflexivity.
  - destruct (j >? max_cav_ - 1).
    + injection Hload as _ <- _; reflexivity.
    + replace (j =? 0) with false in Hload by lia.
      eapply IH; [|exact Hload]. lia.
Qed.

Lemma push_len_record_length (n : Z) (lr : list Z) :
  List.length (push_len_record n lr) = S (List.length lr).
Proof.
  destruct lr as [|x lr]; simpl; [reflexivity|].
  rewrite length_app; simpl; lia.
Qed.

Lemma load_scenarios_ok (folders : list scenario_dir) :
  forall db lr out db' lr' out',
    1 <= max_cav_ ->
    Forall scenario_ok db ->
    List.length db = List.length lr ->
    load_scenarios k_ tau_ max_cav_ folders db lr out = Ok (db', lr', out') ->
    Forall scenario_ok db' /\ List.length db' = List.length lr'.
Proof.
  induction folders as [|f folders IH]; simpl;
    intros db lr out db' lr' out' Hroom Hok Hlen Hload.
  - injection Hload as <- <- _; split; assumption.
  - inv_bind Hload. apply assert_Ok in Ha.
    destruct (load_cavs k_ tau_ max_cav_ (scenario_path f) 0 (cav_list f) [] lr out)
      as [[sc lr1] out1] eqn:Hcavs.
    assert (Hsc : scenario_ok sc).
    { eapply load_cavs_ok; [|exact Hcavs].
      split; [constructor | intros item []]. }
    assert (Hlr : List.length lr1 = S (List.length lr)).
    { destruct (cav_list f) as [|c cavs]; [simpl in Ha; discriminate|].
      simpl in Hcavs.
      replace (0 >? max_cav_ - 1) with false in Hcavs by lia.
      simpl in Hcavs.
      apply load_cavs_len_record in Hcavs; [| lia].
      subst lr1. apply push_len_record_length. }
    eapply IH; [exact Hroom | | | exact Hload].
    + apply Forall_app; split; [exact Hok | constructor; [exact Hsc | constructor]].
    + rewrite length_app; simpl; lia.
Qed.
End IndexInvariants.

Lemma init_index_ok `{Arrays} (p : params) (v kd : bool)
    (folders : list scenario_dir) (self : dataset) (out : list string) :
  init p v kd folders = Ok (self, out) ->
  Forall scenario_ok (scenario_database self)
  /\ List.length (scenario_database self) = List.length (len_record self).
Proof.
  intros Hinit.
  pose proof (init_max_cav_positive _ _ _ _ _ _ Hinit) as Hroom.
  destruct (init_Ok _ _ _ _ _ _ Hinit) as (lr_last & _ & Hload).
  exact (load_scenarios_ok _ _ _ folders [] [] [] _ _ _
           Hroom (Forall_nil _) eq_refl Hload).
Qed.

(** ** The positions of a sample *)

Lemma py_index_nth {A : Type} (l : list A) (z : Z) (d : A) :
  0 <= z < Z.of_nat (List.length l) ->
  py_index l z = Ok (nth (Z.to_nat z) l d).
Proof.
  intros Hz. unfold py_index.
  replace (z <? 0) with false by lia.
  replace ((0 <=? z) && (z <? Z.of_nat (List.length l))) with true by lia.
  destruct (nth_error l (Z.to_nat z)) as [a|] eqn:Hnth.
  - f_equal. symmetry. apply nth_error_nth; exact Hnth.
  - apply nth_error_None in Hnth. lia.
Qed.

Lemma scan_len_record_hit (idx : Z) (lr : list Z) :
  forall j i,
    (exists ele, In ele lr /\ idx < ele) ->
    exists s, scan_len_record idx j lr i = (s, Some s)
              /\ j <= s < j + Z.of_nat (List.length lr).
Proof.
  induction lr as [|ele lr IH]; intros j i (x & Hin & Hlt); [destruct Hin|].
  simpl. destruct (idx <? ele) eqn:Hhit.
  - exists j; split; [reflexivity | lia].
  - destruct Hin as [->|Hin]; [lia|].
    destruct (IH (j + 1) (Some j)) as (s & Hs & Hrange); [eauto|].
    exists s; split; [exact Hs | lia].
Qed.

Lemma py_range_carried (n i : Z) :
  match py_range n with
  | [] => Some i
  | _ => Some (last (py_range n) 0)
  end = Some (if 0 <? n then n - 1 else i).
Proof.
  unfold py_range. destruct (Z.to_nat n) as [|m] eqn:Hn.
  - simpl. replace (0 <? n) with false by lia. reflexivity.
  - replace (0 <? n) with true by lia.
    rewrite seq_S, map_app; simpl.
    destruct (map Z.of_nat (seq 0 m) ++ [Z.of_nat m]) as [|x l] eqn:Hl.
    + destruct (map Z.of_nat (seq 0 m)); discriminate.
    + rewrite <- Hl, last_last. f_equal; lia.
Qed.

Section Positions.
Context `{Arrays}.
Variable self : dataset.
Variables (idx scenario_index offset : Z).
Hypothesis base_ok :
  forall i, timestamp_base self idx i scenario_index = Ok (offset + i).

Let at_position := fun (_ : cav_content) (p : Z) => Ok p.

Lemma past_frames_positions (content : cav_content) (temp : Z)
    (range : list Z) :
  past_frames self at_position content idx scenario_index temp range
  = Ok (map (fun i => (i, offset + (k self - 1) + temp)) range).
Proof.
  induction range as [|i range IH]; simpl; [reflexivity|].
  unfold past_timestamp_index. rewrite base_ok; simpl.
  rewrite IH; simpl. do 3 f_equal. lia.
Qed.

Lemma cav_body_positions (cav_id : string) (content : cav_content) (i : Z) :
  od_get String.eqb "ego" content <> None ->
  exists frames,
    cav_body self at_position content idx scenario_index (Some i)
    = Ok (frames, Some (carried self i))
    /\ positions_from self offset [(cav_id, content)] i = [(cav_id, frames)].
Proof.
  intros Hego. unfold cav_body, ego_entry, positions_from, ego_entry.
  destruct (od_get String.eqb "ego" content) as [e|]; [|contradiction].
  simpl. unfold curr_timestamp_index. rewrite base_ok; simpl.
  rewrite past_frames_positions; simpl.
  eexists; split; [|reflexivity].
  do 2 f_equal. apply py_range_carried.
Qed.

Lemma cav_loop_positions (sc : scenario) :
  forall i data,
    (forall item, In item sc -> od_get String.eqb "ego" (snd item) <> None) ->
    NoDup (od_keys data ++ od_keys sc) ->
    cav_loop self at_position sc idx scenario_index (Some i) data
    = Ok (data ++ positions_from self offset sc i).
Proof.
  induction sc as [|[cav_id content] sc IH]; intros i data Hego Hnd.
  - simpl. rewrite app_nil_r; reflexivity.
  - destruct (cav_body_positions cav_id content i) as (frames & Hbody & Hpos).
    { apply (Hego (cav_id, content)); left; reflexivity. }
    change (cav_loop self at_position ((cav_id, content) :: sc) idx
              scenario_index (Some i) data)
      with ('(frames, i') <-
              cav_body self at_position content idx scenario_index (Some i) ;;
            cav_loop self at_position sc idx scenario_index i'
              (od_set String.eqb cav_id frames data)).
    rewrite Hbody; simpl bind.
    rewrite od_set_fresh.
    + rewrite IH.
      * rewrite <- app_assoc. f_equal. f_equal.
        change (positions_from self offset ((cav_id, content) :: sc) i)
          with (positions_from self offset [(cav_id, content)] i
                ++ positions_from self offset sc (carried self i)).
        rewrite Hpos; reflexivity.
      * intros item Hin; apply Hego; right; exact Hin.
      * unfold od_keys in *. rewrite map_app; simpl.
        rewrite <- app_assoc; exact Hnd.
    + simpl in Hnd. apply NoDup_remove_2 in Hnd.
      intros Hin; apply Hnd; apply in_or_app; left; exact Hin.
Qed.
End Positions.

Lemma add_frames_ego_truth (cav_path : string) (timestamps : list string) :
  forall content,
    entry_truth (ego_entry content) = true ->
    entry_truth (ego_entry (add_frames cav_path timestamps content)) = true.
Proof.
  unfold add_frames, ego_entry.
  induction timestamps as [|t timestamps IH]; simpl; intros content Hego;
    [exact Hego|].
  apply IH.
  destruct (String.eqb_spec "ego" t) as [<-|Hne].
  - rewrite od_get_od_set_same; reflexivity.
  - rewrite od_get_od_set_other; assumption.
Qed.

Section EgoFirst.
Context `{Arrays}.
Variable self : dataset.
Variables (k_ tau_ max_cav_ : Z).

Lemma load_cavs_head (folder : string) (cavs : list cav_dir) :
  forall j sc lr out sc' lr' out',
    ego_first self sc ->
    NoDup (od_keys sc ++ map cav_name cavs) ->
    load_cavs k_ tau_ max_cav_ folder j cavs sc lr out = (sc', lr', out') ->
    ego_first self sc'.
Proof.
  induction cavs as [|c cavs IH]; simpl;
    intros j sc lr out sc' lr' out' Hfirst Hnd Hload.
  - injection Hload as <- _ _; exact Hfirst.
  - destruct (j >? max_cav_ - 1).
    + injection Hload as <- _ _; exact Hfirst.
    + assert (Hfresh : ~ In (cav_name c) (od_keys sc)).
      { intros Hin. apply NoDup_remove_2 in Hnd. apply Hnd.
        apply in_or_app; left; exact Hin. }
      rewrite (od_set_fresh _ _ _ Hfresh) in Hload.
      eapply IH; [| |exact Hload].
      * destruct Hfirst as (id & content & rest & -> & Htruth).
        exists id, content; eexists; split; [reflexivity | exact Htruth].
      * unfold od_keys in *. rewrite map_app; simpl.
        rewrite <- app_assoc; exact Hnd.
Qed.

Lemma load_scenarios_head (folders : list scenario_dir) :
  forall db lr out db' lr' out',
    1 <= max_cav_ ->
    Forall (fun f => NoDup (map cav_name (cav_list f))) folders ->
    Forall (ego_first self) db ->
    load_scenarios k_ tau_ max_cav_ folders db lr out = Ok (db', lr', out') ->
    Forall (ego_first self) db'.
Proof.
  induction folders as [|f folders IH]; simpl;
    intros db lr out db' lr' out' Hroom Hnd Hdb Hload.
  - injection Hload as <- _ _; exact Hdb.
  - inv_bind Hload. apply assert_Ok in Ha.
    destruct (load_cavs k_ tau_ max_cav_ (scenario_path f) 0 (cav_list f) [] lr out)
      as [[sc lr1] out1] eqn:Hcavs.
    inversion Hnd as [|? ? Hf Hrest]; subst.
    eapply IH; [exact Hroom | exact Hrest | | exact Hload].
    apply Forall_app; split; [exact Hdb|]. constructor; [|constructor].
    destruct (cav_list f) as [|c cavs]; [simpl in Ha; discriminate|].
    simpl in Hcavs.
    replace (0 >? max_cav_ - 1) with false in Hcavs by lia.
    eapply load_cavs_head; [| |exact Hcavs].
    + eexists _, _, []; split; [reflexivity|].
      apply add_frames_ego_truth. reflexivity.
    + simpl. exact Hf.
Qed.
End EgoFirst.

Lemma init_ego_first `{Arrays} (p : params) (v kd : bool)
    (folders : list scenario_dir) (self : dataset) (out : list string) :
  Forall (fun f => NoDup (map cav_name (cav_list f))) folders ->
  init p v kd folders = Ok (self, out) ->
  Forall (ego_first self) (scenario_database self).
Proof.
  intros Hnd Hinit.
  pose proof (init_max_cav_positive _ _ _ _ _ _ Hinit) as Hroom.
  destruct (init_Ok _ _ _ _ _ _ Hinit) as (lr_last & _ & Hload).
  exact (load_scenarios_head self _ _ _ folders [] [] [] _ _ _
           Hroom Hnd (Forall_nil _) Hload).
Qed.

(** A valid flat index resolves: its scenario exists and the positions are
    the ones [positions_from] lists, the loop entered with [i] bound to
    the scenario index. *)
Lemma resolve_valid `{Arrays} (p : params) (v kd : bool)
    (folders : list scenario_dir) (self : dataset) (out : list string)
    (idx : Z) :
  init p v kd folders = Ok (self, out) ->
  0 <= idx < last (len_record self) 0 ->
  exists sc,
    nth_error (scenario_database self) (Z.to_nat (scenario_of self idx)) = Some sc
    /\ resolve self idx
       = Ok (positions_from self (intra_offset self idx) sc (scenario_of self idx)).
Proof.
  intros Hinit Hidx.
  destruct (init_index_ok _ _ _ _ _ _ Hinit) as [Hok Hlen].
  assert (Hhit : exists ele, In ele (len_record self) /\ idx < ele).
  { exists (last (len_record self) 0); split; [|lia].
    destruct (len_record self) as [|x lr] eqn:Hlr; [simpl in Hidx; lia|].
    destruct (exists_last (l := x :: lr)) as (l' & a & Heq); [discriminate|].
    rewrite Heq, last_last. apply in_or_app; right; left; reflexivity. }
  destruct (scan_len_record_hit idx (len_record self) 0 None Hhit)
    as (s & Hscan & Hs).
  assert (Hsc_of : scenario_of self idx = s).
  { unfold scenario_of. rewrite Hscan; reflexivity. }
  destruct (nth_error (scenario_database self) (Z.to_nat s)) as [sc|] eqn:Hsc.
  2:{ apply nth_error_None in Hsc. lia. }
  exists sc. rewrite Hsc_of. split; [exact Hsc|].
  unfold resolve, retrieve_frames. rewrite Hscan, Hsc; simpl bind.
  rewrite Forall_forall in Hok.
  destruct (Hok sc (nth_error_In _ _ Hsc)) as [Hnd Hego].
  rewrite (cav_loop_positions self idx s (intra_offset self idx));
    [reflexivity | | exact Hego | simpl; exact Hnd].
  intros i. unfold timestamp_base, intra_offset. rewrite Hsc_of.
  destruct (s =? 0) eqn:Hs0; [reflexivity|].
  rewrite (py_index_nth _ _ 0) by lia. simpl. f_equal. lia.
Qed.

Lemma positions_from_past `{Arrays} (self : dataset) (offset : Z)
    (sc : scenario) :
  forall i,
    Forall (fun item : string * cav_frames =>
              map fst (cf_past_k (snd item)) = py_range (k self)
              /\ forall p,
                   In (0, p) (cf_past_k (snd item)) ->
                   p = offset + (k self - 1)
                       + (if entry_truth (cf_ego (snd item))
                          then tau self else 0))
           (positions_from self offset sc i).
Proof.
  induction sc as [|[cav_id content] sc IH]; intros i; simpl; constructor;
    [|apply IH].
  simpl; split.
  - rewrite map_map; simpl. apply map_id.
  - intros p Hin. apply in_map_iff in Hin as (i' & Heq & _).
    injection Heq as _ <-. reflexivity.
Qed.

Lemma positions_from_single_sweep `{Arrays} (self : dataset) (offset : Z)
    (sc : scenario) :
  k self = 1 ->
  Forall (fun item : string * cav_frames =>
            cf_curr (snd item) = offset + tau self + k self - 1)
         (positions_from self offset sc 0).
Proof.
  intros Hk. induction sc as [|[cav_id content] sc IH]; simpl; constructor.
  - simpl; lia.
  - replace (carried self 0) with 0; [exact IH|].
    unfold carried. rewrite Hk; reflexivity.
Qed.

(** C1, amended.  For a flat index valid under the cumulative-length table
    and [offset] its intra-scenario offset: the most recent past frame
    (i = 0) is at [offset + (k - 1) + tau] for the ego agent and at
    [offset + (k - 1)] for a non-ego agent; in the first scenario the ego
    agent's current frame is at [offset + tau + k - 1], and with [k = 1]
    every other agent's current frame is at that same position, tau
    included. *)
Theorem retrieve_positions_by_design `{Arrays} (p : params) (v kd : bool)
    (folders : list scenario_dir) (self : dataset) (out : list string)
    (idx : Z) :
  Forall (fun f => NoDup (map cav_name (cav_list f))) folders ->
  init p v kd folders = Ok (self, out) ->
  0 <= idx < last (len_record self) 0 ->
  positions_by_design self idx.
Proof.
  intros Hnd Hinit Hidx.
  destruct (resolve_valid _ _ _ _ _ _ _ Hinit Hidx) as (sc & Hsc & Hres).
  pose proof (init_ego_first _ _ _ _ _ _ Hnd Hinit) as Hfirst.
  rewrite Forall_forall in Hfirst.
  destruct (Hfirst sc (nth_error_In _ _ Hsc))
    as (cav_id & content & rest & -> & Htruth).
  eexists; split; [exact Hres|]. split; [apply positions_from_past|].
  intros Hs0. rewrite Hs0. simpl.
  eexists _, _; split; [reflexivity|]. simpl.
  split; [exact Htruth | split; [lia|]].
  intros Hk. replace (carried self 0) with 0.
  - apply positions_from_single_sweep; exact Hk.
  - unfold carried. rewrite Hk; reflexivity.
Qed.

Lemma retrieve_positions_by_design_witness :
  Forall (fun f => NoDup (map cav_name (cav_list f)))
         [Grid.recording "opv2v/train/s0" ["641"; "650"] 4]
  /\ init (Grid.config 1 1 "SpVoxelPreprocessor" 70 100) false false
          [Grid.recording "opv2v/train/s0" ["641"; "650"] 4]
     = Ok (Scenes.delayed, [])
  /\ 0 <= 0 < last (len_record Scenes.delayed) 0
  /\ positions_by_design Scenes.delayed 0.
Proof.
  assert (Hnd : Forall (fun f => NoDup (map cav_name (cav_list f)))
                       [Grid.recording "opv2v/train/s0" ["641"; "650"] 4]).
  { repeat constructor; simpl; intuition discriminate. }
  assert (Hinit : init (Grid.config 1 1 "SpVoxelPreprocessor" 70 100)
                       false false
                       [Grid.recording "opv2v/train/s0" ["641"; "650"] 4]
                  = Ok (Scenes.delayed, [])) by reflexivity.
  assert (Hidx : 0 <= 0 < last (len_record Scenes.delayed) 0).
  { change (0 <= 0 < 3). lia. }
  repeat split; try exact Hnd; try exact Hinit; try (apply Hidx).
  exact (retrieve_positions_by_design _ _ _ _ _ _ _ Hnd Hinit Hidx).
Defined.

(** C1 as stated fails: with one sweep and one frame of delay the code puts
    the ego's past frame of index 0 at position 1, the specified position
    is 0. *)
Lemma positions_as_specified_counterexample :
  0 <= 0 < last (len_record Scenes.delayed) 0
  /\ resolve Scenes.delayed 0
     = Ok [("641", {| cf_ego := EgoFlag true;
                      cf_past_k := [(0, 1)]; cf_curr := 1 |});
           ("650", {| cf_ego := EgoFlag false;
                      cf_past_k := [(0, 0)]; cf_curr := 1 |})]
  /\ specified_past Scenes.delayed true (intra_offset Scenes.delayed 0) 0 = 0
  /\ ~ positions_as_specified Scenes.delayed 0.
Proof.
  split; [change (0 <= 0 < 3); lia|].
  split; [reflexivity|]. split; [reflexivity|].
  intros (data & Hres & Hall).
  vm_compute in Hres. injection Hres as <-.
  vm_compute in Hall. discriminate.
Qed.

(** ** Positions that leave the frame records *)

(** C2 fails on the code.  Two agents of five frames, [k = 3], [tau = 0]:
    flat index 2 is valid, the loop variable [i] left at [k - 1] by the
    ego's past-frame loop puts the second agent's current frame at
    position 6, past its five frames, and [retrieve_base_data] raises
    [IndexError].  One agent, [k = 1], [tau = 0]: flat index 0 gives
    position 0, which is the 'ego' entry of the agent's dictionary, and the
    lookup raises [TypeError]. *)
Theorem retrieve_positions_leave_frames :
  0 <= 2 < last (len_record Scenes.sweeps) 0
  /\ map (fun item : string * cav_content => List.length (snd item) - 1)%nat
         (nth 0 (scenario_database Scenes.sweeps) [])
     = [5%nat; 5%nat]
  /\ resolve Scenes.sweeps 2
     = Ok [("641", {| cf_ego := EgoFlag true;
                      cf_past_k := [(0, 4); (1, 4); (2, 4)]; cf_curr := 4 |});
           ("650", {| cf_ego := EgoFlag false;
                      cf_past_k := [(0, 4); (1, 4); (2, 4)]; cf_curr := 6 |})]
  /\ retrieve_base_data (H0 := Grid.disk Scenes.sweeps_folders) Scenes.sweeps 2
     = Raise IndexError
  /\ 0 <= 0 < last (len_record Scenes.single) 0
  /\ resolve Scenes.single 0
     = Ok [("641", {| cf_ego := EgoFlag true;
                      cf_past_k := [(0, 0)]; cf_curr := 0 |})]
  /\ timestamp_key_at (snd (nth 0 (nth 0 (scenario_database Scenes.single) [])
                                ("", [])))
                      0
     = Ok "ego"
  /\ retrieve_base_data (H0 := Grid.disk Scenes.single_folders) Scenes.single 0
     = Raise TypeError.
Proof.
  split; [change (0 <= 2 < 3); lia|].
  split; [reflexivity|]. split; [reflexivity|]. split; [reflexivity|].
  split; [change (0 <= 0 < 3); lia|].
  split; [reflexivity|]. split; reflexivity.
Qed.

(** ** Sample assembly never completes *)

Section GetItemFacts.
Context `{Collaborators}.
Variable self : dataset.

Lemma retrieve_base_data_keys (idx : Z) (data : list (string * pyval)) :
  retrieve_base_data self idx = Ok data ->
  Forall (fun item => agent_keys (snd item)) data.
Proof.
  unfold retrieve_base_data. intros Hdata. inv_bind Hdata.
  injection Hdata as <-. apply Forall_forall. intros item Hin.
  apply in_map_iff in Hin as (x & <- & _). simpl.
  unfold agent_keys, cav_data. eauto.
Qed.

Lemma agent_keys_no_params (v : pyval) :
  agent_keys v -> subscript v (KStr "params") = Raise KeyError.
Proof. intros (e & past_k & curr & ->). reflexivity. Qed.

Lemma find_ego_on_agent_keys (items : list (string * pyval)) :
  Forall (fun item => agent_keys (snd item)) items ->
  forall cav_id,
    find_ego items cav_id = Raise KeyError
    \/ exists cav_id', find_ego items cav_id = Ok (None, VList [], cav_id').
Proof.
  induction 1 as [|[id v] items Hv _ IH]; intros cav_id; simpl.
  - right; eauto.
  - destruct Hv as (e & past_k & curr & Hv). simpl in Hv. subst v.
    simpl. destruct e as [[|]|yaml lidar]; simpl; auto.
Qed.

Lemma call_with_four_arguments (a b c d : pyval) :
  call_get_item_single_car self [a; b; c; d] = Raise TypeError.
Proof. reflexivity. Qed.

(** C9.  [__getitem__] raises for every flat index.  When
    [retrieve_base_data] returns, each agent's dictionary has the keys
    'ego', 'past_k' and 'curr' only, so reading ['params'] of the agent
    flagged ego raises [KeyError] (and with no agent flagged ego an
    assertion fails); the call of [get_item_single_car] with four
    arguments would raise [TypeError]. *)
Theorem getitem_always_raises (idx : Z) :
  (exists e,
     getitem self idx = Raise e
     /\ forall data,
          retrieve_base_data self idx = Ok data ->
          e = KeyError \/ e = AssertionError \/ e = NameError)
  /\ (forall data item,
        retrieve_base_data self idx = Ok data ->
        In item data ->
        agent_keys (snd item)
        /\ subscript (snd item) (KStr "params") = Raise KeyError)
  /\ (forall selected_cav_base ego_lidar_pose ego_flag idx',
        call_get_item_single_car self
          [selected_cav_base; ego_lidar_pose; ego_flag; idx']
        = Raise TypeError).
Proof.
  split; [|split].
  - unfold getitem.
    destruct (retrieve_base_data self idx) as [data|e] eqn:Hdata.
    2:{ exists e; split; [reflexivity | intros data; discriminate]. }
    simpl bind.
    destruct (find_ego_on_agent_keys data (retrieve_base_data_keys _ _ Hdata) None)
      as [Hraise|(cav_id & Hnone)].
    + rewrite Hraise. exists KeyError; split; [reflexivity | auto].
    + rewrite Hnone. simpl bind.
      destruct cav_id as [cav_id|]; simpl.
      2:{ exists NameError; split; [reflexivity | auto]. }
      destruct data as [|[id v] rest].
      { simpl in Hnone. discriminate. }
      rewrite (py_index_nth _ _ id) by (simpl; lia). simpl.
      destruct (String.eqb cav_id id); simpl;
        exists AssertionError; split; auto.
  - intros data item Hdata Hin.
    pose proof (retrieve_base_data_keys _ _ Hdata) as Hkeys.
    rewrite Forall_forall in Hkeys. specialize (Hkeys item Hin).
    split; [exact Hkeys | apply agent_keys_no_params; exact Hkeys].
  - intros; reflexivity.
Qed.
End GetItemFacts.

(** ** Communication range *)

Section CommRangeFacts.
Context `{Arrays}.
Variable self : dataset.
Variable ego_lidar_pose : pyval.

Lemma comm_range_loop (base_data_dict : list (string * pyval)) :
  forall too_far poses ids too_far' poses' ids',
    foldM (comm_range_body self ego_lidar_pose) base_data_dict
          (too_far, poses, ids)
    = Ok (too_far', poses', ids') ->
    too_far'
    = too_far ++ map fst (filter (beyond_range self ego_lidar_pose) base_data_dict)
    /\ ids'
       = ids ++ map fst (filter (fun item =>
                                   negb (beyond_range self ego_lidar_pose item))
                                base_data_dict)
    /\ Forall (fun item => exists distance,
                  planar_distance (snd item) ego_lidar_pose = Ok distance)
              base_data_dict.
Proof.
  induction base_data_dict as [|[cav_id content] rest IH];
    intros too_far poses ids too_far' poses' ids' Hloop; simpl in Hloop.
  - injection Hloop as <- _ <-. simpl. rewrite !app_nil_r. auto.
  - inv_bind Hloop. destruct a as [[tf ps] cs].
    unfold comm_range_body in Ha. inv_bind Ha. rename a into distance.
    assert (Hb : beyond_range self ego_lidar_pose (cav_id, content)
                 = fgtb distance (comm_range (self_params self))).
    { unfold beyond_range; simpl. rewrite Ha0; reflexivity. }
    simpl. rewrite Hb.
    destruct (fgtb distance (comm_range (self_params self))) eqn:Hfar.
    + injection Ha as <- <- <-.
      apply IH in Hloop as (-> & -> & Hall). simpl.
      rewrite <- app_assoc. repeat split; eauto.
    + inv_bind Ha. inv_bind Ha. injection Ha as <- <- <-.
      apply IH in Hloop as (-> & -> & Hall). simpl.
      rewrite <- app_assoc. repeat split; eauto.
Qed.

(** X19.  When the communication-range loop completes, an agent whose
    computed planar distance to the ego exceeds [comm_range] is in
    [too_far] and not in [cav_id_list], the list the per-agent processing
    then runs over; every id of [cav_id_list] is that of an agent within
    range. *)
Theorem comm_range_filter_excludes (base_data_dict : list (string * pyval))
    (too_far : list string) (poses : list pyval) (cav_id_list : list string) :
  NoDup (od_keys base_data_dict) ->
  comm_range_filter self base_data_dict ego_lidar_pose
  = Ok (too_far, poses, cav_id_list) ->
  (forall cav_id content distance,
     In (cav_id, content) base_data_dict ->
     planar_distance content ego_lidar_pose = Ok distance ->
     fgtb distance (comm_range (self_params self)) = true ->
     ~ In cav_id cav_id_list /\ In cav_id too_far)
  /\ (forall cav_id,
        In cav_id cav_id_list ->
        exists content distance,
          In (cav_id, content) base_data_dict
          /\ planar_distance content ego_lidar_pose = Ok distance
          /\ fgtb distance (comm_range (self_params self)) = false).
Proof.
  intros Hnd Hfilter. unfold comm_range_filter in Hfilter.
  apply comm_range_loop in Hfilter as (Hfar & Hids & Hall). simpl in Hfar, Hids.
  subst too_far cav_id_list. split.
  - intros cav_id content distance Hin Hdist Hgt.
    assert (Hbeyond : beyond_range self ego_lidar_pose (cav_id, content) = true).
    { unfold beyond_range; simpl. rewrite Hdist; exact Hgt. }
    split.
    + intros Hid. apply in_map_iff in Hid as ([id' content'] & Heq & Hin').
      simpl in Heq; subst id'. apply filter_In in Hin' as [Hin' Hnear].
      assert (content' = content); [|subst content'].
      { clear - Hnd Hin Hin'. induction base_data_dict as [|[k0 v0] d IH];
          [destruct Hin|].
        simpl in Hnd. inversion Hnd as [|? ? Hnot Hrest]; subst.
        destruct Hin as [Heq|Hin], Hin' as [Heq'|Hin'].
        - congruence.
        - injection Heq as -> ->. exfalso; apply Hnot.
          apply (in_map fst) in Hin'; exact Hin'.
        - injection Heq' as -> ->. exfalso; apply Hnot.
          apply (in_map fst) in Hin; exact Hin.
        - apply IH; assumption. }
      rewrite Hbeyond in Hnear; discriminate.
    + apply in_map_iff. exists (cav_id, content); split; [reflexivity|].
      apply filter_In; split; assumption.
  - intros cav_id Hid. apply in_map_iff in Hid as ([id' content] & Heq & Hin).
    simpl in Heq; subst id'. apply filter_In in Hin as [Hin Hnear].
    rewrite Forall_forall in Hall. destruct (Hall _ Hin) as (distance & Hdist).
    exists content, distance. repeat split; [exact Hin | exact Hdist|].
    unfold beyond_range in Hnear; simpl in Hnear, Hdist. rewrite Hdist in Hnear.
    destruct (fgtb distance (comm_range (self_params self)));
      [discriminate | reflexivity].
Qed.
End CommRangeFacts.

Lemma comm_range_filter_excludes_witness :
  NoDup (od_keys Scenes.two_agents)
  /\ comm_range_filter Scenes.short_range
       Scenes.two_agents (Grid.pose 0 0)
     = Ok (["650"], [Grid.pose 0 0], ["641"])
  /\ planar_distance
       (Scenes.agent_at false 10 0 []) (Grid.pose 0 0)
     = Ok 10
  /\ ~ In "650" ["641"] /\ In "650" ["650"].
Proof.
  assert (Hnd : NoDup (od_keys Scenes.two_agents)).
  { repeat constructor; simpl; intuition discriminate. }
  assert (Hfilter :
            comm_range_filter
              Scenes.short_range Scenes.two_agents (Grid.pose 0 0)
            = Ok (["650"], [Grid.pose 0 0], ["641"])) by reflexivity.
  assert (Hdist : planar_distance
                    (Scenes.agent_at false 10 0 []) (Grid.pose 0 0)
                  = Ok 10) by reflexivity.
  split; [exact Hnd | split; [exact Hfilter | split; [exact Hdist|]]].
  exact (proj1 (comm_range_filter_excludes
                  Scenes.short_range (Grid.pose 0 0) Scenes.two_agents
                  _ _ _ Hnd Hfilter)
               "650" (Scenes.agent_at false 10 0 []) 10
               (or_intror (or_introl eq_refl)) Hdist eq_refl).
Defined.


(** ** Merging the agents' objects *)

Lemma mapM_pointwise {A B : Type} (f : A -> res B) (g : A -> B) (l : list A) :
  (forall a, In a l -> f a = Ok (g a)) -> mapM f l = Ok (map g l).
Proof.
  induction l as [|a l IH]; simpl; intros Hf; [reflexivity|].
  rewrite Hf by (left; reflexivity). simpl.
  rewrite IH by (intros; apply Hf; right; assumption). reflexivity.
Qed.

Lemma mapM_map {A B C : Type} (f : B -> res C) (h : A -> B) (l : list A) :
  mapM f (map h l) = mapM (fun a => f (h a)) l.
Proof.
  induction l as [|a l IH]; simpl; [reflexivity|].
  rewrite IH; reflexivity.
Qed.

Lemma list_index_first (x : Z) (l : list Z) :
  In x l ->
  list_index x l = Ok (Z.of_nat (first_position x l))
  /\ (first_position x l < List.length l)%nat
  /\ nth (first_position x l) l 0 = x.
Proof.
  induction l as [|y l IH]; simpl; intros Hin; [destruct Hin|].
  destruct (Z.eqb_spec x y) as [->|Hne].
  - repeat split; lia.
  - destruct Hin as [Heq|Hin]; [congruence|].
    destruct (IH Hin) as (-> & Hlt & Hnth). simpl.
    repeat split; [f_equal; lia | lia | exact Hnth].
Qed.

Section MergeFacts.
Context `{Collaborators}.
Variable self : dataset.
Variables (object_stack : list (list box)) (object_id_stack : list Z).

Hypothesis set_iter_distinct : NoDup (set_iter object_id_stack).
Hypothesis set_iter_elements :
  forall x, In x (set_iter object_id_stack) <-> In x object_id_stack.
Hypothesis some_agent : object_stack <> [].
Hypothesis aligned :
  List.length (List.concat object_stack) = List.length object_id_stack.
Hypothesis max_num_ok : 0 <= max_num (self_params self).

Lemma unique_indices_Ok :
  mapM (fun x => list_index x object_id_stack) (set_iter object_id_stack)
  = Ok (map (fun x => Z.of_nat (first_position x object_id_stack))
            (set_iter object_id_stack)).
Proof.
  apply mapM_pointwise. intros x Hx.
  apply set_iter_elements in Hx. apply list_index_first; exact Hx.
Qed.

Lemma unique_boxes_Ok :
  mapM (py_index (List.concat object_stack))
       (map (fun x => Z.of_nat (first_position x object_id_stack))
            (set_iter object_id_stack))
  = Ok (map (first_seen object_stack object_id_stack)
            (set_iter object_id_stack)).
Proof.
  rewrite mapM_map. apply mapM_pointwise. intros x Hx.
  apply set_iter_elements in Hx.
  destruct (list_index_first x object_id_stack Hx) as (_ & Hlt & _).
  rewrite (py_index_nth _ _ zero_box) by lia.
  unfold first_seen. rewrite Nat2Z.id. reflexivity.
Qed.

Lemma unique_ids_Ok :
  mapM (py_index object_id_stack)
       (map (fun x => Z.of_nat (first_position x object_id_stack))
            (set_iter object_id_stack))
  = Ok (set_iter object_id_stack).
Proof.
  rewrite mapM_map.
  rewrite <- (map_id (set_iter object_id_stack)) at 2.
  apply mapM_pointwise. intros x Hx.
  apply set_iter_elements in Hx.
  destruct (list_index_first x object_id_stack Hx) as (_ & Hlt & Hnth).
  rewrite (py_index_nth _ _ 0) by lia.
  rewrite Nat2Z.id, Hnth. reflexivity.
Qed.
End MergeFacts.

(** C4, amended.  With [n] the number of distinct ids over all agents: the
    merged set holds, per distinct id, the box first stacked under it;
    when [n <= max_num] these boxes are padded with zero rows to
    [max_num] rows and the mask is 1 on exactly the first [n] rows; when
    [n > max_num] (and [n] is not 1) the assignment into the padded array
    raises [ValueError]: no object is dropped. *)
Theorem merge_objects_pads_or_raises `{Collaborators} (self : dataset)
    (object_stack : list (list box)) (object_id_stack : list Z) :
  NoDup (set_iter object_id_stack) ->
  (forall x, In x (set_iter object_id_stack) <-> In x object_id_stack) ->
  object_stack <> [] ->
  List.length (List.concat object_stack) = List.length object_id_stack ->
  0 <= max_num (self_params self) ->
  let unique := set_iter object_id_stack in
  let n := List.length unique in
  let room := Z.to_nat (max_num (self_params self)) in
  ((n <= room)%nat ->
   merge_objects self object_stack object_id_stack
   = Ok (map (first_seen object_stack object_id_stack) unique
           ++ repeat zero_box (room - n),
         repeat 1 n ++ repeat 0 (room - n),
         unique))
  /\ ((room < n)%nat -> n <> 1%nat ->
      merge_objects self object_stack object_id_stack = Raise ValueError).
Proof.
  intros Hnd Hset Hsome Haligned Hmax unique n room.
  unfold merge_objects.
  rewrite (unique_indices_Ok object_id_stack Hset). simpl bind.
  assert (Hstack : match object_stack with
                   | [] => Raise ValueError
                   | _ :: _ => Ok tt
                   end = Ok tt)
    by (destruct object_stack; [contradiction | reflexivity]).
  rewrite Hstack. simpl bind.
  rewrite (unique_boxes_Ok _ object_id_stack Hset Haligned). simpl bind.
  replace (max_num (self_params self) <? 0) with false by lia. simpl bind.
  rewrite (unique_ids_Ok _ object_id_stack Hset Haligned). simpl bind.
  rewrite length_map. fold unique n room.
  split.
  - intros Hfit. apply Nat.leb_le in Hfit. rewrite Hfit. reflexivity.
  - intros Hover Hn1.
    replace (Nat.leb n room) with false by (symmetry; apply Nat.leb_gt; lia).
    replace (Nat.eqb n 1) with false by (symmetry; apply Nat.eqb_neq; exact Hn1).
    reflexivity.
Qed.

Lemma merge_objects_pads_or_raises_witness :
  NoDup (nodup Z.eq_dec Scenes.reported_ids)
  /\ (forall x, In x (nodup Z.eq_dec Scenes.reported_ids)
                <-> In x Scenes.reported_ids)
  /\ merge_objects (H0 := Grid.collaborators [] []) Scenes.roomy
       Scenes.reported_boxes Scenes.reported_ids
     = Ok ([Scenes.box_at 10; Scenes.box_at 20; Scenes.box_at 30;
            repeat 0 7%nat],
           [1; 1; 1; 0],
           [7; 9; 11]).
Proof.
  assert (Hnd : NoDup (nodup Z.eq_dec Scenes.reported_ids))
    by apply NoDup_nodup.
  assert (Hset : forall x, In x (nodup Z.eq_dec Scenes.reported_ids)
                           <-> In x Scenes.reported_ids)
    by (intros x; apply nodup_In).
  split; [exact Hnd | split; [exact Hset|]].
  refine (proj1 (merge_objects_pads_or_raises
                   (H0 := Grid.collaborators [] []) Scenes.roomy
                   Scenes.reported_boxes Scenes.reported_ids
                   Hnd Hset _ eq_refl _) _).
  - discriminate.
  - change (0 <= 4). lia.
  - change (3 <= 4)%nat. lia.
Defined.

(** C4 as stated fails: two distinct objects and [max_num = 1] make the
    merge raise instead of dropping one of them. *)
Lemma excess_dropped_counterexample :
  merge_objects (H0 := Grid.collaborators [] []) Scenes.short_range
    [[Scenes.box_at 10; Scenes.box_at 20]] [7; 9]
  = Raise ValueError
  /\ ~ excess_dropped (H0 := Grid.collaborators [] []) Scenes.short_range
         [[Scenes.box_at 10; Scenes.box_at 20]] [7; 9].
Proof.
  split; [reflexivity|].
  intros (boxes & mask & ids & Hmerge & _).
  vm_compute in Hmerge. discriminate.
Qed.

(** ** The pairwise tensor *)

Lemma set_nth_Ok {A : Type} (l : list A) (x : A) :
  forall n,
    (n < List.length l)%nat ->
    exists l',
      set_nth l n x = Ok l'
      /\ List.length l' = List.length l
      /\ forall m, nth_error l' m
                   = if Nat.eqb m n then Some x else nth_error l m.
Proof.
  induction l as [|y l IH]; simpl; intros n Hn; [lia|].
  destruct n as [|n].
  - eexists; split; [reflexivity|]. split; [reflexivity|].
    intros [|m]; reflexivity.
  - destruct (IH n) as (l' & -> & Hlen & Hnth); [lia|]. simpl.
    eexists; split; [reflexivity|]. split; [simpl; lia|].
    intros [|m]; simpl; [reflexivity | apply Hnth].
Qed.

Lemma set_entry_Ok {A : Type} (L : nat) (t : list (list A)) (i j : nat) (x : A) :
  square L t -> (i < L)%nat -> (j < L)%nat ->
  exists t',
    set_entry t i j x = Ok t'
    /\ square L t'
    /\ forall a b, tensor_at t' a b
                   = if Nat.eqb a i && Nat.eqb b j then Some x
                     else tensor_at t a b.
Proof.
  intros [Hlen Hrows] Hi Hj. unfold set_entry.
  destruct (nth_error t i) as [row|] eqn:Hrow.
  2:{ apply nth_error_None in Hrow. lia. }
  assert (Hrow_len : List.length row = L).
  { rewrite Forall_forall in Hrows. apply Hrows.
    eapply nth_error_In; exact Hrow. }
  destruct (set_nth_Ok row x j) as (row' & -> & Hlen' & Hnth'); [lia|].
  simpl bind.
  destruct (set_nth_Ok t row' i) as (t' & -> & Hlen'' & Hnth''); [lia|].
  eexists; split; [reflexivity|]. split.
  - split; [lia|]. apply Forall_forall. intros r Hr.
    apply In_nth_error in Hr as (m & Hm). rewrite Hnth'' in Hm.
    destruct (Nat.eqb m i).
    + injection Hm as <-. lia.
    + rewrite Forall_forall in Hrows. apply Hrows.
      eapply nth_error_In; exact Hm.
  - intros a b. unfold tensor_at. rewrite Hnth''.
    destruct (Nat.eqb_spec a i) as [->|Hne]; simpl; [|reflexivity].
    rewrite Hnth', Hrow. reflexivity.
Qed.


Section PairwiseFacts.
Context `{Arrays}.
Variable t_list : list matrix.
Variable L : nat.
Hypothesis fits : (List.length t_list <= L)%nat.



End PairwiseFacts.

Lemma tile_eye_square `{Arrays} (L : nat) :
  square L (repeat (repeat eye4 L) L)
  /\ forall i j, (i < L)%nat -> (j < L)%nat ->
                 tensor_at (repeat (repeat eye4 L) L) i j = Some eye4.
Proof.
  split.
  - split; [apply repeat_length|]. apply Forall_forall. intros row Hrow.
    apply repeat_spec in Hrow; subst row. apply repeat_length.
  - intros i j Hi Hj. unfold tensor_at.
    rewrite (nth_error_repeat _ Hi). apply nth_error_repeat; exact Hj.
Qed.




(** ** One agent's point cloud *)

Section SingleCarFacts.
Context `{Collaborators}.
Variable self : dataset.

(** What a sweep hands to the pre-processor does not depend on the ego
    pose: the projected points are computed and set aside. *)
Lemma sweep_body_features (selected_cav_base ego_pose : pyval)
    (locals : option points * option (list (string * fval))) (i : Z)
    (projected : option points) (processed : option (list (string * fval))) :
  sweep_body self selected_cav_base ego_pose locals i = Ok (projected, processed) ->
  exists lidar_np,
    subscript selected_cav_base (KStr "lidar_np") = Ok (VCloud lidar_np)
    /\ processed
       = Some (preprocess
                 (mask_points_by_range
                    (mask_ego_points (shuffle_points lidar_np))
                    (cav_lidar_range (self_params self)))).
Proof.
  unfold sweep_body. intros Hbody.
  inv_bind Hbody. inv_bind Hbody. inv_bind Hbody. inv_bind Hbody.
  inv_bind Hbody. injection Hbody as _ <-.
  destruct a2; try discriminate. injection Ha3 as ->.
  exists a3; split; [exact Ha2 | reflexivity].
Qed.
End SingleCarFacts.


(** ** Batch collation *)

Lemma collate_output_record_len `{Collaborators} (self : dataset)
    (batch_ : list sample) (output_dict : batch) :
  collate_output self batch_ = Ok output_dict ->
  b_record_len output_dict = map s_cav_num batch_.
Proof.
  unfold collate_output. intros Hout.
  repeat (inv_bind Hout). injection Hout as <-. reflexivity.
Qed.

(** C7, amended.  Once the batch is collated: when the configured
    [core_method] is 'SpVoxelPreprocessor' and the collated features have a
    non-empty [voxel_coords] column, [collate_batch_train] compares the
    largest batch index of that column, plus one, with [sum(record_len)]
    and on mismatch returns [None] instead of raising (without a
    [voxel_coords] entry the check raises [KeyError], on an empty column
    [RuntimeError]); with any other [core_method] it makes no such check
    and returns the collated batch, whatever its features. *)
Theorem collate_batch_train_check `{Collaborators} (self : dataset)
    (batch_ : list sample) (output_dict : batch) :
  collate_output self batch_ = Ok output_dict ->
  (core_method (self_params self) <> "SpVoxelPreprocessor" ->
   collate_batch_train self batch_ = Ok (Some output_dict))
  /\ (core_method (self_params self) = "SpVoxelPreprocessor" ->
      (forall voxel_coords top,
         od_get String.eqb "voxel_coords" (b_processed_lidar output_dict)
         = Some voxel_coords ->
         column_max (batch_column voxel_coords) = Ok top ->
         collate_batch_train self batch_
         = if top + 1 =? sum_Z (map s_cav_num batch_)
           then Ok (Some output_dict) else Ok None)
      /\ (od_get String.eqb "voxel_coords" (b_processed_lidar output_dict)
          = None ->
          collate_batch_train self batch_ = Raise KeyError)
      /\ (forall voxel_coords,
            od_get String.eqb "voxel_coords" (b_processed_lidar output_dict)
            = Some voxel_coords ->
            batch_column voxel_coords = [] ->
            collate_batch_train self batch_ = Raise RuntimeError)).
Proof.
  intros Hout.
  pose proof (collate_output_record_len _ _ _ Hout) as Hlen.
  unfold collate_batch_train, record_len_check. rewrite Hout; simpl bind.
  split.
  - intros Hcore. apply String.eqb_neq in Hcore. rewrite Hcore. reflexivity.
  - intros ->. simpl. split; [|split].
    + intros voxel_coords top Hcoords Htop.
      rewrite Hcoords; simpl bind. rewrite Htop; simpl bind.
      rewrite Hlen.
      destruct (top + 1 =? sum_Z (map s_cav_num batch_)); reflexivity.
    + intros Hcoords. rewrite Hcoords. reflexivity.
    + intros voxel_coords Hcoords Hempty.
      rewrite Hcoords; simpl bind. rewrite Hempty. reflexivity.
Qed.

Lemma collate_batch_train_check_witness :
  collate_output (H0 := Grid.collaborators [] []) Scenes.short_range
    [Scenes.short_sample]
  = Ok Scenes.short_output
  /\ od_get String.eqb "voxel_coords" (b_processed_lidar Scenes.short_output)
     = Some [0]
  /\ column_max [0] = Ok 0
  /\ core_method (self_params Scenes.short_range) = "SpVoxelPreprocessor"
  /\ collate_batch_train (H0 := Grid.collaborators [] []) Scenes.short_range
       [Scenes.short_sample]
     = Ok None.
Proof.
  assert (Hout : collate_output (H0 := Grid.collaborators [] [])
                   Scenes.short_range [Scenes.short_sample]
                 = Ok Scenes.short_output) by reflexivity.
  assert (Hcoords : od_get String.eqb "voxel_coords"
                      (b_processed_lidar Scenes.short_output)
                    = Some [0]) by reflexivity.
  assert (Htop : column_max [0] = Ok 0) by reflexivity.
  assert (Hcore : core_method (self_params Scenes.short_range)
                  = "SpVoxelPreprocessor") by reflexivity.
  split; [exact Hout | split; [exact Hcoords | split; [exact Htop|]]].
  split; [exact Hcore|].
  exact (proj1 (proj2 (collate_batch_train_check
                         (H0 := Grid.collaborators [] [])
                         Scenes.short_range [Scenes.short_sample]
                         Scenes.short_output Hout)
                      Hcore)
               [0] 0 Hcoords Htop).
Defined.

(** C7 as stated fails: with the dense voxeliser a batch whose features
    span one group while [record_len] sums to two is returned as valid. *)
Lemma mismatch_rejected_counterexample :
  collate_batch_train (H0 := Grid.collaborators [] []) Scenes.dense
    [Scenes.short_sample]
  = Ok (Some Scenes.short_output)
  /\ ~ mismatch_rejected (H0 := Grid.collaborators [] []) Scenes.dense
         [Scenes.short_sample].
Proof.
  split; [reflexivity|].
  intros Hclaim.
  specialize (Hclaim Scenes.short_output [0] 0 eq_refl eq_refl eq_refl).
  assert (Hne : 0 + 1 <> sum_Z (map s_cav_num [Scenes.short_sample]))
    by (simpl; lia).
  specialize (Hclaim Hne). vm_compute in Hclaim. discriminate.
Qed.

Section CollateTestFacts.
Context `{Collaborators}.
Variable self : dataset.

(** Training-mode collation of no sample: the feature collation of the
    pre-processor may raise; if it does not, concatenating no pose array
    does. *)
Lemma collate_output_empty :
  collate_output self []
  = match pre_collate_batch [] with
    | Ok _ => Raise ValueError
    | Raise e => Raise e
    end.
Proof.
  unfold collate_output, merge_features_to_dict. simpl map. simpl fold_left.
  destruct (kd_flag self), (visualize self); simpl;
    destruct (pre_collate_batch []); reflexivity.
Qed.

(** A batch of one sample: the collated batch with the anchors of the
    sample, two identity matrices, the flat index and the agent ids. *)
Lemma collate_batch_test_single (s : sample) (output_dict : batch) :
  collate_batch_train self [s] = Ok (Some output_dict) ->
  exists out,
    collate_batch_test self [s] = Ok (Some out)
    /\ b_transformation_matrix out = Some eye4
    /\ b_transformation_matrix_clean out = Some eye4
    /\ b_sample_idx out = Some (s_sample_idx s)
    /\ b_cav_id_list out = Some (s_cav_id_list s)
    /\ b_processed_lidar out = b_processed_lidar output_dict
    /\ b_record_len out = b_record_len output_dict.
Proof.
  intros Htrain. unfold collate_batch_test. simpl assert. simpl bind.
  rewrite Htrain. simpl.
  eexists; split; [reflexivity|]. repeat split.
Qed.

(** C8.  [collate_batch_test] refuses every batch whose size is not 1
    with an exception: two samples or more fail the assertion "Batch size
    1 is required during testing!", and a batch of no sample, which the
    assertion lets through, is refused by the training-mode collation it
    is handed to.  A batch of one sample is delegated to
    [collate_batch_train]: its exception or its [None] is passed on, and
    its collated batch is returned with every entry kept, two identity
    4x4 matrices, the sample's flat index, its list of retained agent ids
    and, when the sample has them, its anchor boxes. *)
Theorem collate_batch_test_single_sample :
  (forall batch_,
     List.length batch_ <> 1%nat ->
     exists e,
       collate_batch_test self batch_ = Raise e
       /\ ((2 <= List.length batch_)%nat -> e = AssertionError))
  /\ (forall s,
        (forall e,
           collate_batch_train self [s] = Raise e ->
           collate_batch_test self [s] = Raise e)
        /\ (collate_batch_train self [s] = Ok None ->
            collate_batch_test self [s] = Ok None)
        /\ (forall output_dict,
              collate_batch_train self [s] = Ok (Some output_dict) ->
              exists out,
                collate_batch_test self [s] = Ok (Some out)
                /\ b_transformation_matrix out = Some eye4
                /\ b_transformation_matrix_clean out = Some eye4
                /\ b_sample_idx out = Some (s_sample_idx s)
                /\ b_cav_id_list out = Some (s_cav_id_list s)
                /\ b_anchor_box out
                   = match s_anchor_box s with
                     | Some a => Some a
                     | None => b_anchor_box output_dict
                     end
                /\ b_object_bbx_center out = b_object_bbx_center output_dict
                /\ b_object_bbx_mask out = b_object_bbx_mask output_dict
                /\ b_processed_lidar out = b_processed_lidar output_dict
                /\ b_record_len out = b_record_len output_dict
                /\ b_label_dict out = b_label_dict output_dict
                /\ b_object_ids out = b_object_ids output_dict
                /\ b_pairwise_t_matrix out = b_pairwise_t_matrix output_dict
                /\ b_lidar_pose_clean out = b_lidar_pose_clean output_dict
                /\ b_lidar_pose out = b_lidar_pose output_dict
                /\ b_origin_lidar out = b_origin_lidar output_dict
                /\ b_teacher_processed_lidar out
                   = b_teacher_processed_lidar output_dict)).
Proof.
  split.
  - intros batch_ Hsize.
    destruct batch_ as [|s1 [|s2 rest]]; [| contradiction Hsize; reflexivity |].
    + unfold collate_batch_test, collate_batch_train. simpl assert. simpl bind.
      rewrite collate_output_empty.
      destruct (pre_collate_batch []) as [t|e]; simpl.
      * exists ValueError. split; [reflexivity | simpl; lia].
      * exists e. split; [reflexivity | simpl; lia].
    + exists AssertionError. split; [|reflexivity].
      unfold collate_batch_test.
      assert (Hlen : (Z.of_nat (List.length (s1 :: s2 :: rest)) <=? 1) = false).
      { apply Z.leb_gt. cbn [List.length]. rewrite !Nat2Z.inj_succ. lia. }
      rewrite Hlen. reflexivity.
  - intros s. split; [|split].
    + intros e Htrain. unfold collate_batch_test. simpl assert. simpl bind.
      rewrite Htrain. reflexivity.
    + intros Htrain. unfold collate_batch_test. simpl assert. simpl bind.
      rewrite Htrain. reflexivity.
    + intros output_dict Htrain.
      unfold collate_batch_test. simpl assert. simpl bind.
      rewrite Htrain. simpl.
      eexists; split; [reflexivity|]. repeat split.
Qed.
End CollateTestFacts.

Lemma collate_batch_test_single_sample_witness :
  collate_batch_train (H0 := Grid.collaborators [] []) Scenes.dense
    [Scenes.short_sample]
  = Ok (Some Scenes.short_output)
  /\ (exists out,
        collate_batch_test (H0 := Grid.collaborators [] []) Scenes.dense
          [Scenes.short_sample]
        = Ok (Some out)
        /\ b_transformation_matrix out = Some (0, 0, 0)
        /\ b_sample_idx out = Some 0
        /\ b_cav_id_list out = Some ["641"; "650"]
        /\ b_record_len out = [2])
  /\ collate_batch_test (H0 := Grid.collaborators [] []) Scenes.dense
       [Scenes.short_sample; Scenes.short_sample]
     = Raise AssertionError
  /\ collate_batch_test (H0 := Grid.collaborators [] []) Scenes.dense []
     = Raise ValueError.
Proof.
  assert (Htrain : collate_batch_train (H0 := Grid.collaborators [] [])
                     Scenes.dense [Scenes.short_sample]
                   = Ok (Some Scenes.short_output)) by reflexivity.
  split; [exact Htrain|].
  destruct (collate_batch_test_single_sample
              (H0 := Grid.collaborators [] []) Scenes.dense)
    as [Hrefused Hsingle].
  split; [|split].
  - destruct (proj2 (proj2 (Hsingle Scenes.short_sample))
                    Scenes.short_output Htrain)
      as (out & Hout & Hmatrix & _ & Hidx & Hids & _ & _ & _ & _ & Hlen & _).
    exists out. repeat split; assumption.
  - destruct (Hrefused [Scenes.short_sample; Scenes.short_sample])
      as (e & Hraise & Hassert); [simpl; lia|].
    rewrite Hraise, Hassert by (simpl; lia). reflexivity.
  - destruct (Hrefused []) as (e & Hraise & _); [simpl; lia|].
    rewrite Hraise. f_equal.
    assert (Hvalue : collate_batch_test (H0 := Grid.collaborators [] [])
                       Scenes.dense []
                     = Raise ValueError) by reflexivity.
    rewrite Hraise in Hvalue. injection Hvalue as ->. reflexivity.
Defined.

(** * Further properties of the dataset *)

(** ** When index construction succeeds, and what [len_record] holds *)

Lemma cons_has_length {A : Type} (a : A) (l : list A) :
  (0 <? Z.of_nat (List.length (a :: l))) = true.
Proof.
  apply Z.ltb_lt. cbn [List.length]. rewrite Nat2Z.inj_succ. lia.
Qed.

Lemma py_index_last {A : Type} (l : list A) (d : A) :
  l <> [] -> py_index l (-1) = Ok (last l d).
Proof.
  intros Hne. destruct (exists_last Hne) as (l' & a & ->).
  rewrite last_last. unfold py_index.
  change (-1 <? 0) with true. cbv iota.
  rewrite length_app, Nat2Z.inj_add. simpl List.length.
  change (Z.of_nat 1) with 1.
  replace (-1 + (Z.of_nat (List.length l') + 1))
    with (Z.of_nat (List.length l')) by lia.
  rewrite Nat2Z.id.
  destruct (Z.leb_spec 0 (Z.of_nat (List.length l'))); [|lia].
  destruct (Z.ltb_spec (Z.of_nat (List.length l'))
                       (Z.of_nat (List.length l') + 1)); [|lia].
  simpl andb. cbv iota.
  rewrite nth_error_app2 by lia. rewrite Nat.sub_diag. reflexivity.
Qed.

Lemma bind_ret {A B : Type} (a : A) (f : A -> res B) : bind (Ok a) f = f a.
Proof. reflexivity. Qed.

Section LenRecordFacts.
Variables (k_ tau_ max_cav_ : Z).
Hypothesis room : 1 <= max_cav_.

Lemma load_cavs_first (folder : string) (c : cav_dir) (cavs : list cav_dir)
    (sc : scenario) (lr : list Z) (out : list string)
    (sc' : scenario) (lr' : list Z) (out' : list string) :
  load_cavs k_ tau_ max_cav_ folder 0 (c :: cavs) sc lr out = (sc', lr', out') ->
  lr' = push_len_record
          (Z.of_nat (List.length (cav_timestamps c)) - (tau_ + k_ - 1)) lr.
Proof.
  simpl. replace (0 >? max_cav_ - 1) with false by lia. simpl.
  intros Hload. apply load_cavs_len_record in Hload; [exact Hload | lia].
Qed.

Lemma push_len_record_last (n : Z) (lr : list Z) :
  push_len_record n lr = lr ++ [last lr 0 + n].
Proof. destruct lr; reflexivity. Qed.

Lemma load_scenarios_len_record (folders : list scenario_dir) :
  forall db lr out db' lr' out',
    load_scenarios k_ tau_ max_cav_ folders db lr out = Ok (db', lr', out') ->
    lr' = lr ++ running_sums (last lr 0)
                  (map (num_ego_timestamps k_ tau_) folders).
Proof.
  induction folders as [|f folders IH]; simpl;
    intros db lr out db' lr' out' Hload.
  - injection Hload as _ <- _. rewrite app_nil_r; reflexivity.
  - inv_bind Hload. apply assert_Ok in Ha.
    destruct (load_cavs k_ tau_ max_cav_ (scenario_path f) 0 (cav_list f) [] lr out)
      as [[sc lr1] out1] eqn:Hcavs.
    destruct (cav_list f) as [|c cavs] eqn:Hc; [simpl in Ha; discriminate|].
    assert (Hnum : num_ego_timestamps k_ tau_ f
                   = Z.of_nat (List.length (cav_timestamps c)) - (tau_ + k_ - 1)).
    { unfold num_ego_timestamps. rewrite Hc. reflexivity. }
    apply load_cavs_first in Hcavs. rewrite push_len_record_last in Hcavs.
    apply IH in Hload. subst lr1 lr'.
    rewrite last_last, <- app_assoc, Hnum. reflexivity.
Qed.

Lemma load_scenarios_total (folders : list scenario_dir) :
  forall db lr out,
    Forall (fun f => cav_list f <> []) folders ->
    exists db' lr' out',
      load_scenarios k_ tau_ max_cav_ folders db lr out = Ok (db', lr', out').
Proof.
  induction folders as [|f folders IH]; simpl; intros db lr out Hall; [eauto|].
  inversion Hall as [|? ? Hf Hrest]; subst.
  destruct (cav_list f) as [|c cavs] eqn:Hcavs; [contradiction|].
  rewrite (cons_has_length c cavs).
  change (assert true) with (Ok tt). rewrite bind_ret. cbv beta.
  destruct (load_cavs k_ tau_ max_cav_ (scenario_path f) 0 (c :: cavs) [] lr out)
    as [[sc lr1] out1].
  apply IH; exact Hrest.
Qed.
End LenRecordFacts.

Lemma load_scenarios_empty_folder (k_ tau_ max_cav_ : Z)
    (folders : list scenario_dir) :
  forall db lr out,
    Exists (fun f => cav_list f = []) folders ->
    load_scenarios k_ tau_ max_cav_ folders db lr out = Raise AssertionError.
Proof.
  induction folders as [|f folders IH]; simpl; intros db lr out Hex;
    [inversion Hex|].
  destruct (cav_list f) as [|c cavs] eqn:Hcavs; [reflexivity|].
  rewrite (cons_has_length c cavs).
  change (assert true) with (Ok tt). rewrite bind_ret. cbv beta.
  destruct (load_cavs k_ tau_ max_cav_ (scenario_path f) 0 (c :: cavs) [] lr out)
    as [[sc lr1] out1].
  apply IH. inversion Hex as [? ? Hf|? ? Hrest]; subst; [congruence | exact Hrest].
Qed.

(** X1.  Index construction returns only if the configuration names
    [proj_first], the root holds a scenario folder, every scenario folder
    holds an agent folder and [max_cav] is at least 1; [len_record] is
    then not empty.  (An agent-less scenario fails its assertion; with an
    empty root, or with a [max_cav] below 1, [len_record] stays empty and
    the closing print cannot read its last entry.) *)
Theorem init_returns_only_if `{Arrays} (p : params) (v kd : bool)
    (folders : list scenario_dir) (self : dataset) (out : list string) :
  init p v kd folders = Ok (self, out) ->
  fusion_proj_first p <> None
  /\ folders <> []
  /\ Forall (fun f => cav_list f <> []) folders
  /\ 1 <= max_cav self
  /\ len_record self <> [].
Proof.
  intros Hinit.
  pose proof (init_max_cav_positive _ _ _ _ _ _ Hinit) as Hroom.
  destruct (init_Ok _ _ _ _ _ _ Hinit) as (lr_last & Hlast & Hload).
  assert (Hrecord : len_record self <> []).
  { intros Hempty. rewrite Hempty in Hlast. discriminate Hlast. }
  assert (Hproj : fusion_proj_first p <> None).
  { intros Hnone. unfold init in Hinit. rewrite Hnone in Hinit.
    discriminate Hinit. }
  assert (Hall : Forall (fun f => cav_list f <> []) folders).
  { apply Forall_forall. intros f Hin Hempty.
    rewrite load_scenarios_empty_folder in Hload; [discriminate Hload|].
    apply Exists_exists. exists f; split; assumption. }
  repeat split; try assumption.
  intros Hnone. subst folders. simpl in Hload.
  injection Hload as _ Hlr _. symmetry in Hlr. contradiction.
Qed.

Lemma init_returns_only_if_witness :
  init (Grid.config 1 0 "SpVoxelPreprocessor" 70 100) false false
       More.two_folders
  = Ok (More.two_scenarios, [])
  /\ More.two_folders <> []
  /\ 1 <= max_cav More.two_scenarios
  /\ len_record More.two_scenarios <> [].
Proof.
  assert (Hinit : init (Grid.config 1 0 "SpVoxelPreprocessor" 70 100)
                       false false More.two_folders
                  = Ok (More.two_scenarios, [])) by reflexivity.
  split; [exact Hinit|].
  destruct (init_returns_only_if _ _ _ _ _ _ Hinit)
    as (_ & Hfolders & _ & Hroom & Hrecord).
  split; [exact Hfolders | split; [exact Hroom | exact Hrecord]].
Defined.

(** X2.  After index construction [len_record] holds one entry per
    scenario folder: the running sum of the scenarios' sample counts, each
    the number of frames of the scenario's first agent less
    [tau + k - 1]. *)
Theorem len_record_running_sums `{Arrays} (p : params) (v kd : bool)
    (folders : list scenario_dir) (self : dataset) (out : list string) :
  init p v kd folders = Ok (self, out) ->
  len_record self
  = running_sums 0 (map (num_ego_timestamps (k self) (tau self)) folders)
  /\ List.length (len_record self) = List.length folders
  /\ List.length (scenario_database self) = List.length folders.
Proof.
  intros Hinit.
  pose proof (init_max_cav_positive _ _ _ _ _ _ Hinit) as Hroom.
  destruct (init_index_ok _ _ _ _ _ _ Hinit) as [_ Hlen].
  destruct (init_Ok _ _ _ _ _ _ Hinit) as (lr_last & _ & Hload).
  apply load_scenarios_len_record in Hload; [|exact Hroom]. simpl in Hload.
  assert (Hsums : forall acc l, List.length (running_sums acc l) = List.length l).
  { intros acc l; revert acc. induction l as [|x l IH]; intros acc; simpl;
      [reflexivity | f_equal; apply IH]. }
  split; [exact Hload|].
  assert (Hlr : List.length (len_record self) = List.length folders).
  { rewrite Hload, Hsums, length_map. reflexivity. }
  split; [exact Hlr | rewrite Hlen; exact Hlr].
Qed.

Lemma len_record_running_sums_witness :
  init (Grid.config 1 0 "SpVoxelPreprocessor" 70 100) false false
       More.two_folders
  = Ok (More.two_scenarios, [])
  /\ len_record More.two_scenarios = [4; 7].
Proof.
  assert (Hinit : init (Grid.config 1 0 "SpVoxelPreprocessor" 70 100)
                       false false More.two_folders
                  = Ok (More.two_scenarios, [])) by reflexivity.
  split; [exact Hinit|].
  exact (proj1 (len_record_running_sums _ _ _ _ _ _ Hinit)).
Defined.

(** ** What the scenario database holds *)

Lemma add_frames_fresh (cav_path : string) (timestamps : list string) :
  forall content,
    NoDup timestamps ->
    (forall t, In t timestamps -> ~ In t (od_keys content)) ->
    add_frames cav_path timestamps content
    = content
      ++ map (fun t =>
                (t, Frame (path_join cav_path (t ++ ".yaml")%string)
                          (path_join cav_path (t ++ ".pcd")%string)))
             timestamps.
Proof.
  unfold add_frames.
  induction timestamps as [|t timestamps IH]; simpl; intros content Hnd Hfresh.
  - rewrite app_nil_r; reflexivity.
  - inversion Hnd as [|? ? Hnot Hrest]; subst.
    rewrite od_set_fresh by (apply Hfresh; left; reflexivity).
    rewrite IH; [rewrite <- app_assoc; reflexivity | exact Hrest |].
    intros t' Hin Hkey. unfold od_keys in Hkey. rewrite map_app in Hkey.
    apply in_app_or in Hkey as [Hkey|[<-|[]]].
    + apply (Hfresh t'); [right; exact Hin | exact Hkey].
    + apply Hnot; exact Hin.
Qed.

Section DatabaseFacts.
Variables (k_ tau_ max_cav_ : Z).

Lemma load_cavs_content (folder : string) (cavs : list cav_dir) :
  forall j sc lr out sc' lr' out',
    0 <= j ->
    NoDup (od_keys sc ++ map cav_name cavs) ->
    Forall (fun c => NoDup (cav_timestamps c) /\ ~ In "ego" (cav_timestamps c))
           cavs ->
    load_cavs k_ tau_ max_cav_ folder j cavs sc lr out = (sc', lr', out') ->
    sc' = sc ++ agents_from folder j (firstn (Z.to_nat (max_cav_ - j)) cavs).
Proof.
  induction cavs as [|c cavs IH]; simpl;
    intros j sc lr out sc' lr' out' Hj Hnd Hts Hload.
  - injection Hload as <- _ _. rewrite firstn_nil, app_nil_r; reflexivity.
  - destruct (j >? max_cav_ - 1) eqn:Hroom.
    + injection Hload as <- _ _.
      replace (Z.to_nat (max_cav_ - j)) with O by lia.
      rewrite app_nil_r; reflexivity.
    + replace (Z.to_nat (max_cav_ - j))
        with (S (Z.to_nat (max_cav_ - (j + 1)))) by lia.
      simpl.
      inversion Hts as [|? ? [Hc_nd Hc_ego] Hrest]; subst.
      assert (Hfresh : ~ In (cav_name c) (od_keys sc)).
      { intros Hin. apply NoDup_remove_2 in Hnd. apply Hnd.
        apply in_or_app; left; exact Hin. }
      rewrite (od_set_fresh _ _ _ Hfresh) in Hload.
      rewrite add_frames_fresh in Hload; [|exact Hc_nd|].
      2:{ intros t Hin [Hkey|[]]. subst t. apply Hc_ego; exact Hin. }
      apply IH in Hload; [| lia | | exact Hrest].
      * rewrite Hload, <- app_assoc. reflexivity.
      * unfold od_keys in *. rewrite map_app; simpl.
        rewrite <- app_assoc; exact Hnd.
Qed.

Lemma load_scenarios_content (folders : list scenario_dir) :
  forall db lr out db' lr' out',
    Forall listing_ok folders ->
    load_scenarios k_ tau_ max_cav_ folders db lr out = Ok (db', lr', out') ->
    db' = db ++ map (scenario_content max_cav_) folders.
Proof.
  induction folders as [|f folders IH]; simpl;
    intros db lr out db' lr' out' Hok Hload.
  - injection Hload as <- _ _. rewrite app_nil_r; reflexivity.
  - inv_bind Hload.
    destruct (load_cavs k_ tau_ max_cav_ (scenario_path f) 0 (cav_list f) [] lr out)
      as [[sc lr1] out1] eqn:Hcavs.
    inversion Hok as [|? ? [Hnames Hts] Hrest]; subst.
    apply load_cavs_content in Hcavs; [| lia | exact Hnames | exact Hts].
    simpl in Hcavs. rewrite Z.sub_0_r in Hcavs.
    apply IH in Hload; [| exact Hrest].
    rewrite Hload, <- app_assoc. subst sc. reflexivity.
Qed.
End DatabaseFacts.

(** X3.  For a listing with distinct agent folders and distinct
    timestamps, the scenario database holds, per scenario folder and in
    their sorted order, the first [max_cav] agents; each agent's
    dictionary has the key 'ego' first, true for the first agent only,
    then one entry per timestamp in order with the paths
    folder/agent/timestamp.yaml and folder/agent/timestamp.pcd. *)
Theorem scenario_database_content `{Arrays} (p : params) (v kd : bool)
    (folders : list scenario_dir) (self : dataset) (out : list string) :
  Forall listing_ok folders ->
  init p v kd folders = Ok (self, out) ->
  scenario_database self = map (scenario_content (max_cav self)) folders.
Proof.
  intros Hok Hinit.
  destruct (init_Ok _ _ _ _ _ _ Hinit) as (lr_last & _ & Hload).
  apply load_scenarios_content in Hload; [exact Hload | exact Hok].
Qed.

Lemma scenario_database_content_witness :
  Forall listing_ok Scenes.crowded_folders
  /\ init Scenes.crowded_config false false Scenes.crowded_folders
     = Ok (Scenes.crowded, ["too many cavs"])
  /\ scenario_database Scenes.crowded
     = map (scenario_content 2) Scenes.crowded_folders.
Proof.
  assert (Hok : Forall listing_ok Scenes.crowded_folders).
  { repeat constructor; simpl; intuition discriminate. }
  assert (Hinit : init Scenes.crowded_config false false Scenes.crowded_folders
                  = Ok (Scenes.crowded, ["too many cavs"])) by reflexivity.
  split; [exact Hok | split; [exact Hinit|]].
  exact (scenario_database_content _ _ _ _ _ _ Hok Hinit).
Defined.

(** ** The positional lookup into an agent's dictionary *)

Lemma py_index_out_of_range {A : Type} (l : list A) (z : Z) :
  Z.of_nat (List.length l) <= z \/ z < - Z.of_nat (List.length l) ->
  py_index l z = Raise IndexError.
Proof.
  intros Hz. unfold py_index.
  destruct (Z.ltb_spec z 0).
  - destruct (Z.leb_spec 0 (z + Z.of_nat (List.length l))); [lia | reflexivity].
  - destruct (Z.leb_spec 0 z); [|lia].
    destruct (Z.ltb_spec z (Z.of_nat (List.length l))); [lia | reflexivity].
Qed.

Lemma py_index_negative {A : Type} (l : list A) (z : Z) (d : A) :
  - Z.of_nat (List.length l) <= z < 0 ->
  py_index l z = Ok (nth (Z.to_nat (z + Z.of_nat (List.length l))) l d).
Proof.
  intros Hz. unfold py_index.
  destruct (Z.ltb_spec z 0); [|lia].
  destruct (Z.leb_spec 0 (z + Z.of_nat (List.length l))); [|lia].
  destruct (Z.ltb_spec (z + Z.of_nat (List.length l)) (Z.of_nat (List.length l)));
    [|lia].
  simpl andb. cbv iota.
  destruct (nth_error l (Z.to_nat (z + Z.of_nat (List.length l)))) as [a|] eqn:Hnth.
  - f_equal. symmetry. apply nth_error_nth; exact Hnth.
  - apply nth_error_None in Hnth. lia.
Qed.

Section LookupFacts.
Variables (folder : string) (j : Z) (c : cav_dir).
Hypothesis no_ego_stamp : ~ In "ego" (cav_timestamps c).

Let content := agent_content folder j c.
Let stamps := cav_timestamps c.
Let frame_of := fun t : string =>
  (t, Frame (path_join (path_join folder (cav_name c)) (t ++ ".yaml")%string)
            (path_join (path_join folder (cav_name c)) (t ++ ".pcd")%string)).

Lemma agent_content_length :
  List.length content = S (List.length stamps).
Proof. unfold content, agent_content. simpl. rewrite length_map. reflexivity. Qed.

Lemma agent_content_nth (i : nat) :
  (i < List.length stamps)%nat ->
  fst (nth (S i) content ("", EgoFlag false)) = nth i stamps "".
Proof.
  intros Hi. unfold content, agent_content. simpl.
  rewrite (nth_indep _ _ (frame_of "")) by (rewrite length_map; exact Hi).
  unfold frame_of. rewrite (map_nth (fun t => _) stamps ""). reflexivity.
Qed.

Lemma agent_content_frame (t : string) :
  In t stamps ->
  od_get String.eqb t content
  = Some (Frame (path_join (path_join folder (cav_name c)) (t ++ ".yaml")%string)
                (path_join (path_join folder (cav_name c)) (t ++ ".pcd")%string)).
Proof.
  intros Hin. unfold content, agent_content. simpl.
  destruct (String.eqb_spec t "ego") as [->|_]; [contradiction|].
  fold stamps. induction stamps as [|t' ts IH]; [destruct Hin|]. simpl.
  destruct (String.eqb_spec t t') as [->|Hne]; [reflexivity|].
  destruct Hin as [->|Hin]; [contradiction | apply IH; exact Hin].
Qed.

(** X4.  In an agent's dictionary the 'ego' flag sits before the frames,
    so position [p] of [list(cav_content.items())] is frame [p - 1]:
    positions 1 to n give the n timestamps and their files, position 0
    gives the key 'ego', whose value has no 'yaml' entry ([TypeError]);
    a negative position counts from the last frame, and a position
    beyond n or below -(n + 1) raises [IndexError]. *)
Theorem positional_lookup_is_shifted (p : Z) :
  let n := Z.of_nat (List.length stamps) in
  (1 <= p <= n ->
   timestamp_key_at content p = Ok (nth (Z.to_nat (p - 1)) stamps "")
   /\ frame_field content (nth (Z.to_nat (p - 1)) stamps "") "yaml"
      = Ok (path_join (path_join folder (cav_name c))
                      (nth (Z.to_nat (p - 1)) stamps "" ++ ".yaml")%string)
   /\ frame_field content (nth (Z.to_nat (p - 1)) stamps "") "lidar"
      = Ok (path_join (path_join folder (cav_name c))
                      (nth (Z.to_nat (p - 1)) stamps "" ++ ".pcd")%string))
  /\ (timestamp_key_at content 0 = Ok "ego"
      /\ frame_field content "ego" "yaml" = Raise TypeError)
  /\ (- n <= p <= -1 ->
      timestamp_key_at content p = Ok (nth (Z.to_nat (p + n)) stamps ""))
  /\ (n < p \/ p < - (n + 1) ->
      timestamp_key_at content p = Raise IndexError).
Proof.
  intros n. pose proof agent_content_length as Hlen.
  split; [|split; [|split]].
  - intros Hp.
    assert (Hin : In (nth (Z.to_nat (p - 1)) stamps "") stamps)
      by (apply nth_In; lia).
    split; [|split].
    + unfold timestamp_key_at.
      rewrite (py_index_nth _ _ ("", EgoFlag false)) by lia.
      rewrite bind_ret.
      replace (Z.to_nat p) with (S (Z.to_nat (p - 1))) by lia.
      rewrite agent_content_nth by lia. reflexivity.
    + unfold frame_field. rewrite agent_content_frame by exact Hin. reflexivity.
    + unfold frame_field. rewrite agent_content_frame by exact Hin. reflexivity.
  - split; reflexivity.
  - intros Hp. unfold timestamp_key_at.
    rewrite (py_index_negative _ _ ("", EgoFlag false)) by lia.
    rewrite bind_ret.
    rewrite Hlen.
    replace (Z.to_nat (p + Z.of_nat (S (List.length stamps))))
      with (S (Z.to_nat (p + n))) by lia.
    rewrite agent_content_nth by lia. reflexivity.
  - intros Hp. unfold timestamp_key_at.
    rewrite py_index_out_of_range by lia. reflexivity.
Qed.
End LookupFacts.

Lemma positional_lookup_is_shifted_witness :
  ~ In "ego" ["000068"; "000070"; "000072"]
  /\ timestamp_key_at
       (agent_content "opv2v/train/s0" 0
          {| cav_name := "641";
             cav_timestamps := ["000068"; "000070"; "000072"] |})
       1
     = Ok "000068".
Proof.
  assert (Hego : ~ In "ego" ["000068"; "000070"; "000072"])
    by (simpl; intuition discriminate).
  split; [exact Hego|].
  exact (proj1 (proj1 (positional_lookup_is_shifted "opv2v/train/s0" 0
                         {| cav_name := "641";
                            cav_timestamps := ["000068"; "000070"; "000072"] |}
                         Hego 1)
                      ltac:(simpl; lia))).
Defined.

(** ** From a flat index to a scenario and an offset *)

Lemma scan_len_record_first (idx : Z) (lr : list Z) :
  forall j i,
    (exists ele, In ele lr /\ idx < ele) ->
    exists s,
      scan_len_record idx j lr i = (s, Some s)
      /\ j <= s < j + Z.of_nat (List.length lr)
      /\ idx < nth (Z.to_nat (s - j)) lr 0
      /\ forall m, (m < Z.to_nat (s - j))%nat -> nth m lr 0 <= idx.
Proof.
  induction lr as [|ele lr IH]; intros j i (x & Hin & Hlt); [destruct Hin|].
  simpl scan_len_record. destruct (Z.ltb_spec idx ele) as [Hhit|Hmiss].
  - exists j. replace (Z.to_nat (j - j)) with O by lia.
    repeat split; simpl; try lia.
  - destruct Hin as [->|Hin]; [lia|].
    destruct (IH (j + 1) (Some j)) as (s & Hs & Hrange & Hhit & Hbefore);
      [eauto|].
    exists s. split; [exact Hs|].
    replace (Z.to_nat (s - j)) with (S (Z.to_nat (s - (j + 1)))) by lia.
    repeat split; simpl List.length; try lia; [exact Hhit|].
    intros [|m] Hm; simpl; [lia | apply Hbefore; lia].
Qed.

Lemma scan_len_record_miss (idx : Z) (lr : list Z) :
  forall j i,
    Forall (fun ele => ele <= idx) lr ->
    scan_len_record idx j lr i
    = (0, match lr with
          | [] => i
          | _ => Some (j + Z.of_nat (List.length lr) - 1)
          end).
Proof.
  induction lr as [|ele lr IH]; intros j i Hall; [reflexivity|].
  inversion Hall as [|? ? Hele Hrest]; subst.
  simpl scan_len_record. destruct (Z.ltb_spec idx ele); [lia|].
  rewrite IH by exact Hrest.
  destruct lr as [|ele' lr]; simpl List.length; f_equal; f_equal; lia.
Qed.

Lemma running_sums_step (l : list Z) :
  forall acc s x,
    nth_error l s = Some x ->
    nth s (running_sums acc l) 0
    - match s with
      | O => acc
      | S s' => nth s' (running_sums acc l) 0
      end
    = x.
Proof.
  induction l as [|y l IH]; intros acc s x Hnth; [destruct s; discriminate|].
  destruct s as [|s]; simpl in Hnth.
  - injection Hnth as <-. simpl. lia.
  - specialize (IH (acc + y) s x Hnth). simpl.
    destruct s as [|s]; simpl in *; exact IH.
Qed.

(** X5.  A flat index valid under the cumulative-length table falls in
    the first scenario whose cumulative length exceeds it, and its offset
    there lies between 0 and that scenario's own sample count: the frames
    of the scenario's first agent less [tau + k - 1]. *)
Theorem flat_index_offset_in_scenario `{Arrays} (p : params) (v kd : bool)
    (folders : list scenario_dir) (self : dataset) (out : list string)
    (idx : Z) :
  init p v kd folders = Ok (self, out) ->
  0 <= idx < last (len_record self) 0 ->
  exists f,
    nth_error folders (Z.to_nat (scenario_of self idx)) = Some f
    /\ 0 <= scenario_of self idx
    /\ idx < nth (Z.to_nat (scenario_of self idx)) (len_record self) 0
    /\ (forall m, (m < Z.to_nat (scenario_of self idx))%nat ->
                  nth m (len_record self) 0 <= idx)
    /\ 0 <= intra_offset self idx
       < num_ego_timestamps (k self) (tau self) f.
Proof.
  intros Hinit Hidx.
  destruct (len_record_running_sums _ _ _ _ _ _ Hinit) as (Hsums & Hlen & _).
  assert (Hhit : exists ele, In ele (len_record self) /\ idx < ele).
  { exists (last (len_record self) 0); split; [|lia].
    destruct (len_record self) as [|x lr] eqn:Hlr; [simpl in Hidx; lia|].
    destruct (exists_last (l := x :: lr)) as (l' & a & Heq); [discriminate|].
    rewrite Heq, last_last. apply in_or_app; right; left; reflexivity. }
  destruct (scan_len_record_first idx (len_record self) 0 None Hhit)
    as (s & Hscan & Hs & Hlt & Hbefore).
  rewrite Z.sub_0_r in Hlt, Hbefore.
  assert (Hsc_of : scenario_of self idx = s).
  { unfold scenario_of. rewrite Hscan; reflexivity. }
  unfold intra_offset. rewrite Hsc_of.
  destruct (nth_error folders (Z.to_nat s)) as [f|] eqn:Hf.
  2:{ apply nth_error_None in Hf. lia. }
  exists f. split; [reflexivity|]. split; [lia|].
  split; [exact Hlt | split; [exact Hbefore|]].
  pose proof (running_sums_step
                (map (num_ego_timestamps (k self) (tau self)) folders)
                0 (Z.to_nat s) (num_ego_timestamps (k self) (tau self) f))
    as Hstep.
  rewrite nth_error_map, Hf in Hstep. specialize (Hstep eq_refl).
  rewrite <- Hsums in Hstep.
  destruct (Z.eqb_spec s 0) as [->|Hs0].
  - simpl in Hstep, Hlt. lia.
  - replace (Z.to_nat s) with (S (Z.to_nat (s - 1))) in Hstep, Hlt, Hbefore
      by lia.
    specialize (Hbefore (Z.to_nat (s - 1))). lia.
Qed.

Lemma flat_index_offset_in_scenario_witness :
  init (Grid.config 1 0 "SpVoxelPreprocessor" 70 100) false false
       More.two_folders
  = Ok (More.two_scenarios, [])
  /\ 0 <= 5 < last (len_record More.two_scenarios) 0
  /\ scenario_of More.two_scenarios 5 = 1
  /\ intra_offset More.two_scenarios 5 = 1
  /\ exists f,
       nth_error More.two_folders 1 = Some f
       /\ 0 <= 1 < num_ego_timestamps 1 0 f.
Proof.
  assert (Hinit : init (Grid.config 1 0 "SpVoxelPreprocessor" 70 100)
                       false false More.two_folders
                  = Ok (More.two_scenarios, [])) by reflexivity.
  assert (Hidx : 0 <= 5 < last (len_record More.two_scenarios) 0)
    by (change (0 <= 5 < 7); lia).
  split; [exact Hinit | split; [exact Hidx|]].
  split; [reflexivity | split; [reflexivity|]].
  destruct (flat_index_offset_in_scenario _ _ _ _ _ _ _ Hinit Hidx)
    as (f & Hf & _ & _ & _ & Hoff).
  exists f. split; [exact Hf | exact Hoff].
Defined.

(** X6.  An index at or past every cumulative length is not refused: the
    scan leaves [scenario_index] at 0 and the loop variable at the last
    scenario's number, so the index is resolved in the first scenario, every
    current-frame position moved up by the number of scenarios less one. *)
Theorem index_past_the_end_resolves_in_first_scenario `{Arrays} (p : params)
    (v kd : bool) (folders : list scenario_dir) (self : dataset)
    (out : list string) (idx : Z) :
  init p v kd folders = Ok (self, out) ->
  Forall (fun ele => ele <= idx) (len_record self) ->
  scenario_of self idx = 0
  /\ exists sc,
       nth_error (scenario_database self) 0 = Some sc
       /\ resolve self idx
          = Ok (positions_from self idx sc
                  (Z.of_nat (List.length (len_record self)) - 1)).
Proof.
  intros Hinit Hpast.
  destruct (init_index_ok _ _ _ _ _ _ Hinit) as [Hok Hlen].
  destruct (init_Ok _ _ _ _ _ _ Hinit) as (lr_last & Hlast & _).
  pose proof (scan_len_record_miss idx (len_record self) 0 None Hpast) as Hscan.
  destruct (len_record self) as [|x lr] eqn:Hlr; [discriminate Hlast|].
  split; [unfold scenario_of; rewrite Hlr, Hscan; reflexivity|].
  destruct (scenario_database self) as [|sc db] eqn:Hdb; [discriminate Hlen|].
  exists sc. split; [reflexivity|].
  unfold resolve, retrieve_frames. rewrite Hlr, Hscan, Hdb.
  change (Z.to_nat 0) with O. cbn [nth_error]. rewrite bind_ret.
  inversion Hok as [|? ? [Hnd Hego] _]; subst.
  rewrite (cav_loop_positions self idx 0 idx);
    [reflexivity | | exact Hego | simpl; exact Hnd].
  intros i. reflexivity.
Qed.

Lemma index_past_the_end_resolves_in_first_scenario_witness :
  init (Grid.config 1 0 "SpVoxelPreprocessor" 70 100) false false
       More.two_folders
  = Ok (More.two_scenarios, [])
  /\ Forall (fun ele => ele <= 7) (len_record More.two_scenarios)
  /\ resolve More.two_scenarios 7
     = Ok [("641", {| cf_ego := EgoFlag true;
                      cf_past_k := [(0, 7)]; cf_curr := 8 |});
           ("650", {| cf_ego := EgoFlag false;
                      cf_past_k := [(0, 7)]; cf_curr := 7 |})].
Proof.
  assert (Hinit : init (Grid.config 1 0 "SpVoxelPreprocessor" 70 100)
                       false false More.two_folders
                  = Ok (More.two_scenarios, [])) by reflexivity.
  assert (Hpast : Forall (fun ele => ele <= 7) (len_record More.two_scenarios)).
  { change (Forall (fun ele => ele <= 7) [4; 7]). repeat constructor; lia. }
  split; [exact Hinit | split; [exact Hpast|]].
  destruct (proj2 (index_past_the_end_resolves_in_first_scenario
                     _ _ _ _ _ _ 7 Hinit Hpast))
    as (sc & Hsc & Hres).
  injection Hsc as <-. exact Hres.
Defined.

(** X7.  With [tau + k = 1] (one sweep, no delay) the first sample cannot
    be loaded: the ego's current-frame position is 0, the positional
    lookup returns the key 'ego', and reading ['yaml'] of the flag raises
    [TypeError], whatever the files hold. *)
Theorem first_sample_reads_ego_flag `{Collaborators} (p : params) (v kd : bool)
    (folders : list scenario_dir) (self : dataset) (out : list string)
    (f : scenario_dir) (c : cav_dir) :
  Forall listing_ok folders ->
  init p v kd folders = Ok (self, out) ->
  tau self + k self = 1 ->
  hd_error folders = Some f ->
  hd_error (cav_list f) = Some c ->
  cav_timestamps c <> [] ->
  retrieve_base_data self 0 = Raise TypeError.
Proof.
  intros Hok Hinit Htk Hf Hc Hts.
  pose proof (init_max_cav_positive _ _ _ _ _ _ Hinit) as Hroom.
  pose proof (scenario_database_content _ _ _ _ _ _ Hok Hinit) as Hdb.
  destruct (len_record_running_sums _ _ _ _ _ _ Hinit) as (Hlr & _ & _).
  destruct folders as [|f' folders]; [discriminate|]. injection Hf as ->.
  destruct (cav_list f) as [|c' cavs] eqn:Hcavs; [discriminate|].
  injection Hc as ->.
  assert (Hnum : num_ego_timestamps (k self) (tau self) f
                 = Z.of_nat (List.length (cav_timestamps c))).
  { unfold num_ego_timestamps. rewrite Hcavs. lia. }
  assert (Hpos : 0 < Z.of_nat (List.length (cav_timestamps c))).
  { destruct (cav_timestamps c); [contradiction|].
    cbn [List.length]. rewrite Nat2Z.inj_succ. lia. }
  unfold retrieve_base_data, retrieve_frames.
  rewrite Hlr, Hdb. simpl map. simpl running_sums. rewrite Hnum.
  simpl scan_len_record.
  destruct (Z.ltb_spec 0 (Z.of_nat (List.length (cav_timestamps c))));
    [|lia].
  change (Z.to_nat 0) with O. cbn [nth_error]. rewrite bind_ret.
  unfold scenario_content. rewrite Hcavs.
  replace (Z.to_nat (max_cav self)) with (S (Z.to_nat (max_cav self - 1)))
    by lia.
  cbn [firstn agents_from cav_loop].
  assert (Hbody : cav_body self load_frame
                    (agent_content (scenario_path f) 0 c) 0 0 (Some 0)
                  = Raise TypeError).
  { assert (Hcurr : curr_timestamp_index self 0 0 0 = Ok 0).
    { unfold curr_timestamp_index, timestamp_base. simpl. f_equal. lia. }
    unfold cav_body.
    change (od_get String.eqb "ego" (agent_content (scenario_path f) 0 c))
      with (Some (EgoFlag true)).
    cbv iota. rewrite bind_ret.
    change (read_local (Some 0)) with (Ok 0). rewrite bind_ret.
    rewrite Hcurr, bind_ret. reflexivity. }
  rewrite Hbody. reflexivity.
Qed.

Lemma first_sample_reads_ego_flag_witness :
  Forall listing_ok Scenes.single_folders
  /\ init (Grid.config 1 0 "SpVoxelPreprocessor" 70 100) false false
          Scenes.single_folders
     = Ok (Scenes.single, [])
  /\ tau Scenes.single + k Scenes.single = 1
  /\ retrieve_base_data (H0 := Grid.disk Scenes.single_folders) Scenes.single 0
     = Raise TypeError.
Proof.
  assert (Hok : Forall listing_ok Scenes.single_folders).
  { repeat constructor; simpl; intuition discriminate. }
  assert (Hinit : init (Grid.config 1 0 "SpVoxelPreprocessor" 70 100)
                       false false Scenes.single_folders
                  = Ok (Scenes.single, [])) by reflexivity.
  assert (Htk : tau Scenes.single + k Scenes.single = 1) by reflexivity.
  split; [exact Hok | split; [exact Hinit | split; [exact Htk|]]].
  refine (first_sample_reads_ego_flag (H0 := Grid.disk Scenes.single_folders)
            _ _ _ _ _ _ _ _ Hok Hinit Htk eq_refl eq_refl _).
  discriminate.
Defined.

(** ** Merging feature dictionaries *)

Section MergeFeatureFacts.
Context `{Arrays}.

Lemma od_get_stored (name : string) (m : list (string * list feature)) :
  od_get String.eqb name m
  = if present name m then Some (stored name m) else None.
Proof. unfold present, stored. destruct (od_get String.eqb name m); reflexivity. Qed.

Lemma merge_feature_get (name : string) (m : list (string * list feature))
    (item : string * fval) :
  od_get String.eqb name (merge_feature m item)
  = if String.eqb name (fst item)
    then Some (stored name m ++ feature_arrays (snd item))
    else od_get String.eqb name m.
Proof.
  unfold merge_feature, stored, feature_arrays.
  destruct (String.eqb_spec name (fst item)) as [->|Hne].
  - rewrite od_get_od_set_same. reflexivity.
  - apply od_get_od_set_other; exact Hne.
Qed.

Lemma merge_feature_stored (name : string) (m : list (string * list feature))
    (item : string * fval) :
  stored name (merge_feature m item)
  = stored name m
    ++ (if String.eqb name (fst item) then feature_arrays (snd item) else []).
Proof.
  unfold stored at 1. rewrite merge_feature_get.
  destruct (String.eqb name (fst item)); [reflexivity|].
  rewrite app_nil_r. reflexivity.
Qed.

Lemma merge_feature_present (name : string) (m : list (string * list feature))
    (item : string * fval) :
  present name (merge_feature m item)
  = String.eqb name (fst item) || present name m.
Proof.
  unfold present at 1. rewrite merge_feature_get.
  destruct (String.eqb name (fst item)); reflexivity.
Qed.

Lemma merge_dict_stored (name : string) (d : list (string * fval)) :
  forall m,
    stored name (fold_left merge_feature d m)
    = stored name m ++ contribution name d
    /\ present name (fold_left merge_feature d m)
       = has_feature name d || present name m.
Proof.
  induction d as [|item d IH]; intros m.
  - simpl. unfold contribution; simpl. rewrite app_nil_r. auto.
  - simpl fold_left. destruct (IH (merge_feature m item)) as [-> ->].
    rewrite merge_feature_stored, merge_feature_present.
    unfold contribution, has_feature. simpl.
    rewrite <- app_assoc. split; [reflexivity|].
    destruct (String.eqb name (fst item)); simpl;
      rewrite ?orb_true_r; reflexivity.
Qed.

Lemma merge_dicts_stored (name : string) (l : list (list (string * fval))) :
  forall m,
    stored name
      (fold_left (fun merged d => fold_left merge_feature d merged) l m)
    = stored name m ++ List.concat (map (contribution name) l)
    /\ present name
         (fold_left (fun merged d => fold_left merge_feature d merged) l m)
       = existsb (has_feature name) l || present name m.
Proof.
  induction l as [|d l IH]; intros m.
  - simpl. rewrite app_nil_r. auto.
  - simpl fold_left. destruct (IH (fold_left merge_feature d m)) as [-> ->].
    destruct (merge_dict_stored name d m) as [-> ->].
    simpl. rewrite <- app_assoc. split; [reflexivity|].
    destruct (has_feature name d); simpl; rewrite ?orb_true_r; reflexivity.
Qed.

Lemma merge_feature_NoDup (m : list (string * list feature)) (item : string * fval) :
  NoDup (od_keys m) -> NoDup (od_keys (merge_feature m item)).
Proof. intros Hnd. unfold merge_feature. apply od_set_NoDup; exact Hnd. Qed.

Lemma merge_dicts_NoDup (l : list (list (string * fval))) :
  forall m,
    NoDup (od_keys m) ->
    NoDup (od_keys (fold_left (fun merged d => fold_left merge_feature d merged)
                              l m)).
Proof.
  induction l as [|d l IH]; intros m Hnd; simpl; [exact Hnd|].
  apply IH. revert m Hnd.
  induction d as [|item d IHd]; intros m Hnd; simpl; [exact Hnd|].
  apply IHd. apply merge_feature_NoDup; exact Hnd.
Qed.

Lemma merged_dictionary_get (l : list (list (string * fval)))
    (name : string) :
  od_get String.eqb name (merge_features_to_dict l)
  = (if existsb (has_feature name) l
     then Some (List.concat (map (contribution name) l))
     else None).
Proof.
  unfold merge_features_to_dict.
  rewrite od_get_stored.
  destruct (merge_dicts_stored name l []) as [-> ->].
  unfold present, stored. simpl. rewrite orb_false_r. reflexivity.
Qed.

Lemma merged_dictionary_NoDup (l : list (list (string * fval))) :
  NoDup (od_keys (merge_features_to_dict l)).
Proof.
  unfold merge_features_to_dict. apply merge_dicts_NoDup. constructor.
Qed.

(** X8.  The merged feature dictionary has each feature name once, and
    under a name the arrays of all agents in agent order: a list value is
    spliced in, an array value appended; a name no agent has is absent. *)
Theorem merge_features_to_dict_holds (l : list (list (string * fval)))
    (name : string) :
  od_get String.eqb name (merge_features_to_dict l)
  = (if existsb (has_feature name) l
     then Some (List.concat (map (contribution name) l))
     else None)
  /\ NoDup (od_keys (merge_features_to_dict l)).
Proof.
  split.
  - apply merged_dictionary_get.
  - apply merged_dictionary_NoDup.
Qed.
End MergeFeatureFacts.

(** ** Merging the merged dictionaries of a batch *)

Lemma od_set_keys {V : Type} (key : string) (v : V) (d : list (string * V)) :
  od_keys (od_set String.eqb key v d) = add_key (od_keys d) key.
Proof.
  unfold add_key. induction d as [|[k0 v0] d IH]; simpl; [reflexivity|].
  destruct (String.eqb_spec key k0) as [->|Hne]; simpl; [reflexivity|].
  rewrite IH. destruct (existsb (String.eqb key) (od_keys d)); reflexivity.
Qed.

Lemma add_keys_mem (key : string) (keys : list string) :
  forall acc,
    existsb (String.eqb key) (fold_left add_key keys acc)
    = existsb (String.eqb key) acc || existsb (String.eqb key) keys.
Proof.
  induction keys as [|k0 keys IH]; intros acc; simpl.
  - rewrite orb_false_r. reflexivity.
  - rewrite IH. unfold add_key.
    destruct (existsb (String.eqb k0) acc) eqn:Hin.
    + destruct (String.eqb_spec key k0) as [->|Hne]; simpl.
      * rewrite Hin. reflexivity.
      * reflexivity.
    + rewrite existsb_app. simpl. rewrite orb_false_r, orb_assoc. reflexivity.
Qed.

Lemma add_keys_twice (keys : list string) :
  forall acc,
    fold_left add_key (fold_left add_key keys []) acc
    = fold_left add_key keys acc.
Proof.
  induction keys as [|k0 keys IH] using rev_ind; intros acc; [reflexivity|].
  rewrite !fold_left_app. simpl. unfold add_key at 2.
  destruct (existsb (String.eqb k0) (fold_left add_key keys [])) eqn:Hin.
  - rewrite IH. unfold add_key.
    rewrite add_keys_mem in Hin. simpl in Hin.
    rewrite add_keys_mem, Hin, orb_true_r. reflexivity.
  - rewrite fold_left_app. simpl. rewrite IH. reflexivity.
Qed.

Lemma add_keys_of_groups (groups : list (list string)) :
  forall acc,
    fold_left add_key
      (List.concat (map (fun keys => fold_left add_key keys []) groups)) acc
    = fold_left add_key (List.concat groups) acc.
Proof.
  induction groups as [|keys groups IH]; intros acc; [reflexivity|].
  simpl. rewrite !fold_left_app, add_keys_twice. apply IH.
Qed.

Lemma od_ext {V : Type} (m1 : list (string * V)) :
  forall m2,
    NoDup (od_keys m1) ->
    od_keys m1 = od_keys m2 ->
    (forall name, od_get String.eqb name m1 = od_get String.eqb name m2) ->
    m1 = m2.
Proof.
  induction m1 as [|[k1 v1] m1 IH]; intros [|[k2 v2] m2] Hnd Hkeys Hget;
    try discriminate; [reflexivity|].
  simpl in Hkeys. injection Hkeys as <- Hkeys.
  inversion Hnd as [|? ? Hnot Hrest]; subst.
  pose proof (Hget k1) as Hk. simpl in Hk. rewrite String.eqb_refl in Hk.
  injection Hk as <-.
  f_equal. apply IH; [exact Hrest | exact Hkeys|].
  intros name. specialize (Hget name). simpl in Hget.
  destruct (String.eqb_spec name k1) as [Heq|Hne]; [|exact Hget].
  clear Hget. rewrite Heq.
  assert (Hnone : forall m : list (string * V),
             ~ In k1 (od_keys m) -> od_get String.eqb k1 m = None).
  { intros m. induction m as [|[k0 v0] m IHm]; simpl; intros Hm; [reflexivity|].
    destruct (String.eqb_spec k1 k0) as [->|_];
      [exfalso; apply Hm; left; reflexivity|].
    apply IHm. intros Hin; apply Hm; right; exact Hin. }
  rewrite (Hnone m1 Hnot). rewrite Hkeys in Hnot. rewrite (Hnone m2 Hnot).
  reflexivity.
Qed.

Section MergeTwiceFacts.
Context `{Arrays}.

Lemma merge_dict_keys (d : list (string * fval)) :
  forall m,
    od_keys (fold_left merge_feature d m)
    = fold_left add_key (map fst d) (od_keys m).
Proof.
  induction d as [|item d IH]; intros m; simpl; [reflexivity|].
  rewrite IH. unfold merge_feature at 1. rewrite od_set_keys. reflexivity.
Qed.

Lemma merge_dicts_keys (l : list (list (string * fval))) :
  forall m,
    od_keys (fold_left (fun merged d => fold_left merge_feature d merged) l m)
    = fold_left add_key (List.concat (map (map fst) l)) (od_keys m).
Proof.
  induction l as [|d l IH]; intros m; simpl; [reflexivity|].
  rewrite IH, merge_dict_keys, fold_left_app. reflexivity.
Qed.

Lemma contribution_absent (name : string) (m : list (string * list feature)) :
  ~ In name (od_keys m) -> contribution name (as_fvals m) = [].
Proof.
  unfold contribution, as_fvals.
  induction m as [|[k0 l0] m IH]; simpl; intros Hnot; [reflexivity|].
  destruct (String.eqb_spec name k0) as [->|_];
    [exfalso; apply Hnot; left; reflexivity|].
  simpl. apply IH. intros Hin; apply Hnot; right; exact Hin.
Qed.

Lemma contribution_as_fvals (name : string) (m : list (string * list feature)) :
  NoDup (od_keys m) ->
  contribution name (as_fvals m) = stored name m
  /\ has_feature name (as_fvals m) = present name m.
Proof.
  unfold stored, present.
  induction m as [|[k0 l0] m IH]; simpl; intros Hnd; [split; reflexivity|].
  inversion Hnd as [|? ? Hnot Hrest]; subst.
  unfold contribution, has_feature. simpl.
  fold (as_fvals m) (contribution name (as_fvals m))
       (has_feature name (as_fvals m)).
  destruct (String.eqb_spec name k0) as [->|Hne]; simpl.
  - rewrite (contribution_absent k0 m Hnot), app_nil_r. split; reflexivity.
  - apply IH; exact Hrest.
Qed.

Lemma existsb_concat {A : Type} (f : A -> bool) (ls : list (list A)) :
  existsb f (List.concat ls) = existsb (existsb f) ls.
Proof.
  induction ls as [|l ls IH]; simpl; [reflexivity|].
  rewrite existsb_app, IH. reflexivity.
Qed.

Lemma concat_map_concat {A B : Type} (f : A -> list B) (ls : list (list A)) :
  List.concat (map f (List.concat ls))
  = List.concat (map (fun l => List.concat (map f l)) ls).
Proof.
  induction ls as [|l ls IH]; simpl; [reflexivity|].
  rewrite map_app, concat_app, IH. reflexivity.
Qed.

(** X9.  Collation merges the already merged dictionaries of its samples;
    the outcome is the dictionary that merging the dictionaries of all
    agents of the batch at once gives: same feature names in the same
    order, the same arrays under each. *)
Theorem merge_of_merged_samples (ls : list (list (list (string * fval)))) :
  merge_features_to_dict (map as_fvals (map merge_features_to_dict ls))
  = merge_features_to_dict (List.concat ls).
Proof.
  apply od_ext.
  - apply merged_dictionary_NoDup.
  - unfold merge_features_to_dict. rewrite !merge_dicts_keys. simpl od_keys.
    assert (Hgroups :
              map (map fst)
                  (map as_fvals
                       (map (fun l =>
                               fold_left
                                 (fun merged d => fold_left merge_feature d merged)
                                 l [])
                            ls))
              = map (fun keys => fold_left add_key keys [])
                    (map (fun l => List.concat (map (map fst) l)) ls)).
    { rewrite !map_map. apply map_ext. intros l.
      unfold as_fvals. rewrite map_map. simpl.
      change (map (fun x : string * list feature => fst x)
                  (fold_left (fun merged d => fold_left merge_feature d merged)
                             l []))
        with (od_keys (fold_left
                         (fun merged d => fold_left merge_feature d merged)
                         l [])).
      rewrite merge_dicts_keys. reflexivity. }
    rewrite Hgroups, add_keys_of_groups, concat_map_concat. reflexivity.
  - intros name.
    rewrite (merged_dictionary_get _ name).
    rewrite (merged_dictionary_get _ name).
    rewrite existsb_concat, concat_map_concat, !map_map.
    assert (Hsample : forall l,
               contribution name (as_fvals (merge_features_to_dict l))
               = List.concat (map (contribution name) l)
               /\ has_feature name (as_fvals (merge_features_to_dict l))
                  = existsb (has_feature name) l).
    { intros l.
      destruct (contribution_as_fvals name (merge_features_to_dict l))
        as [-> ->]; [apply merged_dictionary_NoDup|].
      unfold merge_features_to_dict.
      destruct (merge_dicts_stored name l []) as [-> ->].
      unfold present, stored. simpl. rewrite orb_false_r. auto. }
    replace (existsb (has_feature name)
               (map (fun x => as_fvals (merge_features_to_dict x)) ls))
      with (existsb (existsb (has_feature name)) ls).
    2:{ induction ls as [|l ls IH]; simpl; [reflexivity|].
        rewrite (proj2 (Hsample l)), IH. reflexivity. }
    replace (map (fun x => contribution name (as_fvals (merge_features_to_dict x)))
                 ls)
      with (map (fun l => List.concat (map (contribution name) l)) ls).
    2:{ apply map_ext. intros l. symmetry. apply Hsample. }
    reflexivity.
Qed.
End MergeTwiceFacts.

(** ** The bookkeeping of a collated batch *)

Lemma sum_Z_lengths {A : Type} (rows : list (list A)) :
  sum_Z (map (fun r => Z.of_nat (List.length r)) rows)
  = Z.of_nat (List.length (List.concat rows)).
Proof.
  unfold sum_Z. induction rows as [|r rows IH]; [reflexivity|].
  cbn [map fold_right List.concat].
  rewrite length_app, Nat2Z.inj_add, IH. reflexivity.
Qed.

(** X10.  A batch that collates is not empty; its [record_len] lists the
    samples' agent counts in order, its poses are the samples' pose rows
    one after the other, its boxes, masks and pairwise tensors are stacked
    per sample, its features are the pre-processor's collation of the
    merged feature dictionaries, and [object_ids] are those of the first
    sample alone.  When every sample counts one agent per pose row,
    [sum(record_len)] is the number of pose rows of the batch. *)
Theorem collate_output_bookkeeping `{Collaborators} (self : dataset)
    (batch_ : list sample) (output_dict : batch) :
  collate_output self batch_ = Ok output_dict ->
  (exists first rest,
     batch_ = first :: rest
     /\ b_object_ids output_dict = s_object_ids first)
  /\ b_record_len output_dict = map s_cav_num batch_
  /\ b_lidar_pose output_dict = List.concat (map s_lidar_poses batch_)
  /\ b_lidar_pose_clean output_dict
     = List.concat (map s_lidar_poses_clean batch_)
  /\ b_object_bbx_center output_dict = map s_object_bbx_center batch_
  /\ b_object_bbx_mask output_dict = map s_object_bbx_mask batch_
  /\ b_pairwise_t_matrix output_dict = map s_pairwise_t_matrix batch_
  /\ pre_collate_batch
       (merge_features_to_dict (map as_fvals (map s_processed_lidar batch_)))
     = Ok (b_processed_lidar output_dict)
  /\ (Forall (fun s => s_cav_num s = Z.of_nat (List.length (s_lidar_poses s)))
             batch_ ->
      sum_Z (b_record_len output_dict)
      = Z.of_nat (List.length (b_lidar_pose output_dict))).
Proof.
  unfold collate_output. intros Hout.
  inv_bind Hout. inv_bind Hout. inv_bind Hout. inv_bind Hout.
  inv_bind Hout. inv_bind Hout. inv_bind Hout.
  injection Hout as <-.
  cbn [b_object_ids b_record_len b_lidar_pose b_lidar_pose_clean
       b_object_bbx_center b_object_bbx_mask b_pairwise_t_matrix
       b_processed_lidar].
  assert (Hposes : a2 = List.concat (map s_lidar_poses batch_)).
  { unfold np_concatenate in Ha2.
    destruct (map s_lidar_poses batch_); [discriminate|].
    injection Ha2 as <-. reflexivity. }
  assert (Hclean : a3 = List.concat (map s_lidar_poses_clean batch_)).
  { unfold np_concatenate in Ha3.
    destruct (map s_lidar_poses_clean batch_); [discriminate|].
    injection Ha3 as <-. reflexivity. }
  assert (Hfirst : exists first rest,
             batch_ = first :: rest /\ a4 = s_object_ids first).
  { destruct batch_ as [|first rest]; [discriminate Ha2|].
    exists first, rest. split; [reflexivity|].
    unfold py_index in Ha4. simpl in Ha4. injection Ha4 as <-. reflexivity. }
  subst a2 a3.
  split; [exact Hfirst|].
  repeat split; try reflexivity; try exact Ha1.
  intros Hcount.
  rewrite <- sum_Z_lengths, map_map. f_equal.
  apply map_ext_in. intros s Hs.
  rewrite Forall_forall in Hcount. apply Hcount; exact Hs.
Qed.

Lemma collate_output_bookkeeping_witness :
  collate_output (H0 := Grid.collaborators [] []) Scenes.short_range
    [Scenes.short_sample]
  = Ok Scenes.short_output
  /\ Forall (fun s => s_cav_num s = Z.of_nat (List.length (s_lidar_poses s)))
            [Scenes.short_sample]
  /\ sum_Z (b_record_len Scenes.short_output)
     = Z.of_nat (List.length (b_lidar_pose Scenes.short_output)).
Proof.
  assert (Hout : collate_output (H0 := Grid.collaborators [] [])
                   Scenes.short_range [Scenes.short_sample]
                 = Ok Scenes.short_output) by reflexivity.
  assert (Hcount : Forall (fun s => s_cav_num s
                                    = Z.of_nat (List.length (s_lidar_poses s)))
                          [Scenes.short_sample])
    by (repeat constructor).
  split; [exact Hout | split; [exact Hcount|]].
  apply (collate_output_bookkeeping (H0 := Grid.collaborators [] [])
           Scenes.short_range [Scenes.short_sample] Scenes.short_output Hout).
  exact Hcount.
Defined.

(** ** The pairwise tensor at its limits *)

Lemma foldM_app {A S : Type} (f : S -> A -> res S) (l1 l2 : list A) (s : S) :
  foldM f (l1 ++ l2) s = (s1 <- foldM f l1 s ;; foldM f l2 s1).
Proof.
  revert s. induction l1 as [|a l1 IH]; intros s; simpl; [reflexivity|].
  destruct (f s a); simpl; [apply IH | reflexivity].
Qed.

Lemma set_nth_beyond {A : Type} (l : list A) (x : A) :
  forall n, (List.length l <= n)%nat -> set_nth l n x = Raise IndexError.
Proof.
  induction l as [|y l IH]; intros n Hn; [destruct n; reflexivity|].
  destruct n as [|n]; simpl in *; [lia|].
  rewrite IH by lia. reflexivity.
Qed.

Lemma set_entry_beyond {A : Type} (L : nat) (t : list (list A)) (i j : nat)
    (x : A) :
  square L t -> (L <= j)%nat -> set_entry t i j x = Raise IndexError.
Proof.
  intros [Hlen Hrows] Hj. unfold set_entry.
  destruct (nth_error t i) as [row|] eqn:Hrow; [|reflexivity].
  rewrite set_nth_beyond; [reflexivity|].
  rewrite Forall_forall in Hrows.
  rewrite (Hrows row (nth_error_In _ _ Hrow)). exact Hj.
Qed.

Section PairwiseLimits.
Context `{Arrays}.
Variable t_list : list matrix.
Variable L : nat.

Lemma pairwise_row_within (i : nat) (js : list nat) :
  (i < List.length t_list)%nat ->
  Forall (fun j => j = i
                   \/ (j < L /\ i < L /\ j < List.length t_list)%nat) js ->
  forall t,
    square L t ->
    exists t', foldM (pairwise_step t_list i) js t = Ok t' /\ square L t'.
Proof.
  intros Hi. induction 1 as [|j js Hj _ IH]; intros t Hsq; simpl; [eauto|].
  unfold pairwise_step at 1.
  destruct (Nat.eqb_spec i j) as [<-|Hne]; [simpl bind; apply IH; exact Hsq|].
  destruct Hj as [->|(HjL & HiL & HjN)]; [contradiction|].
  destruct (nth_error t_list j) as [tj|] eqn:Htj.
  2:{ apply nth_error_None in Htj. lia. }
  destruct (nth_error t_list i) as [ti|] eqn:Hti.
  2:{ apply nth_error_None in Hti. lia. }
  destruct (set_entry_Ok L t i j (solve tj ti) Hsq HiL HjL) as (t1 & -> & Hsq1 & _).
  simpl bind. apply IH; exact Hsq1.
Qed.

Lemma pairwise_fill_overflow (t : list (list matrix)) :
  square L t ->
  (L < List.length t_list)%nat ->
  (2 <= List.length t_list)%nat ->
  pairwise_fill t_list t = Raise IndexError.
Proof.
  intros Hsq Hover Htwo. unfold pairwise_fill. cbv zeta.
  set (N := List.length t_list) in *.
  set (jf := Nat.max L 1).
  assert (Hjf : (jf < N)%nat) by (unfold jf; lia).
  assert (Hseq : seq 0 N = 0%nat :: seq 1 (N - 1)).
  { destruct N as [|N]; [lia|]. simpl. rewrite Nat.sub_0_r. reflexivity. }
  set (inner := fun t i => foldM (pairwise_step t_list i) (seq 0 N) t).
  rewrite Hseq. cbn [foldM]. unfold inner at 1.
  assert (Hsplit : seq 0 N = seq 0 jf ++ jf :: seq (S jf) (N - S jf)).
  { pose proof (seq_app jf (S (N - S jf)) 0) as Happ.
    replace (jf + S (N - S jf))%nat with N in Happ by lia.
    exact Happ. }
  rewrite Hsplit, foldM_app.
  destruct (pairwise_row_within 0 (seq 0 jf)) with (t := t)
    as (t' & -> & Hsq'); [lia | | exact Hsq |].
  { apply Forall_forall. intros j Hj. apply in_seq in Hj.
    destruct j as [|j]; [left; reflexivity|]. right. unfold jf in *. lia. }
  simpl bind. unfold pairwise_step at 1.
  replace (Nat.eqb 0 jf) with false
    by (symmetry; apply Nat.eqb_neq; unfold jf; lia).
  destruct (nth_error t_list jf) as [tj|] eqn:Htj.
  2:{ apply nth_error_None in Htj. fold N in Htj. lia. }
  destruct (nth_error t_list 0) as [ti|] eqn:Hti.
  2:{ apply nth_error_None in Hti. fold N in Hti. lia. }
  rewrite (set_entry_beyond L t' 0 jf _ Hsq') by (unfold jf; lia).
  reflexivity.
Qed.
End PairwiseLimits.

(** X11.  Without [proj_first], handing [get_pairwise_transformation] more
    agents than [max_cav] (two agents or more) raises [IndexError]: the
    first row is filled up to column [max_cav] and the assignment there is
    out of bounds; the tensor is not enlarged and no agent is left out. *)
Theorem get_pairwise_transformation_overflow `{Collaborators} (self : dataset)
    (base_data_dict : list (string * pyval)) (max_cav_ : Z)
    (t_list : list matrix) :
  proj_first self = false ->
  0 <= max_cav_ ->
  world_matrices base_data_dict = Ok t_list ->
  (Z.to_nat max_cav_ < List.length base_data_dict)%nat ->
  (2 <= List.length base_data_dict)%nat ->
  get_pairwise_transformation self base_data_dict max_cav_ = Raise IndexError.
Proof.
  intros Hproj Hmax Hworld Hover Htwo.
  unfold get_pairwise_transformation, tile_eye.
  replace (max_cav_ <? 0) with false by lia. simpl bind.
  rewrite Hproj, Hworld. simpl bind.
  pose proof (mapM_length _ _ _ Hworld) as Hlen.
  apply (pairwise_fill_overflow t_list (Z.to_nat max_cav_)).
  - apply tile_eye_square.
  - rewrite Hlen; exact Hover.
  - rewrite Hlen; exact Htwo.
Qed.

Lemma get_pairwise_transformation_overflow_witness :
  proj_first Scenes.delayed = false
  /\ world_matrices (H0 := Grid.collaborators [] []) Scenes.two_agents
     = Ok [(0, 0, 0); (10, 0, 0)]
  /\ get_pairwise_transformation (H0 := Grid.collaborators [] [])
       Scenes.delayed Scenes.two_agents 1
     = Raise IndexError.
Proof.
  assert (Hproj : proj_first Scenes.delayed = false) by reflexivity.
  assert (Hworld : world_matrices (H0 := Grid.collaborators [] [])
                     Scenes.two_agents
                   = Ok [(0, 0, 0); (10, 0, 0)]) by reflexivity.
  split; [exact Hproj | split; [exact Hworld|]].
  refine (get_pairwise_transformation_overflow
            (H0 := Grid.collaborators [] []) Scenes.delayed Scenes.two_agents
            1 _ Hproj _ Hworld _ _).
  - lia.
  - simpl; lia.
  - simpl; lia.
Defined.

(** ** One agent: what [get_item_single_car] reads *)

Lemma od_get_int_keys `{Arrays} (s : string) (past : list (Z * pyval)) :
  od_get pykey_eqb (KStr s)
         (map (fun p : Z * pyval => (KInt (fst p), snd p)) past)
  = None.
Proof. induction past as [|p past IH]; simpl; [reflexivity | exact IH]. Qed.

Lemma retrieved_agent_sweep_pose `{Arrays} (v : pyval) :
  retrieved_agent v -> sweep_pose v = Raise KeyError.
Proof.
  intros (e & past & curr & ->). unfold sweep_pose. cbn.
  rewrite od_get_int_keys. reflexivity.
Qed.

Lemma retrieve_base_data_agents `{Collaborators} (self : dataset) (idx : Z)
    (data : list (string * pyval)) :
  retrieve_base_data self idx = Ok data ->
  Forall (fun item => retrieved_agent (snd item)) data.
Proof.
  unfold retrieve_base_data. intros Hdata. inv_bind Hdata.
  injection Hdata as <-. apply Forall_forall. intros item Hin.
  apply in_map_iff in Hin as (x & <- & _). simpl.
  unfold retrieved_agent, cav_data. eauto.
Qed.

Lemma py_range_pos (n : Z) : 1 <= n -> exists rest, py_range n = 0 :: rest.
Proof.
  intros Hn. unfold py_range.
  destruct (Z.to_nat n) as [|m] eqn:Hm; [lia|].
  simpl. eauto.
Qed.

Lemma py_range_none (n : Z) : n <= 0 -> py_range n = [].
Proof.
  intros Hn. unfold py_range.
  replace (Z.to_nat n) with O by lia. reflexivity.
Qed.

Section SingleCarFacts.
Context `{Collaborators}.
Variable self : dataset.

Lemma sweep_body_reads (selected_cav_base ego_pose : pyval)
    (locals : option points * option (list (string * fval))) (i : Z) :
  sweep_body self selected_cav_base ego_pose locals i
  = (pose <- sweep_pose selected_cav_base ;;
     lidar_np <- top_cloud selected_cav_base ;;
     Ok (Some (projection_of lidar_np (x1_to_x2 pose ego_pose)),
         Some (features_of self lidar_np))).
Proof.
  unfold sweep_body, sweep_pose, top_cloud, as_cloud.
  destruct (subscript selected_cav_base (KStr "past_k")) as [past_k|]; simpl;
    [|reflexivity].
  destruct (subscript past_k (KStr "params")) as [params_|]; simpl;
    [|reflexivity].
  destruct (subscript params_ (KStr "lidar_pose")) as [pose|]; simpl;
    [|reflexivity].
  destruct (subscript selected_cav_base (KStr "lidar_np")) as [lidar|]; simpl;
    [|reflexivity].
  destruct lidar; reflexivity.
Qed.

Lemma sweep_loop (selected_cav_base ego_pose : pyval) (sweeps : list Z) :
  forall locals projected processed,
    foldM (sweep_body self selected_cav_base ego_pose) sweeps locals
    = Ok (projected, processed) ->
    (sweeps = [] /\ locals = (projected, processed))
    \/ exists pose lidar_np,
         sweep_pose selected_cav_base = Ok pose
         /\ top_cloud selected_cav_base = Ok lidar_np
         /\ projected = Some (projection_of lidar_np (x1_to_x2 pose ego_pose))
         /\ processed = Some (features_of self lidar_np).
Proof.
  induction sweeps as [|i sweeps IH]; intros locals projected processed Hloop.
  - left. simpl in Hloop. injection Hloop as <-. split; reflexivity.
  - right. cbn [foldM] in Hloop. inv_bind Hloop.
    rewrite sweep_body_reads in Ha. inv_bind Ha. inv_bind Ha.
    injection Ha as <-.
    destruct (IH _ _ _ Hloop) as [[_ Hsame]|Hlater].
    + injection Hsame as <- <-. eauto 6.
    + exact Hlater.
Qed.
End SingleCarFacts.

(** X12.  An agent dictionary that [retrieve_base_data] returns is
    rejected by [get_item_single_car] as soon as there is a sweep to
    process: the first pass subscripts ['past_k'] with 'params', and the
    retrieved ['past_k'] is keyed by the sweep numbers. *)
Theorem get_item_single_car_rejects_retrieved `{Collaborators}
    (self : dataset) (idx : Z) (data : list (string * pyval))
    (item : string * pyval) (ego_pose idx' : pyval) :
  retrieve_base_data self idx = Ok data ->
  In item data ->
  1 <= k self ->
  get_item_single_car self (snd item) ego_pose idx' = Raise KeyError.
Proof.
  intros Hdata Hin Hk.
  pose proof (retrieve_base_data_agents self idx data Hdata) as Hagents.
  rewrite Forall_forall in Hagents. specialize (Hagents item Hin).
  unfold get_item_single_car.
  destruct (py_range_pos (k self) Hk) as [rest ->].
  cbn [foldM]. rewrite sweep_body_reads.
  rewrite (retrieved_agent_sweep_pose _ Hagents). reflexivity.
Qed.

Lemma get_item_single_car_rejects_retrieved_witness :
  retrieve_base_data (H0 := Grid.disk Fixtures.delayed_folders)
    Scenes.delayed 1
  = Ok Fixtures.delayed_sample
  /\ get_item_single_car (H0 := Grid.disk Fixtures.delayed_folders)
       Scenes.delayed
       (snd (nth 1 Fixtures.delayed_sample ("", VNone)))
       (Grid.pose 0 0) (VInt 1)
     = Raise KeyError.
Proof.
  assert (Hdata : retrieve_base_data (H0 := Grid.disk Fixtures.delayed_folders)
                    Scenes.delayed 1
                  = Ok Fixtures.delayed_sample) by (vm_compute; reflexivity).
  split; [exact Hdata|].
  refine (get_item_single_car_rejects_retrieved
            (H0 := Grid.disk Fixtures.delayed_folders) Scenes.delayed 1
            Fixtures.delayed_sample
            (nth 1 Fixtures.delayed_sample ("", VNone))
            (Grid.pose 0 0) (VInt 1) Hdata _ _).
  - right; left; reflexivity.
  - vm_compute; discriminate.
Defined.

(** X13.  Without a sweep ([k <= 0]) [get_item_single_car] returns on no
    argument at all: the locals [projected_lidar] and [processed_lidar]
    are bound inside the sweep loop only, so when the label part goes
    through the closing dictionary raises [NameError]. *)
Theorem get_item_single_car_needs_a_sweep `{Collaborators} (self : dataset)
    (selected_cav_base ego_pose idx : pyval) :
  k self <= 0 ->
  exists e,
    get_item_single_car self selected_cav_base ego_pose idx = Raise e
    /\ forall curr pose boxes mask ids kept,
         subscript selected_cav_base (KStr "curr") = Ok curr ->
         curr_pose selected_cav_base = Ok pose ->
         generate_object_center [curr] ego_pose = Ok (boxes, mask, ids) ->
         mask_select boxes mask = Ok kept ->
         e = NameError.
Proof.
  intros Hk. unfold get_item_single_car, curr_pose.
  rewrite (py_range_none _ Hk). cbn [foldM]. rewrite bind_ret.
  destruct (subscript selected_cav_base (KStr "curr")) as [curr|e1]; simpl.
  2:{ exists e1; split; [reflexivity | intros; discriminate]. }
  destruct (subscript curr (KStr "params")) as [params_|e2]; simpl.
  2:{ exists e2; split; [reflexivity|].
      intros c p b m i kept Hc. injection Hc as <-. simpl. discriminate. }
  destruct (subscript params_ (KStr "lidar_pose")) as [pose|e3]; simpl.
  2:{ exists e3; split; [reflexivity|].
      intros c p b m i kept Hc. injection Hc as <-. simpl. discriminate. }
  destruct (generate_object_center [curr] ego_pose) as [[[boxes mask] ids]|e4]
    eqn:Hgen; simpl.
  2:{ exists e4; split; [reflexivity|].
      intros c p b m i kept Hc. injection Hc as <-. intros _ Hg.
      rewrite Hgen in Hg. discriminate. }
  destruct (mask_select boxes mask) as [kept|e5] eqn:Hsel; simpl.
  2:{ exists e5; split; [reflexivity|].
      intros c p b m i kept Hc. injection Hc as <-. intros _ Hg.
      rewrite Hgen in Hg. injection Hg as <- <- <-.
      rewrite Hsel. discriminate. }
  exists NameError; split; [reflexivity | intros; reflexivity].
Qed.

Lemma get_item_single_car_needs_a_sweep_witness :
  k Fixtures.no_sweep <= 0
  /\ get_item_single_car (H0 := Grid.collaborators [] []) Fixtures.no_sweep
       Scenes.agent_650 (Grid.pose 0 0) (VInt 0)
     = Raise NameError.
Proof.
  assert (Hk : k Fixtures.no_sweep <= 0) by (vm_compute; discriminate).
  split; [exact Hk|].
  destruct (get_item_single_car_needs_a_sweep
              (H0 := Grid.collaborators [] []) Fixtures.no_sweep
              Scenes.agent_650 (Grid.pose 0 0) (VInt 0) Hk)
    as (e & Hraise & Hname).
  rewrite Hraise. f_equal.
  apply (Hname (VDict [(KStr "params", Grid.yaml_of 10 0);
                       (KStr "lidar_np", VCloud Scenes.returns)])
               (Grid.pose 10 0) [] [] [] []); reflexivity.
Defined.

(** X14.  Whenever [get_item_single_car] returns, there was at least one
    sweep, and every field is read from fixed places of the agent's
    dictionary: the features are those of the top-level ['lidar_np'] cloud,
    cropped in the agent's own frame, whatever the ego pose and however
    many sweeps; the projected cloud is that cloud before the crop, moved
    by the transformation of the pose under ['past_k']['params']; the
    transformation matrix is the one of the current frame's pose; the boxes
    are the masked rows of [generate_object_center] on the current frame,
    the ids its ids unmasked. *)
Theorem get_item_single_car_returns `{Collaborators} (self : dataset)
    (selected_cav_base ego_pose idx : pyval) (out : cav_processed) :
  get_item_single_car self selected_cav_base ego_pose idx = Ok out ->
  1 <= k self
  /\ exists lidar_np past_pose curr pose boxes mask,
       top_cloud selected_cav_base = Ok lidar_np
       /\ sweep_pose selected_cav_base = Ok past_pose
       /\ subscript selected_cav_base (KStr "curr") = Ok curr
       /\ curr_pose selected_cav_base = Ok pose
       /\ generate_object_center [curr] ego_pose
          = Ok (boxes, mask, object_ids out)
       /\ mask_select boxes mask = Ok (object_bbx_center out)
       /\ processed_features out = features_of self lidar_np
       /\ projected_lidar out
          = projection_of lidar_np (x1_to_x2 past_pose ego_pose)
       /\ transformation_matrix out = x1_to_x2 pose ego_pose.
Proof.
  unfold get_item_single_car. intros Hout.
  apply bind_Ok in Hout. destruct Hout as ([projected processed] & Hloop & Hout).
  apply bind_Ok in Hout. destruct Hout as (curr & Hcurr & Hout).
  apply bind_Ok in Hout. destruct Hout as (params_ & Hparams & Hout).
  apply bind_Ok in Hout. destruct Hout as (pose & Hpose & Hout).
  apply bind_Ok in Hout.
  destruct Hout as ([[boxes mask] ids] & Hgen & Hout).
  apply bind_Ok in Hout. destruct Hout as (kept & Hkept & Hout).
  apply bind_Ok in Hout. destruct Hout as (projected_ & Hprojected & Hout).
  apply bind_Ok in Hout. destruct Hout as (processed_ & Hprocessed & Hout).
  injection Hout as <-. cbn [object_bbx_center object_ids projected_lidar
                             processed_features transformation_matrix].
  destruct (sweep_loop self _ _ _ _ _ _ Hloop)
    as [[_ Hnone]|(past_pose & lidar_np & Hpast & Hcloud & -> & ->)].
  { injection Hnone as <- <-. discriminate Hprojected. }
  injection Hprojected as <-. injection Hprocessed as <-.
  split.
  - destruct (Z.leb_spec 1 (k self)) as [Hk|Hk]; [exact Hk|].
    rewrite py_range_none in Hloop by lia. discriminate Hloop.
  - exists lidar_np, past_pose, curr, pose, boxes, mask.
    repeat split; try assumption.
    unfold curr_pose. rewrite Hcurr. simpl. rewrite Hparams. simpl.
    exact Hpose.
Qed.

Lemma get_item_single_car_returns_witness :
  get_item_single_car (H0 := Grid.collaborators [] []) Scenes.single
    Scenes.agent_650 (Grid.pose 0 0) (VInt 0)
  = Ok Scenes.agent_650_processed
  /\ 1 <= k Scenes.single
  /\ top_cloud (H := Grid.arrays) Scenes.agent_650 = Ok Scenes.returns.
Proof.
  assert (Hout : get_item_single_car (H0 := Grid.collaborators [] [])
                   Scenes.single Scenes.agent_650 (Grid.pose 0 0) (VInt 0)
                 = Ok Scenes.agent_650_processed) by reflexivity.
  split; [exact Hout|].
  destruct (get_item_single_car_returns (H0 := Grid.collaborators [] [])
              Scenes.single Scenes.agent_650 (Grid.pose 0 0) (VInt 0)
              Scenes.agent_650_processed Hout) as [Hk _].
  split; [exact Hk | reflexivity].
Defined.



(** ** The search for the ego agent *)

Lemma last_cons_default {A : Type} (a : A) (l : list A) (d : A) :
  last (a :: l) d = last l a.
Proof.
  revert a d. induction l as [|b l IH]; intros a d; [reflexivity|].
  change (last (a :: b :: l) d) with (last (b :: l) d).
  rewrite (IH b d), (IH b a). reflexivity.
Qed.

Section EgoSearch.
Context `{Arrays}.

Lemma find_ego_step (id : string) (content : pyval)
    (items : list (string * pyval)) (cav_id : option string) :
  find_ego ((id, content) :: items) cav_id
  = (flag <- ego_flagged content ;;
     if (flag : bool)
     then pose <- top_pose content ;; Ok (Some id, pose, Some id)
     else find_ego items (Some id)).
Proof.
  simpl. unfold ego_flagged, top_pose.
  destruct (subscript content (KStr "ego")) as [ego|]; simpl; [|reflexivity].
  destruct (truthy ego) as [[|]|]; simpl; try reflexivity.
  destruct (subscript content (KStr "params")) as [params_|]; simpl;
    [|reflexivity].
  destruct (subscript params_ (KStr "lidar_pose")); reflexivity.
Qed.

Lemma last_visited_cons (id : string) (content : pyval)
    (items : list (string * pyval)) (cav_id : option string) :
  last_visited ((id, content) :: items) cav_id = last_visited items (Some id).
Proof. unfold last_visited. cbn [map fst]. apply last_cons_default. Qed.
End EgoSearch.

(** X15.  The search for the ego stops at the first agent whose ['ego']
    entry is true: it returns that agent's id, the pose under its
    ['params'], and leaves the loop variable on it; this is the only way
    it returns an id.  It returns no id exactly when every agent's flag is
    false, with an empty pose and the loop variable on the last agent. *)
Theorem find_ego_first_flagged `{Arrays} (items : list (string * pyval))
    (cav_id : option string) (id : string) (pose : pyval)
    (cav_id' : option string) :
  (find_ego items cav_id = Ok (Some id, pose, cav_id')
   <-> exists before content after,
         items = before ++ (id, content) :: after
         /\ Forall (fun item => ego_flagged (snd item) = Ok false) before
         /\ ego_flagged content = Ok true
         /\ top_pose content = Ok pose
         /\ cav_id' = Some id)
  /\ (find_ego items cav_id = Ok (None, pose, cav_id')
      <-> Forall (fun item => ego_flagged (snd item) = Ok false) items
          /\ pose = VList []
          /\ cav_id' = last_visited items cav_id).
Proof.
  revert cav_id.
  induction items as [|[id0 c] items IH]; intros cav_id.
  - split; split.
    + simpl; discriminate.
    + intros (before & content & after & Heq & _).
      destruct before; discriminate Heq.
    + simpl. intros Hnone. injection Hnone as <- <-.
      repeat split. constructor.
    + intros (_ & -> & ->). reflexivity.
  - rewrite find_ego_step, last_visited_cons.
    destruct (IH (Some id0)) as [IHsome IHnone].
    destruct (ego_flagged c) as [[|]|e] eqn:Hflag; simpl.
    + destruct (top_pose c) as [p|e] eqn:Hpose; simpl; split; split.
      * intros Hfound. injection Hfound as <- <- <-.
        exists [], c, items. repeat split; try assumption. constructor.
      * intros (before & content & after & Heq & Hbefore & _ & Hp & ->).
        destruct before as [|b before]; simpl in Heq.
        -- injection Heq as <- <-. rewrite Hpose in Hp.
           injection Hp as <-. reflexivity.
        -- injection Heq as <- _. inversion Hbefore; subst.
           simpl in *. congruence.
      * discriminate.
      * intros (Hall & _). inversion Hall; subst. simpl in *. congruence.
      * discriminate.
      * intros (before & content & after & Heq & Hbefore & _ & Hp & _).
        destruct before as [|b before]; simpl in Heq.
        -- injection Heq as _ <-. congruence.
        -- injection Heq as <- _. inversion Hbefore; subst.
           simpl in *. congruence.
      * discriminate.
      * intros (Hall & _). inversion Hall; subst. simpl in *. congruence.
    + split; split.
      * intros Hfound. apply IHsome in Hfound
          as (before & content & after & -> & Hbefore & Hf & Hp & ->).
        exists ((id0, c) :: before), content, after.
        repeat split; try assumption. constructor; assumption.
      * intros (before & content & after & Heq & Hbefore & Hf & Hp & ->).
        destruct before as [|b before]; simpl in Heq.
        -- injection Heq as _ <-. congruence.
        -- injection Heq as <- ->. inversion Hbefore; subst.
           apply IHsome. exists before, content, after.
           repeat split; assumption.
      * intros Hnone. apply IHnone in Hnone as (Hall & -> & ->).
        repeat split. constructor; assumption.
      * intros (Hall & -> & ->). inversion Hall; subst.
        apply IHnone. repeat split. assumption.
    + split; split.
      * discriminate.
      * intros (before & content & after & Heq & Hbefore & Hf & _).
        destruct before as [|b before]; simpl in Heq.
        -- injection Heq as _ <-. congruence.
        -- injection Heq as <- _. inversion Hbefore; subst.
           simpl in *. congruence.
      * discriminate.
      * intros (Hall & _). inversion Hall; subst. simpl in *. congruence.
Qed.

(** ** The communication-range loop and the dictionary it leaves *)

Section CommRangeOrder.
Context `{Arrays}.
Variable self : dataset.
Variable ego_lidar_pose : pyval.

Lemma comm_range_body_step (too_far : list string) (poses : list pyval)
    (ids : list string) (item : string * pyval) :
  comm_range_body self ego_lidar_pose (too_far, poses, ids) item
  = (distance <- planar_distance (snd item) ego_lidar_pose ;;
     if fgtb distance (comm_range (self_params self))
     then Ok (too_far ++ [fst item], poses, ids)
     else pose <- top_pose (snd item) ;;
          Ok (too_far, poses ++ [pose], ids ++ [fst item])).
Proof.
  destruct item as [cav_id content]. unfold comm_range_body, top_pose.
  cbn [fst snd].
  destruct (planar_distance content ego_lidar_pose) as [distance|]; simpl;
    [|reflexivity].
  destruct (fgtb distance (comm_range (self_params self))); [reflexivity|].
  destruct (subscript content (KStr "params")) as [params_|]; simpl;
    [|reflexivity].
  destruct (subscript params_ (KStr "lidar_pose")); reflexivity.
Qed.

Lemma comm_range_loop_poses (base_data_dict : list (string * pyval)) :
  forall too_far poses ids too_far' poses' ids',
    foldM (comm_range_body self ego_lidar_pose) base_data_dict
          (too_far, poses, ids)
    = Ok (too_far', poses', ids') ->
    exists new,
      mapM (fun item => top_pose (snd item))
           (retained self ego_lidar_pose base_data_dict)
      = Ok new
      /\ poses' = poses ++ new.
Proof.
  induction base_data_dict as [|item rest IH];
    intros too_far poses ids too_far' poses' ids' Hloop.
  - simpl in Hloop. injection Hloop as _ <- _.
    exists []. split; [reflexivity | symmetry; apply app_nil_r].
  - cbn [foldM] in Hloop.
    apply bind_Ok in Hloop. destruct Hloop as (st & Hstep & Hloop).
    rewrite comm_range_body_step in Hstep.
    apply bind_Ok in Hstep. destruct Hstep as (distance & Hdist & Hstep).
    unfold retained. cbn [filter]. unfold beyond_range at 1. rewrite Hdist.
    destruct (fgtb distance (comm_range (self_params self))).
    + injection Hstep as <-. cbn [negb].
      exact (IH _ _ _ _ _ _ Hloop).
    + apply bind_Ok in Hstep. destruct Hstep as (pose & Hpose & Hstep).
      injection Hstep as <-. cbn [negb mapM]. rewrite Hpose.
      destruct (IH _ _ _ _ _ _ Hloop) as (new & Hnew & ->).
      fold (retained self ego_lidar_pose rest). rewrite Hnew.
      exists (pose :: new). split; [reflexivity|].
      rewrite <- app_assoc. reflexivity.
Qed.
End CommRangeOrder.

Lemma od_pop_skips {V : Type} (key : string) (v : V) (keys : list string) :
  ~ In key keys ->
  forall d,
    foldM (fun d id => od_pop String.eqb id d) keys ((key, v) :: d)
    = (d' <- foldM (fun d id => od_pop String.eqb id d) keys d ;;
       Ok ((key, v) :: d')).
Proof.
  induction keys as [|k0 keys IH]; intros Hnot d; [reflexivity|].
  cbn [foldM od_pop].
  assert (Hne : String.eqb k0 key = false).
  { apply String.eqb_neq. intros ->. apply Hnot. left; reflexivity. }
  rewrite Hne.
  destruct (od_pop String.eqb k0 d) as [d0|e]; simpl; [|reflexivity].
  apply IH. intros Hin. apply Hnot. right; exact Hin.
Qed.

Lemma od_pop_filtered {V : Type} (p : string * V -> bool)
    (d : list (string * V)) :
  NoDup (od_keys d) ->
  foldM (fun d id => od_pop String.eqb id d) (map fst (filter p d)) d
  = Ok (filter (fun item => negb (p item)) d).
Proof.
  induction d as [|[key v] d IH]; intros Hnd; [reflexivity|].
  unfold od_keys in Hnd. cbn [map fst] in Hnd.
  apply NoDup_cons_iff in Hnd as [Hnot Hnd].
  cbn [filter]. destruct (p (key, v)) eqn:Hp; cbn [negb].
  - cbn [map fst foldM od_pop]. rewrite String.eqb_refl, bind_ret.
    apply IH; exact Hnd.
  - rewrite od_pop_skips.
    + rewrite IH by exact Hnd. reflexivity.
    + intros Hin. apply Hnot. apply in_map_iff in Hin as (x & <- & Hx).
      apply filter_In in Hx as [Hx _]. apply in_map; exact Hx.
Qed.

Lemma world_matrices_of_poses `{Collaborators}
    (base_data_dict : list (string * pyval)) :
  forall poses,
    mapM (fun item => top_pose (snd item)) base_data_dict = Ok poses ->
    world_matrices base_data_dict = Ok (map x_to_world poses).
Proof.
  unfold world_matrices.
  induction base_data_dict as [|item rest IH]; intros poses Hposes.
  - simpl in Hposes. injection Hposes as <-. reflexivity.
  - cbn [mapM] in Hposes |- *.
    apply bind_Ok in Hposes. destruct Hposes as (pose & Hpose & Hposes).
    apply bind_Ok in Hposes. destruct Hposes as (more & Hmore & Hposes).
    injection Hposes as <-.
    unfold top_pose in Hpose.
    apply bind_Ok in Hpose. destruct Hpose as (params_ & Hparams & Hpose).
    rewrite Hparams. simpl. rewrite Hpose. simpl.
    rewrite (IH more Hmore). reflexivity.
Qed.

(** X16.  When the communication-range loop returns, removing the ids in
    [too_far] leaves exactly the retained agents, in their original order;
    [cav_id_list] are their ids and [lidar_pose_list] the poses under their
    ['params'], in that same order.  So the world matrices that
    [get_pairwise_transformation] builds from the reduced dictionary are
    those of the rows of [lidar_poses], agent by agent. *)
Theorem comm_range_filter_keeps_order `{Collaborators} (self : dataset)
    (base_data_dict : list (string * pyval)) (ego_lidar_pose : pyval)
    (too_far : list string) (lidar_pose_list : list pyval)
    (cav_id_list : list string) :
  NoDup (od_keys base_data_dict) ->
  comm_range_filter self base_data_dict ego_lidar_pose
  = Ok (too_far, lidar_pose_list, cav_id_list) ->
  foldM (fun d id => od_pop String.eqb id d) too_far base_data_dict
  = Ok (retained self ego_lidar_pose base_data_dict)
  /\ cav_id_list = od_keys (retained self ego_lidar_pose base_data_dict)
  /\ mapM (fun item => top_pose (snd item))
          (retained self ego_lidar_pose base_data_dict)
     = Ok lidar_pose_list
  /\ world_matrices (retained self ego_lidar_pose base_data_dict)
     = Ok (map x_to_world lidar_pose_list).
Proof.
  intros Hnd Hloop. unfold comm_range_filter in Hloop.
  destruct (comm_range_loop self ego_lidar_pose _ _ _ _ _ _ _ Hloop)
    as (Hfar & Hids & _).
  destruct (comm_range_loop_poses self ego_lidar_pose _ _ _ _ _ _ _ Hloop)
    as (new & Hnew & Hposes).
  simpl in Hfar, Hids, Hposes. subst too_far cav_id_list lidar_pose_list.
  split; [|split; [|split]].
  - apply od_pop_filtered; exact Hnd.
  - reflexivity.
  - exact Hnew.
  - apply world_matrices_of_poses; exact Hnew.
Qed.

Lemma comm_range_filter_keeps_order_witness :
  comm_range_filter (H := Grid.arrays) Scenes.single Fixtures.three_agents
    (Grid.pose 0 0)
  = Ok (["659"], [Grid.pose 0 0; Grid.pose 10 0], ["641"; "650"])
  /\ foldM (fun d id => od_pop String.eqb id d) ["659"] Fixtures.three_agents
     = Ok Scenes.two_agents
  /\ world_matrices (H0 := Grid.collaborators [] []) Scenes.two_agents
     = Ok [(0, 0, 0); (10, 0, 0)].
Proof.
  assert (Hloop : comm_range_filter (H := Grid.arrays) Scenes.single
                    Fixtures.three_agents (Grid.pose 0 0)
                  = Ok (["659"], [Grid.pose 0 0; Grid.pose 10 0],
                        ["641"; "650"])) by reflexivity.
  assert (Hnd : NoDup (od_keys Fixtures.three_agents)).
  { repeat constructor; simpl; intuition discriminate. }
  split; [exact Hloop|].
  destruct (comm_range_filter_keeps_order (H0 := Grid.collaborators [] [])
              Scenes.single Fixtures.three_agents (Grid.pose 0 0)
              ["659"] [Grid.pose 0 0; Grid.pose 10 0] ["641"; "650"]
              Hnd Hloop) as (Hpop & _ & _ & Hworld).
  split; [exact Hpop | exact Hworld].
Defined.

(** ** The pose rows *)

Lemma chunk6_rows `{Arrays} (l : list F) :
  forall fuel,
    (List.length l <= fuel)%nat ->
    Nat.modulo (List.length l) 6 = 0%nat ->
    Forall (fun r => List.length r = 6%nat) (chunk6 fuel l)
    /\ List.concat (chunk6 fuel l) = l.
Proof.
  intros fuel. revert l.
  induction fuel as [|fuel IH]; intros l Hfuel Hmod.
  - destruct l; [split; [constructor | reflexivity] | simpl in Hfuel; lia].
  - destruct l as [|a l]; [split; [constructor | reflexivity]|].
    cbn [chunk6].
    assert (Hsix : (6 <= List.length (a :: l))%nat).
    { destruct (Nat.lt_ge_cases (List.length (a :: l)) 6) as [Hlt|Hge];
        [|exact Hge].
      rewrite Nat.mod_small in Hmod by exact Hlt. simpl in Hmod. lia. }
    destruct (IH (skipn 6 (a :: l))) as [Hrows Hflat].
    + rewrite length_skipn. lia.
    + rewrite length_skipn.
      replace (List.length (a :: l))
        with (List.length (a :: l) - 6 + 1 * 6)%nat in Hmod by lia.
      rewrite Nat.Div0.mod_add in Hmod. exact Hmod.
    + split.
      * constructor; [|exact Hrows]. rewrite length_firstn. lia.
      * cbn [List.concat]. rewrite Hflat. apply firstn_skipn.
Qed.

Lemma chunk6_of_rows `{Arrays} (rows : list (list F)) :
  Forall (fun r => List.length r = 6%nat) rows ->
  forall fuel,
    (List.length rows <= fuel)%nat ->
    chunk6 fuel (List.concat rows) = rows.
Proof.
  induction 1 as [|r rows Hr _ IH]; intros fuel Hfuel.
  - destruct fuel; reflexivity.
  - destruct fuel as [|fuel]; [simpl in Hfuel; lia|].
    cbn [List.concat].
    destruct r as [|a r]; [discriminate Hr|].
    change (chunk6 (S fuel) ((a :: r) ++ List.concat rows))
      with (firstn 6 ((a :: r) ++ List.concat rows)
            :: chunk6 fuel (skipn 6 ((a :: r) ++ List.concat rows))).
    assert (Hfirst : firstn 6 ((a :: r) ++ List.concat rows) = a :: r).
    { rewrite firstn_app, Hr, Nat.sub_diag.
      rewrite firstn_all2 by (rewrite Hr; lia).
      cbn [firstn]. apply app_nil_r. }
    assert (Hskip : skipn 6 ((a :: r) ++ List.concat rows) = List.concat rows).
    { rewrite skipn_app, Hr, Nat.sub_diag.
      rewrite skipn_all2 by (rewrite Hr; lia). reflexivity. }
    rewrite Hfirst, Hskip.
    rewrite IH by (simpl in Hfuel; lia). reflexivity.
Qed.

Lemma length_concat_uniform {A : Type} (w : nat) (rows : list (list A)) :
  Forall (fun r => List.length r = w) rows ->
  List.length (List.concat rows) = (List.length rows * w)%nat.
Proof.
  induction 1 as [|r rows Hr _ IH]; [reflexivity|].
  cbn [List.concat List.length]. rewrite length_app, Hr, IH. lia.
Qed.

Lemma uniform_widths {A : Type} (w : nat) (rows : list (list A)) :
  Forall (fun r => List.length r = w) rows ->
  forallb (fun r => Nat.eqb (List.length r)
                      match rows with r0 :: _ => List.length r0 | [] => O end)
          rows
  = true.
Proof.
  intros Hall. apply forallb_forall. intros r Hr.
  rewrite Forall_forall in Hall. rewrite (Hall r Hr).
  destruct rows as [|r0 rows]; [destruct Hr|].
  rewrite (Hall r0) by (left; reflexivity). apply Nat.eqb_refl.
Qed.

(** X17.  [np.array(lidar_pose_list).reshape(-1, 6)] on poses of one
    common length: poses of six numbers come back unchanged, one row per
    retained agent; for any other length the call returns exactly when the
    total count is a multiple of six, and then the rows are cut from the
    flattened poses, six numbers at a time, without regard to the agents;
    otherwise it raises [ValueError]. *)
Theorem reshape_poses_rows `{Arrays} (lidar_pose_list : list pyval)
    (rows : list (list F)) (w : nat) :
  mapM pose_row lidar_pose_list = Ok rows ->
  Forall (fun r => List.length r = w) rows ->
  (w = 6%nat -> reshape_poses lidar_pose_list = Ok rows)
  /\ (Nat.modulo (List.length rows * w) 6 = 0%nat ->
      exists out,
        reshape_poses lidar_pose_list = Ok out
        /\ Forall (fun r => List.length r = 6%nat) out
        /\ List.concat out = List.concat rows)
  /\ (Nat.modulo (List.length rows * w) 6 <> 0%nat ->
      reshape_poses lidar_pose_list = Raise ValueError).
Proof.
  intros Hrows Hwidth. unfold reshape_poses. rewrite Hrows, bind_ret.
  cbv zeta. rewrite (uniform_widths w rows Hwidth). cbn [negb].
  rewrite (length_concat_uniform w rows Hwidth).
  split; [|split].
  - intros ->.
    replace (Nat.modulo (List.length rows * 6) 6) with O
      by (symmetry; apply Nat.Div0.mod_mul).
    cbn [Nat.eqb negb]. f_equal.
    apply chunk6_of_rows; [exact Hwidth | lia].
  - intros Hmod. rewrite Hmod. cbn [Nat.eqb negb].
    eexists; split; [reflexivity|].
    apply chunk6_rows.
    + rewrite (length_concat_uniform w rows Hwidth). lia.
    + rewrite (length_concat_uniform w rows Hwidth). exact Hmod.
  - intros Hmod.
    destruct (Nat.eqb_spec (Nat.modulo (List.length rows * w) 6) 0)
      as [Hzero|_]; [contradiction | reflexivity].
Qed.

Lemma reshape_poses_rows_witness :
  mapM (pose_row (H := Grid.arrays)) [Grid.pose 0 0; Grid.pose 10 0]
  = Ok [[0; 0; 0; 0; 0; 0]; [10; 0; 0; 0; 0; 0]]
  /\ reshape_poses (H := Grid.arrays) [Grid.pose 0 0; Grid.pose 10 0]
     = Ok [[0; 0; 0; 0; 0; 0]; [10; 0; 0; 0; 0; 0]].
Proof.
  assert (Hrows : mapM (pose_row (H := Grid.arrays))
                    [Grid.pose 0 0; Grid.pose 10 0]
                  = Ok [[0; 0; 0; 0; 0; 0]; [10; 0; 0; 0; 0; 0]])
    by reflexivity.
  split; [exact Hrows|].
  refine (proj1 (reshape_poses_rows (H := Grid.arrays)
                   [Grid.pose 0 0; Grid.pose 10 0]
                   [[0; 0; 0; 0; 0; 0]; [10; 0; 0; 0; 0; 0]] 6 Hrows _) _).
  - repeat constructor.
  - reflexivity.
Defined.

(** ** Retrieved dictionaries and the pose under ['params'] *)

Lemma retrieved_agent_top_pose `{Arrays} (v : pyval) :
  retrieved_agent v -> top_pose v = Raise KeyError.
Proof. intros (e & past & curr & ->). reflexivity. Qed.

(** X18.  What [retrieve_base_data] returns has no pose under an agent's
    ['params']: without [proj_first], [get_pairwise_transformation] raises
    [KeyError] on it (on any non-empty part of it, whatever [max_cav]), and
    the communication-range loop returns on it only when it retains no
    agent at all, every agent being out of range. *)
Theorem retrieved_dictionary_has_no_top_pose `{Collaborators} (self : dataset)
    (idx : Z) (data : list (string * pyval)) :
  retrieve_base_data self idx = Ok data ->
  (forall item rest max_cav_,
     incl (item :: rest) data ->
     proj_first self = false ->
     0 <= max_cav_ ->
     get_pairwise_transformation self (item :: rest) max_cav_
     = Raise KeyError)
  /\ (forall ego_lidar_pose too_far lidar_pose_list cav_id_list,
        comm_range_filter self data ego_lidar_pose
        = Ok (too_far, lidar_pose_list, cav_id_list) ->
        too_far = od_keys data
        /\ lidar_pose_list = []
        /\ cav_id_list = []).
Proof.
  intros Hdata.
  pose proof (retrieve_base_data_agents self idx data Hdata) as Hagents.
  rewrite Forall_forall in Hagents.
  split.
  - intros item rest max_cav_ Hincl Hproj Hmax.
    unfold get_pairwise_transformation, tile_eye.
    replace (max_cav_ <? 0) with false by lia. rewrite bind_ret, Hproj.
    unfold world_matrices. cbn [mapM].
    assert (Hpose : top_pose (snd item) = Raise KeyError).
    { apply retrieved_agent_top_pose, Hagents, Hincl. left; reflexivity. }
    unfold top_pose in Hpose.
    destruct (subscript (snd item) (KStr "params")) as [params_|e]; simpl in *.
    + rewrite Hpose. reflexivity.
    + injection Hpose as ->. reflexivity.
  - intros ego_lidar_pose too_far lidar_pose_list cav_id_list Hloop.
    unfold comm_range_filter in Hloop.
    destruct (comm_range_loop self ego_lidar_pose _ _ _ _ _ _ _ Hloop)
      as (Hfar & Hids & _).
    destruct (comm_range_loop_poses self ego_lidar_pose _ _ _ _ _ _ _ Hloop)
      as (new & Hnew & Hposes).
    simpl in Hfar, Hids, Hposes. subst too_far cav_id_list lidar_pose_list.
    assert (Hnone : retained self ego_lidar_pose data = []).
    { destruct (retained self ego_lidar_pose data) as [|item rest] eqn:Hkept;
        [reflexivity|].
      assert (Hin : In item (retained self ego_lidar_pose data))
        by (rewrite Hkept; left; reflexivity).
      unfold retained in Hin. apply filter_In in Hin as [Hin _].
      cbn [mapM] in Hnew.
      rewrite (retrieved_agent_top_pose _ (Hagents item Hin)) in Hnew.
      discriminate Hnew. }
    fold (retained self ego_lidar_pose data). rewrite Hnone in *.
    simpl in Hnew. injection Hnew as <-.
    repeat split.
    unfold od_keys. f_equal.
    unfold retained in Hnone.
    clear - Hnone. induction data as [|item data IH]; [reflexivity|].
    cbn [filter] in *.
    destruct (beyond_range self ego_lidar_pose item); cbn [negb] in Hnone.
    + f_equal. apply IH; exact Hnone.
    + discriminate Hnone.
Qed.

Lemma retrieved_dictionary_has_no_top_pose_witness :
  retrieve_base_data (H0 := Grid.disk Fixtures.delayed_folders)
    Scenes.delayed 1
  = Ok Fixtures.delayed_sample
  /\ get_pairwise_transformation (H0 := Grid.disk Fixtures.delayed_folders)
       Scenes.delayed Fixtures.delayed_sample 5
     = Raise KeyError.
Proof.
  assert (Hdata : retrieve_base_data (H0 := Grid.disk Fixtures.delayed_folders)
                    Scenes.delayed 1
                  = Ok Fixtures.delayed_sample) by (vm_compute; reflexivity).
  split; [exact Hdata|].
  refine (proj1 (retrieved_dictionary_has_no_top_pose
                   (H0 := Grid.disk Fixtures.delayed_folders)
                   Scenes.delayed 1 Fixtures.delayed_sample Hdata)
                _ _ 5 _ _ _).
  - apply incl_refl.
  - reflexivity.
  - lia.
Defined.
